(** * go-blog: request-processing pipeline

    A shallow embedding of the blog API's request pipeline: the models
    package, the field validators, the error classifier, the partial-update
    query builders of the database package, and the HTTP handlers that
    compose them.  Go strings are byte strings ([string]), Go ints are [Z]. *)

From Stdlib Require Import ZArith List String Ascii Bool Lia DecimalString.
From Stdlib Require Import Permutation Sorted.
Import ListNotations.
Set Warnings "-register-all".
Open Scope string_scope.
Open Scope list_scope.

(** ** Go primitives used by the sources *)

Module Go.

(** [len(s)] on a string: its number of bytes. *)
Definition len (s : string) : Z := Z.of_nat (String.length s).

(** [s[i]] as a byte value; the sources only index inside the string. *)
Definition index (s : string) (i : nat) : Z :=
  match String.get i s with
  | Some c => Z.of_nat (nat_of_ascii c)
  | None => 0
  end.

(** Arithmetic on the [byte] type wraps around modulo 256. *)
Definition byte_add (b k : Z) : Z := ((b + k) mod 256)%Z.
Definition byte_sub (b k : Z) : Z := ((b - k) mod 256)%Z.

(** [fmt.Sprintf("%d", n)]. *)
Definition itoa (n : Z) : string := NilZero.string_of_int (Z.to_int n).

(** A name between double quotes, as PostgreSQL writes identifiers in its
    messages. *)
Definition quoted (s : string) : string :=
  String "034" (s ++ String "034" EmptyString).

Definition backslash : string := String "092" EmptyString.

(** One hexadecimal digit, lower case. *)
Definition hex (n : Z) : string :=
  String.substring (Z.to_nat n) 1 "0123456789abcdef".

(** [strconv.Quote] on one byte below 0x80: the quote and the backslash get
    a backslash, the control characters their escape.  A byte from 0x80 on is
    kept, as [strconv.Quote] keeps the printable runes such bytes encode. *)
Definition escape (c : ascii) : string :=
  let b := Z.of_nat (nat_of_ascii c) in
  if ((b =? 34) || (b =? 92))%Z then backslash ++ String c EmptyString
  else if (b =? 7)%Z then backslash ++ "a"
  else if (b =? 8)%Z then backslash ++ "b"
  else if (b =? 12)%Z then backslash ++ "f"
  else if (b =? 10)%Z then backslash ++ "n"
  else if (b =? 13)%Z then backslash ++ "r"
  else if (b =? 9)%Z then backslash ++ "t"
  else if (b =? 11)%Z then backslash ++ "v"
  else if ((b <? 32) || (b =? 127))%Z then
    backslash ++ "x" ++ hex (b / 16) ++ hex (b mod 16)
  else String c EmptyString.

Fixpoint escaped (s : string) : string :=
  match s with
  | EmptyString => EmptyString
  | String c rest => escape c ++ escaped rest
  end.

(** [strconv.Quote]. *)
Definition Quote (s : string) : string :=
  String "034" (escaped s ++ String "034" EmptyString).

(** Go's [error] values, as seen by this program: the sentinel
    [sql.ErrNoRows], which callers compare by identity, and errors that
    only carry a message ([fmt.Errorf], driver errors). *)
Inductive error : Type :=
| ErrNoRows
| Errorf (msg : string).

Definition Error (e : error) : string :=
  match e with
  | ErrNoRows => "sql: no rows in result set"
  | Errorf msg => msg
  end.

(** A Go result pair [(value, err)]: exactly one side is meaningful. *)
Inductive result (A : Type) : Type :=
| Ok (a : A)
| Err (e : error).
Arguments Ok {A} a.
Arguments Err {A} e.

(** [fmt.Errorf(prefix + "%w", err)]. *)
Definition wrap (prefix : string) (e : error) : error :=
  Errorf (prefix ++ Error e).

(** The value of a string of decimal digits. *)
Fixpoint decimal (s : string) (acc : Z) : option Z :=
  match s with
  | EmptyString => Some acc
  | String c rest =>
      let d := Z.of_nat (nat_of_ascii c) in
      if ((48 <=? d) && (d <=? 57))%Z then decimal rest (10 * acc + (d - 48))%Z
      else None
  end.

(** [strconv.Atoi]: an optional sign and at least one decimal digit,
    within the range of a 64-bit [int]. *)
Definition Atoi (s : string) : result Z :=
  let syntax := Errorf ("strconv.Atoi: parsing " ++ Quote s ++ ": invalid syntax") in
  let range := Errorf ("strconv.Atoi: parsing " ++ Quote s ++ ": value out of range") in
  let '(neg, body) :=
    match s with
    | String c rest =>
        if (c =? "-")%char then (true, rest)
        else if (c =? "+")%char then (false, rest)
        else (false, s)
    | EmptyString => (false, s)
    end in
  if body =? "" then Err syntax
  else
    match decimal body 0 with
    | None => Err syntax
    | Some n =>
        let v := if neg then (- n)%Z else n in
        if ((- 2 ^ 63 <=? v) && (v <=? 2 ^ 63 - 1))%Z then Ok v else Err range
    end.

End Go.

(** ** The relational store behind database/sql

    The program talks to PostgreSQL through query text and positional
    arguments.  This module is the store's side of that conversation for the
    statements the program sends: a tokenizer and parser for them, and their
    effect on the two tables of schema.sql (primary keys drawn from a
    sequence, UNIQUE on users.username and users.email, the foreign key of
    posts.user_id with ON DELETE CASCADE, the widths of the VARCHAR columns).
    The INTEGER columns hold unbounded integers. *)

Module sql.
Import Go.

Inductive Value : Type :=
| VInt (z : Z)
| VStr (s : string)
| VTime (t : Z).

Definition Value_eqb (a b : Value) : bool :=
  match a, b with
  | VInt x, VInt y => (x =? y)%Z
  | VStr x, VStr y => x =? y
  | VTime x, VTime y => (x =? y)%Z
  | _, _ => false
  end.

(** *** Lexing *)

Definition is_space (c : ascii) : bool :=
  (c =? " ")%char || (c =? "009")%char || (c =? "010")%char || (c =? "013")%char.

Definition is_punct (c : ascii) : bool :=
  (c =? ",")%char || (c =? "(")%char || (c =? ")")%char.

(** The head of the result is the token in progress (possibly empty). *)
Fixpoint lex (q : string) : list string :=
  match q with
  | EmptyString => [EmptyString]
  | String c rest =>
      match lex rest with
      | [] => [String c EmptyString]
      | t :: ts =>
          if is_space c then EmptyString :: t :: ts
          else if is_punct c then EmptyString :: String c EmptyString :: t :: ts
          else String c t :: ts
      end
  end.

Definition tokenize (q : string) : list string :=
  filter (fun t => negb (t =? "")) (lex q).

Fixpoint digits (s : string) (acc : nat) : option nat :=
  match s with
  | EmptyString => Some acc
  | String c rest =>
      let d := nat_of_ascii c in
      if (48 <=? d)%nat && (d <=? 57)%nat then digits rest (10 * acc + (d - 48))
      else None
  end.

(** A positional parameter [$k], k >= 1. *)
Definition placeholder (t : string) : option nat :=
  match t with
  | String c (String d ds) =>
      if (c =? "$")%char then
        match digits (String d ds) 0 with
        | Some (S k) => Some (S k)
        | _ => None
        end
      else None
  | _ => None
  end.

(** *** Parsing *)

Inductive Stmt : Type :=
| Insert (table : string) (columns : list string) (values : list nat)
         (returning : list string)
| Select (columns : list string) (table : string) (wcol : string) (param : nat)
| SelectJoin (columns : list string) (ltable lalias rtable ralias : string)
             (on_left on_right : string) (wcol : string) (param : nat)
| Update (table : string) (sets : list (string * nat)) (wcol : string)
         (param : nat) (returning : list string)
| Delete (table : string) (wcol : string) (param : nat).

(** A comma-separated list of names, and what follows it. *)
Fixpoint parse_names (ts : list string) : list string * list string :=
  match ts with
  | [] => ([], [])
  | name :: ts1 =>
      match ts1 with
      | sep :: rest =>
          if sep =? "," then
            let (names, r) := parse_names rest in (name :: names, r)
          else ([name], ts1)
      | [] => ([name], [])
      end
  end.

(** A comma-separated list of placeholders. *)
Fixpoint parse_params (ts : list string) : option (list nat * list string) :=
  match ts with
  | [] => None
  | p :: ts1 =>
      match placeholder p with
      | None => None
      | Some k =>
          match ts1 with
          | sep :: rest =>
              if sep =? "," then
                match parse_params rest with
                | Some (ks, r) => Some (k :: ks, r)
                | None => None
                end
              else Some ([k], ts1)
          | [] => Some ([k], [])
          end
      end
  end.

(** A comma-separated list of [column = $k] assignments. *)
Fixpoint parse_sets (ts : list string) : option (list (string * nat) * list string) :=
  match ts with
  | col :: eq :: p :: ts1 =>
      if eq =? "=" then
        match placeholder p with
        | None => None
        | Some k =>
            match ts1 with
            | sep :: rest =>
                if sep =? "," then
                  match parse_sets rest with
                  | Some (sets, r) => Some ((col, k) :: sets, r)
                  | None => None
                  end
                else Some ([(col, k)], ts1)
            | [] => Some ([(col, k)], [])
            end
        end
      else None
  | _ => None
  end.

(** [WHERE col = $k] and nothing after it. *)
Definition parse_where (ts : list string) : option (string * nat) :=
  match ts with
  | [kw; col; eq; p] =>
      if (kw =? "WHERE") && (eq =? "=") then
        match placeholder p with
        | Some k => Some (col, k)
        | None => None
        end
      else None
  | _ => None
  end.

(** [WHERE col = $k RETURNING names]. *)
Definition parse_where_returning (ts : list string)
  : option (string * nat * list string) :=
  match ts with
  | kw :: col :: eq :: p :: ret :: names =>
      if (kw =? "WHERE") && (eq =? "=") && (ret =? "RETURNING") then
        match placeholder p, parse_names names with
        | Some k, (cols, []) => Some (col, k, cols)
        | _, _ => None
        end
      else None
  | _ => None
  end.

Definition parse_insert (ts : list string) : option Stmt :=
  match ts with
  | into :: table :: lp :: ts1 =>
      if (into =? "INTO") && (lp =? "(") then
        match parse_names ts1 with
        | (cols, rp :: vals :: lp2 :: ts2) =>
            if (rp =? ")") && (vals =? "VALUES") && (lp2 =? "(") then
              match parse_params ts2 with
              | Some (ks, rp2 :: ret :: names) =>
                  if (rp2 =? ")") && (ret =? "RETURNING") then
                    match parse_names names with
                    | (rcols, []) => Some (Insert table cols ks rcols)
                    | _ => None
                    end
                  else None
              | _ => None
              end
            else None
        | _ => None
        end
      else None
  | _ => None
  end.

Definition parse_select (ts : list string) : option Stmt :=
  match parse_names ts with
  | (cols, from :: table :: ts1) =>
      if from =? "FROM" then
        match ts1 with
        | lalias :: join :: rtable :: ralias :: on :: l :: eq :: r :: ts2 =>
            if (join =? "JOIN") && (on =? "ON") && (eq =? "=") then
              match parse_where ts2 with
              | Some (wcol, k) =>
                  Some (SelectJoin cols table lalias rtable ralias l r wcol k)
              | None => None
              end
            else None
        | _ =>
            match parse_where ts1 with
            | Some (wcol, k) => Some (Select cols table wcol k)
            | None => None
            end
        end
      else None
  | _ => None
  end.

Definition parse_update (ts : list string) : option Stmt :=
  match ts with
  | table :: set :: ts1 =>
      if set =? "SET" then
        match parse_sets ts1 with
        | Some (sets, ts2) =>
            match parse_where_returning ts2 with
            | Some (wcol, k, cols) => Some (Update table sets wcol k cols)
            | None => None
            end
        | None => None
        end
      else None
  | _ => None
  end.

Definition parse_delete (ts : list string) : option Stmt :=
  match ts with
  | from :: table :: ts1 =>
      if from =? "FROM" then
        match parse_where ts1 with
        | Some (wcol, k) => Some (Delete table wcol k)
        | None => None
        end
      else None
  | _ => None
  end.

Definition parse (q : string) : option Stmt :=
  match tokenize q with
  | kw :: ts =>
      if kw =? "INSERT" then parse_insert ts
      else if kw =? "SELECT" then parse_select ts
      else if kw =? "UPDATE" then parse_update ts
      else if kw =? "DELETE" then parse_delete ts
      else None
  | [] => None
  end.

(** *** Tables *)

Record UserRow : Type := mkUserRow
  { users_id : Z;
    users_username : string;
    users_email : string;
    users_password_hash : string;
    users_created_at : Z }.

Record PostRow : Type := mkPostRow
  { posts_id : Z;
    posts_title : string;
    posts_content : string;
    posts_user_id : Z;
    posts_created_at : Z }.

(** The two tables and the last value handed out by each id sequence. *)
Record DB : Type := mkDB
  { users : list UserRow;
    posts : list PostRow;
    users_id_seq : Z;
    posts_id_seq : Z }.

Definition users_get (c : string) (r : UserRow) : option Value :=
  if c =? "id" then Some (VInt (users_id r))
  else if c =? "username" then Some (VStr (users_username r))
  else if c =? "email" then Some (VStr (users_email r))
  else if c =? "password_hash" then Some (VStr (users_password_hash r))
  else if c =? "created_at" then Some (VTime (users_created_at r))
  else None.

Definition posts_get (c : string) (r : PostRow) : option Value :=
  if c =? "id" then Some (VInt (posts_id r))
  else if c =? "title" then Some (VStr (posts_title r))
  else if c =? "content" then Some (VStr (posts_content r))
  else if c =? "user_id" then Some (VInt (posts_user_id r))
  else if c =? "created_at" then Some (VTime (posts_created_at r))
  else None.

(** The number of characters of a UTF-8 string: every byte but a
    continuation byte (10xxxxxx) starts one. *)
Fixpoint chars (s : string) : nat :=
  match s with
  | EmptyString => O
  | String c rest =>
      let b := Z.of_nat (nat_of_ascii c) in
      if ((128 <=? b) && (b <? 192))%Z then chars rest else S (chars rest)
  end.

(** [VARCHAR(n)] takes a string of at most [n] characters. *)
Definition fits (n : nat) (s : string) : bool := (chars s <=? n)%nat.

(** The widths schema.sql declares. *)
Definition users_width (c : string) : option nat :=
  if c =? "username" then Some 50%nat
  else if c =? "email" then Some 255%nat
  else if c =? "password_hash" then Some 255%nat
  else None.

Definition posts_width (c : string) : option nat :=
  if c =? "title" then Some 255%nat else None.

(** Assignment to a column; the primary key is never assigned, and a
    value of the wrong type, or a string longer than the column is wide, is
    refused. *)
Definition users_set (c : string) (v : Value) (r : UserRow) : option UserRow :=
  if c =? "username" then
    match v with
    | VStr s =>
        if fits 50 s then
          Some (mkUserRow (users_id r) s (users_email r)
                  (users_password_hash r) (users_created_at r))
        else None
    | _ => None
    end
  else if c =? "email" then
    match v with
    | VStr s =>
        if fits 255 s then
          Some (mkUserRow (users_id r) (users_username r) s
                  (users_password_hash r) (users_created_at r))
        else None
    | _ => None
    end
  else if c =? "password_hash" then
    match v with
    | VStr s =>
        if fits 255 s then
          Some (mkUserRow (users_id r) (users_username r) (users_email r)
                  s (users_created_at r))
        else None
    | _ => None
    end
  else if c =? "created_at" then
    match v with
    | VTime t => Some (mkUserRow (users_id r) (users_username r) (users_email r)
                         (users_password_hash r) t)
    | _ => None
    end
  else None.

Definition posts_set (c : string) (v : Value) (r : PostRow) : option PostRow :=
  if c =? "title" then
    match v with
    | VStr s =>
        if fits 255 s then
          Some (mkPostRow (posts_id r) s (posts_content r)
                  (posts_user_id r) (posts_created_at r))
        else None
    | _ => None
    end
  else if c =? "content" then
    match v with
    | VStr s => Some (mkPostRow (posts_id r) (posts_title r) s
                        (posts_user_id r) (posts_created_at r))
    | _ => None
    end
  else if c =? "user_id" then
    match v with
    | VInt z => Some (mkPostRow (posts_id r) (posts_title r) (posts_content r)
                        z (posts_created_at r))
    | _ => None
    end
  else if c =? "created_at" then
    match v with
    | VTime t => Some (mkPostRow (posts_id r) (posts_title r) (posts_content r)
                         (posts_user_id r) t)
    | _ => None
    end
  else None.

(** [prefix.column] with the given prefix: the column. *)
Definition unqualify (alias name : string) : option string :=
  if String.prefix (alias ++ ".") name then
    Some (String.substring (S (String.length alias))
            (String.length name - S (String.length alias)) name)
  else None.

(** A row of [posts p JOIN users u]. *)
Definition joined_get (lalias ralias : string) (c : string)
           (r : PostRow * UserRow) : option Value :=
  match unqualify lalias c with
  | Some col => posts_get col (fst r)
  | None =>
      match unqualify ralias c with
      | Some col => users_get col (snd r)
      | None => None
      end
  end.

(** *** Row operations shared by the tables *)

Section Table.
Context {R : Type}.
Variable get : string -> R -> option Value.
Variable set : string -> Value -> R -> option R.

(** [WHERE wcol = v]. *)
Definition selects (wcol : string) (v : Value) (r : R) : bool :=
  match get wcol r with
  | Some x => Value_eqb x v
  | None => false
  end.

Fixpoint project (cols : list string) (r : R) : option (list Value) :=
  match cols with
  | [] => Some []
  | c :: cs =>
      match get c r, project cs r with
      | Some v, Some vs => Some (v :: vs)
      | _, _ => None
      end
  end.

Fixpoint project_all (cols : list string) (rows : list R)
  : option (list (list Value)) :=
  match rows with
  | [] => Some []
  | r :: rs =>
      match project cols r, project_all cols rs with
      | Some v, Some vs => Some (v :: vs)
      | _, _ => None
      end
  end.

Fixpoint assign (cvs : list (string * Value)) (r : R) : option R :=
  match cvs with
  | [] => Some r
  | (c, v) :: rest =>
      match set c v r with
      | Some r' => assign rest r'
      | None => None
      end
  end.

(** Rewrites the selected rows in place; returns the new table and the
    rows that were written. *)
Fixpoint update_where (wcol : string) (v : Value) (cvs : list (string * Value))
         (rows : list R) : option (list R * list R) :=
  match rows with
  | [] => Some ([], [])
  | r :: rest =>
      match update_where wcol v cvs rest with
      | None => None
      | Some (rows', written) =>
          if selects wcol v r then
            match assign cvs r with
            | Some r' => Some (r' :: rows', r' :: written)
            | None => None
            end
          else Some (r :: rows', written)
      end
  end.

(** Among [rows], exactly one row carries the key of [w]. *)
Definition unique_in (key : R -> Value) (rows : list R) (w : R) : bool :=
  (List.length (filter (fun r => Value_eqb (key r) (key w)) rows) =? 1)%nat.

End Table.

Definition param (args : list Value) (k : nat) : option Value :=
  nth_error args (k - 1).

Fixpoint bind_sets (sets : list (string * nat)) (args : list Value)
  : option (list (string * Value)) :=
  match sets with
  | [] => Some []
  | (c, k) :: rest =>
      match param args k, bind_sets rest args with
      | Some v, Some cvs => Some ((c, v) :: cvs)
      | _, _ => None
      end
  end.

Fixpoint bind_values (cols : list string) (ks : list nat) (args : list Value)
  : option (list (string * Value)) :=
  match cols, ks with
  | [], [] => Some []
  | c :: cs, k :: ks' =>
      match param args k, bind_values cs ks' args with
      | Some v, Some cvs => Some ((c, v) :: cvs)
      | _, _ => None
      end
  | _, _ => None
  end.

Definition unique_violation (constraint : string) : string :=
  "pq: duplicate key value violates unique constraint " ++ quoted constraint.

Definition foreign_key_violation : string :=
  "pq: insert or update on table " ++ quoted "posts"
    ++ " violates foreign key constraint " ++ quoted "posts_user_id_fkey".

(** The message for a string that is longer than its column is wide. *)
Definition value_too_long (n : nat) : string :=
  "pq: value too long for type character varying(" ++ itoa (Z.of_nat n) ++ ")".

(** The first of the values to assign that is too long for its column. *)
Fixpoint too_long (width : string -> option nat) (cvs : list (string * Value))
  : option string :=
  match cvs with
  | [] => None
  | (c, v) :: rest =>
      match width c, v with
      | Some n, VStr s => if fits n s then too_long width rest
                          else Some (value_too_long n)
      | _, _ => too_long width rest
      end
  end.

Definition syntax_error : string := "pq: syntax error in statement".
Definition undefined_object : string := "pq: relation or column does not exist".
Definition not_null_violation : string :=
  "pq: null value in column violates not-null constraint".

(** The UNIQUE constraints of [users], checked for the rows just written. *)
Definition users_unique (rows written : list UserRow) : option string :=
  if negb (forallb (unique_in (fun r => VInt (users_id r)) rows) written)
  then Some (unique_violation "users_pkey")
  else if negb (forallb (unique_in (fun r => VStr (users_username r)) rows) written)
  then Some (unique_violation "users_username_key")
  else if negb (forallb (unique_in (fun r => VStr (users_email r)) rows) written)
  then Some (unique_violation "users_email_key")
  else None.

Definition user_exists (d : DB) (id : Z) : bool :=
  existsb (fun u => (users_id u =? id)%Z) (users d).

Definition post_exists (d : DB) (id : Z) : bool :=
  existsb (fun p => (posts_id p =? id)%Z) (posts d).

(** The constraints of [posts], checked for the rows just written. *)
Definition posts_check (d : DB) (rows written : list PostRow) : option string :=
  if negb (forallb (unique_in (fun r => VInt (posts_id r)) rows) written)
  then Some (unique_violation "posts_pkey")
  else if negb (forallb (fun p => user_exists d (posts_user_id p)) written)
  then Some foreign_key_violation
  else None.

Definition covers (cols required : list string) : bool :=
  forallb (fun c => existsb (String.eqb c) cols) required.

(** *** Executing a statement *)

Inductive Outcome : Type :=
| Done (rows : list (list Value)) (affected : Z)
| Failed (msg : string).

Definition returning {R : Type} (get : string -> R -> option Value)
           (cols : list string) (written : list R) : Outcome :=
  match project_all get cols written with
  | Some rows => Done rows (Z.of_nat (List.length written))
  | None => Failed undefined_object
  end.

(** A statement that fails leaves the tables as they were. *)
Definition commit (d' d : DB) (out : Outcome) : DB * Outcome :=
  match out with
  | Failed _ => (d, out)
  | Done _ _ => (d', out)
  end.

(** INSERT.  The id is drawn from the sequence before the row is formed: a
    row that is refused for a value too long or by a constraint leaves the
    tables as they were and the sequence advanced. *)
Definition exec_insert (table : string) (cols : list string) (ks : list nat)
           (ret : list string) (args : list Value) (d : DB) : DB * Outcome :=
  match bind_values cols ks args with
  | None => (d, Failed syntax_error)
  | Some cvs =>
      if table =? "users" then
        let id := (users_id_seq d + 1)%Z in
        let d1 := mkDB (users d) (posts d) id (posts_id_seq d) in
        if negb (covers cols ["username"; "email"; "password_hash"; "created_at"])
        then (d, Failed not_null_violation)
        else
          match assign users_set cvs (mkUserRow id "" "" "" 0) with
          | None =>
              match too_long users_width cvs with
              | Some msg => (d1, Failed msg)
              | None => (d, Failed undefined_object)
              end
          | Some r =>
              match users_unique (users d ++ [r]) [r] with
              | Some msg => (d1, Failed msg)
              | None =>
                  commit (mkDB (users d ++ [r]) (posts d) id (posts_id_seq d)) d
                         (returning users_get ret [r])
              end
          end
      else if table =? "posts" then
        let id := (posts_id_seq d + 1)%Z in
        let d1 := mkDB (users d) (posts d) (users_id_seq d) id in
        if negb (covers cols ["title"; "content"; "user_id"; "created_at"])
        then (d, Failed not_null_violation)
        else
          match assign posts_set cvs (mkPostRow id "" "" 0 0) with
          | None =>
              match too_long posts_width cvs with
              | Some msg => (d1, Failed msg)
              | None => (d, Failed undefined_object)
              end
          | Some r =>
              match posts_check d (posts d ++ [r]) [r] with
              | Some msg => (d1, Failed msg)
              | None =>
                  commit (mkDB (users d) (posts d ++ [r]) (users_id_seq d) id) d
                         (returning posts_get ret [r])
              end
          end
      else (d, Failed undefined_object)
  end.

Definition exec_select (cols : list string) (table wcol : string) (k : nat)
           (args : list Value) (d : DB) : Outcome :=
  match param args k with
  | None => Failed syntax_error
  | Some v =>
      if table =? "users" then
        returning users_get cols (filter (selects users_get wcol v) (users d))
      else if table =? "posts" then
        returning posts_get cols (filter (selects posts_get wcol v) (posts d))
      else Failed undefined_object
  end.

(** [posts p JOIN users u ON p.user_id = u.id]: each post with its owner. *)
Definition join_posts_users (d : DB) : list (PostRow * UserRow) :=
  flat_map
    (fun p => map (fun u => (p, u))
                  (filter (fun u => (users_id u =? posts_user_id p)%Z) (users d)))
    (posts d).

Definition exec_select_join (cols : list string)
           (ltable lalias rtable ralias on_left on_right wcol : string) (k : nat)
           (args : list Value) (d : DB) : Outcome :=
  match param args k with
  | None => Failed syntax_error
  | Some v =>
      if (ltable =? "posts") && (rtable =? "users")
         && (on_left =? lalias ++ ".user_id") && (on_right =? ralias ++ ".id")
      then
        returning (joined_get lalias ralias) cols
          (filter (selects (joined_get lalias ralias) wcol v) (join_posts_users d))
      else Failed undefined_object
  end.

Definition exec_update (table : string) (sets : list (string * nat))
           (wcol : string) (k : nat) (ret : list string)
           (args : list Value) (d : DB) : DB * Outcome :=
  match param args k, bind_sets sets args with
  | Some v, Some cvs =>
      if table =? "users" then
        match update_where users_get users_set wcol v cvs (users d) with
        | None =>
            match too_long users_width cvs with
            | Some msg => (d, Failed msg)
            | None => (d, Failed undefined_object)
            end
        | Some (rows, written) =>
            match users_unique rows written with
            | Some msg => (d, Failed msg)
            | None =>
                commit (mkDB rows (posts d) (users_id_seq d) (posts_id_seq d)) d
                       (returning users_get ret written)
            end
        end
      else if table =? "posts" then
        match update_where posts_get posts_set wcol v cvs (posts d) with
        | None =>
            match too_long posts_width cvs with
            | Some msg => (d, Failed msg)
            | None => (d, Failed undefined_object)
            end
        | Some (rows, written) =>
            match posts_check d rows written with
            | Some msg => (d, Failed msg)
            | None =>
                commit (mkDB (users d) rows (users_id_seq d) (posts_id_seq d)) d
                       (returning posts_get ret written)
            end
        end
      else (d, Failed undefined_object)
  | _, _ => (d, Failed syntax_error)
  end.

(** DELETE; deleting users takes their posts along (ON DELETE CASCADE). *)
Definition exec_delete (table wcol : string) (k : nat)
           (args : list Value) (d : DB) : DB * Outcome :=
  match param args k with
  | None => (d, Failed syntax_error)
  | Some v =>
      if table =? "users" then
        let gone := filter (selects users_get wcol v) (users d) in
        let kept := filter (fun u => negb (selects users_get wcol v u)) (users d) in
        let orphan p :=
          existsb (fun u => (users_id u =? posts_user_id p)%Z) gone in
        (mkDB kept (filter (fun p => negb (orphan p)) (posts d))
              (users_id_seq d) (posts_id_seq d),
         Done [] (Z.of_nat (List.length gone)))
      else if table =? "posts" then
        let gone := filter (selects posts_get wcol v) (posts d) in
        let kept := filter (fun p => negb (selects posts_get wcol v p)) (posts d) in
        (mkDB (users d) kept (users_id_seq d) (posts_id_seq d),
         Done [] (Z.of_nat (List.length gone)))
      else (d, Failed undefined_object)
  end.

Definition exec (st : Stmt) (args : list Value) (d : DB) : DB * Outcome :=
  match st with
  | Insert table cols ks ret => exec_insert table cols ks ret args d
  | Select cols table wcol k => (d, exec_select cols table wcol k args d)
  | SelectJoin cols lt la rt ra l r wcol k =>
      (d, exec_select_join cols lt la rt ra l r wcol k args d)
  | Update table sets wcol k ret => exec_update table sets wcol k ret args d
  | Delete table wcol k => exec_delete table wcol k args d
  end.

(** *** The connection

    What the program can observe and change: the tables, the statements
    sent so far (oldest first), and the wall clock. *)

Record World : Type := mkWorld
  { db : DB;
    sent : list (string * list Value);
    now : Z }.

(** Computations that talk to the store. *)
Definition M (A : Type) : Type := World -> A * World.

Definition ret {A : Type} (a : A) : M A := fun w => (a, w).

Definition bind {A B : Type} (m : M A) (k : A -> M B) : M B :=
  fun w => let (a, w') := m w in k a w'.

(** [time.Now()]. *)
Definition time_Now : M Z := fun w => (now w, w).

(** The world after a statement went out. *)
Definition sending (query : string) (args : list Value) (w : World) : World :=
  mkWorld (db w) (sent w ++ [(query, args)]) (now w).

Definition with_db (d : DB) (w : World) : World :=
  mkWorld d (sent w) (now w).

Definition run (query : string) (args : list Value) : M Outcome :=
  fun w =>
    let w1 := sending query args w in
    match parse query with
    | None => (Failed syntax_error, w1)
    | Some st =>
        let (d, out) := exec st args (db w1) in
        (out, with_db d w1)
    end.

(** [db.QueryRowContext(ctx, query, args...)] followed by [Scan]: the
    first row of the result, [sql.ErrNoRows] when there is none. *)
Definition QueryRowContext (query : string) (args : list Value)
  : M (result (list Value)) :=
  bind (run query args) (fun out =>
    ret match out with
        | Failed msg => Err (Errorf msg)
        | Done [] _ => Err ErrNoRows
        | Done (row :: _) _ => Ok row
        end).

(** [db.ExecContext(ctx, query, args...)]: the [sql.Result], here its
    number of affected rows. *)
Definition ExecContext (query : string) (args : list Value) : M (result Z) :=
  bind (run query args) (fun out =>
    ret match out with
        | Failed msg => Err (Errorf msg)
        | Done _ n => Ok n
        end).

(** [result.RowsAffected()]; the driver supports it. *)
Definition RowsAffected (r : Z) : result Z := Ok r.

(** *** Queries that return every matching row

    [SELECT ... ORDER BY created_at DESC], over one table or over
    [posts JOIN users].  Rows with equal timestamps are kept in table
    order; PostgreSQL leaves their mutual order open. *)

Inductive Query : Type :=
| SelectAll (columns : list string) (table : string) (order_by : string)
| JoinAll (columns : list string) (ltable lalias rtable ralias : string)
          (on_left on_right : string) (filter_by : option (string * nat))
          (order_by : string).

(** [ORDER BY col DESC] and nothing after it. *)
Definition parse_order (ts : list string) : option string :=
  match ts with
  | [order; by_; col; desc] =>
      if (order =? "ORDER") && (by_ =? "BY") && (desc =? "DESC") then Some col
      else None
  | _ => None
  end.

Definition parse_query (q : string) : option Query :=
  match tokenize q with
  | kw :: ts =>
      if kw =? "SELECT" then
        match parse_names ts with
        | (cols, from :: table :: ts1) =>
            if from =? "FROM" then
              match ts1 with
              | lalias :: join :: rtable :: ralias :: on :: l :: eq :: r :: ts2 =>
                  if (join =? "JOIN") && (on =? "ON") && (eq =? "=") then
                    match ts2 with
                    | wh :: col :: eq' :: p :: ts3 =>
                        if wh =? "WHERE" then
                          match placeholder p, parse_order ts3 with
                          | Some k, Some c =>
                              if eq' =? "=" then
                                Some (JoinAll cols table lalias rtable ralias l r
                                              (Some (col, k)) c)
                              else None
                          | _, _ => None
                          end
                        else
                          match parse_order ts2 with
                          | Some c =>
                              Some (JoinAll cols table lalias rtable ralias l r None c)
                          | None => None
                          end
                    | _ => None
                    end
                  else None
              | _ =>
                  match parse_order ts1 with
                  | Some c => Some (SelectAll cols table c)
                  | None => None
                  end
              end
            else None
        | _ => None
        end
      else None
  | [] => None
  end.

(** Descending order, by insertion; an element goes in front of the
    elements that are not newer than it. *)
Fixpoint insert_desc {R : Type} (key : R -> Z) (x : R) (l : list R) : list R :=
  match l with
  | [] => [x]
  | y :: l' =>
      if (key y <=? key x)%Z then x :: y :: l'
      else y :: insert_desc key x l'
  end.

Fixpoint sort_desc {R : Type} (key : R -> Z) (l : list R) : list R :=
  match l with
  | [] => []
  | x :: l' => insert_desc key x (sort_desc key l')
  end.

(** The value a row is ordered by. *)
Definition order_key {R : Type} (get : string -> R -> option Value)
           (c : string) (r : R) : Z :=
  match get c r with
  | Some (VTime t) => t
  | Some (VInt z) => z
  | _ => 0%Z
  end.

Definition known_column {R : Type} (get : string -> R -> option Value)
           (blank : R) (c : string) : bool :=
  match get c blank with
  | Some _ => true
  | None => false
  end.

Definition blank_user : UserRow := mkUserRow 0 "" "" "" 0.
Definition blank_post : PostRow := mkPostRow 0 "" "" 0 0.

Definition exec_query (q : Query) (args : list Value) (d : DB) : Outcome :=
  match q with
  | SelectAll cols table c =>
      if table =? "users" then
        if known_column users_get blank_user c then
          returning users_get cols (sort_desc (order_key users_get c) (users d))
        else Failed undefined_object
      else if table =? "posts" then
        if known_column posts_get blank_post c then
          returning posts_get cols (sort_desc (order_key posts_get c) (posts d))
        else Failed undefined_object
      else Failed undefined_object
  | JoinAll cols ltable lalias rtable ralias on_left on_right filter_by c =>
      if (ltable =? "posts") && (rtable =? "users")
         && (on_left =? lalias ++ ".user_id") && (on_right =? ralias ++ ".id")
         && known_column (joined_get lalias ralias) (blank_post, blank_user) c
      then
        match filter_by with
        | None =>
            returning (joined_get lalias ralias) cols
              (sort_desc (order_key (joined_get lalias ralias) c)
                         (join_posts_users d))
        | Some (wcol, k) =>
            match param args k with
            | None => Failed syntax_error
            | Some v =>
                returning (joined_get lalias ralias) cols
                  (sort_desc (order_key (joined_get lalias ralias) c)
                     (filter (selects (joined_get lalias ralias) wcol v)
                             (join_posts_users d)))
            end
        end
      else Failed undefined_object
  end.

(** [db.QueryContext(ctx, query, args...)]: the rows of the result, in
    order.  A query changes no table. *)
Definition QueryContext (query : string) (args : list Value)
  : M (result (list (list Value))) :=
  fun w =>
    let w1 := sending query args w in
    match parse_query query with
    | None => (Err (Errorf syntax_error), w1)
    | Some q =>
        (match exec_query q args (db w1) with
         | Failed msg => Err (Errorf msg)
         | Done rows _ => Ok rows
         end, w1)
    end.

End sql.

Declare Scope store_scope.
Notation "x <- m ;; k" := (sql.bind m (fun x => k))
  (at level 61, m at next level, right associativity) : store_scope.

(** ** encoding/json, as far as struct tags decide the output

    A JSON document is kept as a tree; a struct is encoded field by field
    in declaration order, each field under the name its [json] tag gives. *)

Module Json.

Inductive value : Type :=
| Null
| Int (z : Z)
| Str (s : string)
| Time (t : Z)
| Array (l : list value)
| Object (kvs : list (string * value)).

(** One field of a Go struct: its name, the text of its [json:"..."]
    tag, and its value. *)
Record field : Type := Field
  { field_name : string; field_tag : string; field_value : value }.

(** Splits a tag at its first comma: the key and the options. *)
Fixpoint tag_name (tag : string) : string :=
  match tag with
  | EmptyString => EmptyString
  | String c rest => if (c =? ",")%char then EmptyString else String c (tag_name rest)
  end.

Fixpoint tag_options (tag : string) : string :=
  match tag with
  | EmptyString => EmptyString
  | String c rest => if (c =? ",")%char then rest else tag_options rest
  end.

(** [isEmptyValue]: what [omitempty] drops. *)
Definition isEmptyValue (v : value) : bool :=
  match v with
  | Null => true
  | Int z => (z =? 0)%Z
  | Str s => s =? ""
  | Array l => match l with [] => true | _ => false end
  | Time _ | Object _ => false
  end.

(** A field tagged [json:"-"] is never written; an [omitempty] field is
    dropped when its value is empty. *)
Definition encode_field (f : field) : list (string * value) :=
  if field_tag f =? "-" then []
  else if (tag_options (field_tag f) =? "omitempty") && isEmptyValue (field_value f) then []
  else [((if tag_name (field_tag f) =? "" then field_name f else tag_name (field_tag f)),
         field_value f)].

Definition Marshal (fields : list field) : value :=
  Object (flat_map encode_field fields).

End Json.

(** ** internal/models (models.go) *)

Module models.

(** [time.Time], as an instant. *)
Definition Time := Z.

Record User : Type := mkUser
  { User_ID : Z;
    User_Username : string;
    User_Email : string;
    User_PasswordHash : string;
    User_CreatedAt : Time }.

Record UserRequest : Type := mkUserRequest
  { UserRequest_Username : string;
    UserRequest_Email : string;
    UserRequest_Password : string }.

Record Post : Type := mkPost
  { Post_ID : Z;
    Post_Title : string;
    Post_Content : string;
    Post_UserID : Z;
    Post_CreatedAt : Time;
    Post_Username : string }.

Record PostRequest : Type := mkPostRequest
  { PostRequest_Title : string;
    PostRequest_Content : string;
    PostRequest_UserID : Z }.

Record ErrorResponse : Type := mkErrorResponse
  { ErrorResponse_Error : string;
    ErrorResponse_Message : string;
    ErrorResponse_Code : Z }.

Record SuccessResponse : Type := mkSuccessResponse
  { SuccessResponse_Message : string;
    SuccessResponse_Data : Json.value }.

(** The struct declarations with their [json] tags. *)
Definition User_fields (u : User) : list Json.field :=
  [ Json.Field "ID" "id" (Json.Int (User_ID u));
    Json.Field "Username" "username" (Json.Str (User_Username u));
    Json.Field "Email" "email" (Json.Str (User_Email u));
    Json.Field "PasswordHash" "-" (Json.Str (User_PasswordHash u));
    Json.Field "CreatedAt" "created_at" (Json.Time (User_CreatedAt u)) ].

Definition Post_fields (p : Post) : list Json.field :=
  [ Json.Field "ID" "id" (Json.Int (Post_ID p));
    Json.Field "Title" "title" (Json.Str (Post_Title p));
    Json.Field "Content" "content" (Json.Str (Post_Content p));
    Json.Field "UserID" "user_id" (Json.Int (Post_UserID p));
    Json.Field "CreatedAt" "created_at" (Json.Time (Post_CreatedAt p));
    Json.Field "Username" "username,omitempty" (Json.Str (Post_Username p)) ].

Definition ErrorResponse_fields (e : ErrorResponse) : list Json.field :=
  [ Json.Field "Error" "error" (Json.Str (ErrorResponse_Error e));
    Json.Field "Message" "message,omitempty" (Json.Str (ErrorResponse_Message e));
    Json.Field "Code" "code" (Json.Int (ErrorResponse_Code e)) ].

Definition SuccessResponse_fields (r : SuccessResponse) : list Json.field :=
  [ Json.Field "Message" "message" (Json.Str (SuccessResponse_Message r));
    Json.Field "Data" "data,omitempty" (SuccessResponse_Data r) ].

End models.

(** ** Libraries whose results the program only passes on

    [bcrypt.GenerateFromPassword] (a hash, or an error),
    [bcrypt.CompareHashAndPassword] (whether it returned nil),
    [mail.ParseAddress] (whether it returned nil), and the driver's
    [rows.Err()]: the error it met while the rows of a statement were read
    (a connection lost half way, say), if any. *)

Class Externals : Type :=
  { bcrypt_GenerateFromPassword : string -> Go.result string;
    bcrypt_CompareHashAndPassword : string -> string -> bool;
    mail_ParseAddress : string -> bool;
    driver_rows_Err : string -> list sql.Value -> option Go.error }.

(** ** internal/database

    The store functions of users.go and posts.go.  Each sends its query
    text and arguments through the connection; the context and its deadline
    are not modelled. *)

Module database.
Import Go sql models.
Local Open Scope store_scope.

(** [joinStrings], users.go lines 224-237. *)
Definition joinStrings (strs : list string) (sep : string) : string :=
  match strs with
  | [] => ""
  | [x] => x
  | x :: rest => fold_left (fun result s => (result ++ sep ++ s)%string) rest x
  end.

(** [Scan] into the four columns every user query returns but
    [VerifyPassword]'s; the struct starts zeroed. *)
Definition scanUser (row : list Value) : result User :=
  match row with
  | [VInt id; VStr username; VStr email; VTime created_at] =>
      Ok (mkUser id username email "" created_at)
  | _ => Err (Errorf "sql: Scan error")
  end.

Definition scanUserWithHash (row : list Value) : result User :=
  match row with
  | [VInt id; VStr username; VStr email; VStr password_hash; VTime created_at] =>
      Ok (mkUser id username email password_hash created_at)
  | _ => Err (Errorf "sql: Scan error")
  end.

Definition scanPost (row : list Value) : result Post :=
  match row with
  | [VInt id; VStr title; VStr content; VInt user_id; VTime created_at] =>
      Ok (mkPost id title content user_id created_at "")
  | _ => Err (Errorf "sql: Scan error")
  end.

Definition scanPostWithUsername (row : list Value) : result Post :=
  match row with
  | [VInt id; VStr title; VStr content; VInt user_id; VTime created_at;
     VStr username] =>
      Ok (mkPost id title content user_id created_at username)
  | _ => Err (Errorf "sql: Scan error")
  end.

(** [QueryRowContext(...).Scan(...)]. *)
Definition queryRow {A : Type} (scan : list Value -> result A)
           (query : string) (args : list Value) : M (result A) :=
  r <- QueryRowContext query args ;;
  ret match r with
      | Err e => Err e
      | Ok row => scan row
      end.

(** What the first half of [UpdateUser] and [UpdatePost] builds. *)
Record Built : Type := mkBuilt
  { setParts : list string;
    args : list Value;
    argIndex : Z;
    query : string }.

Section Store.
Context {ext : Externals}.

(** [CreateUser], users.go lines 15-40. *)
Definition CreateUser (req : UserRequest) : M (result User) :=
  match bcrypt_GenerateFromPassword (UserRequest_Password req) with
  | Err err => ret (Err (wrap "failed to hash password: " err))
  | Ok hashedPassword =>
      let query : string := "
		INSERT INTO users (username, email, password_hash, created_at)
		VALUES ($1, $2, $3, $4)
		RETURNING id, username, email, created_at" in
      t <- time_Now ;;
      r <- queryRow scanUser query
             [VStr (UserRequest_Username req); VStr (UserRequest_Email req);
              VStr hashedPassword; VTime t] ;;
      ret match r with
          | Err err => Err (wrap "failed to create user: " err)
          | Ok user => Ok user
          end
  end.

(** [GetUserByID], users.go lines 75-94. *)
Definition GetUserByID (id : Z) : M (result User) :=
  let query : string := "SELECT id, username, email, created_at FROM users WHERE id = $1" in
  r <- queryRow scanUser query [VInt id] ;;
  ret match r with
      | Err ErrNoRows => Err (Errorf "user not found")
      | Err err => Err (wrap "failed to get user: " err)
      | Ok user => Ok user
      end.

(** [UpdateUser], up to the query text: users.go lines 98-151. *)
Definition UpdateUser_build (id : Z) (req : UserRequest) : result Built :=
  let setParts : list string := [] in
  let args : list Value := [] in
  let argIndex := 1%Z in
  let '(setParts, args, argIndex) :=
    if negb (UserRequest_Username req =? "") then
      (setParts ++ [("username = $" ++ itoa argIndex)%string],
       args ++ [VStr (UserRequest_Username req)],
       (argIndex + 1)%Z)
    else (setParts, args, argIndex) in
  let '(setParts, args, argIndex) :=
    if negb (UserRequest_Email req =? "") then
      (setParts ++ [("email = $" ++ itoa argIndex)%string],
       args ++ [VStr (UserRequest_Email req)],
       (argIndex + 1)%Z)
    else (setParts, args, argIndex) in
  let hashed :=
    if negb (UserRequest_Password req =? "") then
      match bcrypt_GenerateFromPassword (UserRequest_Password req) with
      | Err err => Err (wrap "failed to hash password: " err)
      | Ok hashedPassword =>
          Ok (setParts ++ [("password_hash = $" ++ itoa argIndex)%string],
              args ++ [VStr hashedPassword],
              (argIndex + 1)%Z)
      end
    else Ok (setParts, args, argIndex) in
  match hashed with
  | Err err => Err err
  | Ok (setParts, args, argIndex) =>
      if (List.length setParts =? 0)%nat then Err (Errorf "no fields to update")
      else
        let args := args ++ [VInt id] in
        let query : string :=
          ("
		UPDATE users 
		SET " ++ hd "" setParts ++ " 
		WHERE id = $" ++ itoa argIndex ++ "
		RETURNING id, username, email, created_at")%string in
        let query : string :=
          if (1 <? List.length setParts)%nat then
            ("
			UPDATE users 
			SET " ++ joinStrings setParts ", " ++ " 
			WHERE id = $" ++ itoa argIndex ++ "
			RETURNING id, username, email, created_at")%string
          else query in
        Ok (mkBuilt setParts args argIndex query)
  end.

(** [UpdateUser], the rest: users.go lines 153-168. *)
Definition UpdateUser (id : Z) (req : UserRequest) : M (result User) :=
  match UpdateUser_build id req with
  | Err err => ret (Err err)
  | Ok b =>
      r <- queryRow scanUser (query b) (args b) ;;
      ret match r with
          | Err ErrNoRows => Err (Errorf "user not found")
          | Err err => Err (wrap "failed to update user: " err)
          | Ok user => Ok user
          end
  end.

(** [DeleteUser], users.go lines 172-190. *)
Definition DeleteUser (id : Z) : M (result unit) :=
  let query : string := "DELETE FROM users WHERE id = $1" in
  r <- ExecContext query [VInt id] ;;
  ret match r with
      | Err err => Err (wrap "failed to delete user: " err)
      | Ok res =>
          match RowsAffected res with
          | Err err => Err (wrap "failed to get rows affected: " err)
          | Ok rowsAffected =>
              if (rowsAffected =? 0)%Z then Err (Errorf "user not found")
              else Ok tt
          end
      end.

(** [VerifyPassword], users.go lines 193-221; the record is returned
    with its hash cleared. *)
Definition VerifyPassword (username password : string) : M (result User) :=
  let query : string :=
    "SELECT id, username, email, password_hash, created_at FROM users WHERE username = $1" in
  r <- queryRow scanUserWithHash query [VStr username] ;;
  ret match r with
      | Err ErrNoRows => Err (Errorf "user not found")
      | Err err => Err (wrap "failed to get user: " err)
      | Ok user =>
          if negb (bcrypt_CompareHashAndPassword (User_PasswordHash user) password)
          then Err (Errorf "invalid password")
          else
            Ok (mkUser (User_ID user) (User_Username user) (User_Email user)
                       "" (User_CreatedAt user))
      end.

(** [CreatePost], posts.go lines 13-33. *)
Definition CreatePost (req : PostRequest) : M (result Post) :=
  let query : string := "
		INSERT INTO posts (title, content, user_id, created_at)
		VALUES ($1, $2, $3, $4)
		RETURNING id, title, content, user_id, created_at" in
  t <- time_Now ;;
  r <- queryRow scanPost query
         [VStr (PostRequest_Title req); VStr (PostRequest_Content req);
          VInt (PostRequest_UserID req); VTime t] ;;
  ret match r with
      | Err err => Err (wrap "failed to create post: " err)
      | Ok post => Ok post
      end.

(** [GetPostByID], posts.go lines 74-99. *)
Definition GetPostByID (id : Z) : M (result Post) :=
  let query : string := "
		SELECT p.id, p.title, p.content, p.user_id, p.created_at, u.username
		FROM posts p
		JOIN users u ON p.user_id = u.id
		WHERE p.id = $1" in
  r <- queryRow scanPostWithUsername query [VInt id] ;;
  ret match r with
      | Err ErrNoRows => Err (Errorf "post not found")
      | Err err => Err (wrap "failed to get post: " err)
      | Ok post => Ok post
      end.

(** [UpdatePost], up to the query text: posts.go lines 103-140. *)
Definition UpdatePost_build (id : Z) (req : PostRequest) : result Built :=
  let setParts : list string := [] in
  let args : list Value := [] in
  let argIndex := 1%Z in
  let '(setParts, args, argIndex) :=
    if negb (PostRequest_Title req =? "") then
      (setParts ++ [("title = $" ++ itoa argIndex)%string],
       args ++ [VStr (PostRequest_Title req)],
       (argIndex + 1)%Z)
    else (setParts, args, argIndex) in
  let '(setParts, args, argIndex) :=
    if negb (PostRequest_Content req =? "") then
      (setParts ++ [("content = $" ++ itoa argIndex)%string],
       args ++ [VStr (PostRequest_Content req)],
       (argIndex + 1)%Z)
    else (setParts, args, argIndex) in
  let '(setParts, args, argIndex) :=
    if negb (PostRequest_UserID req =? 0)%Z then
      (setParts ++ [("user_id = $" ++ itoa argIndex)%string],
       args ++ [VInt (PostRequest_UserID req)],
       (argIndex + 1)%Z)
    else (setParts, args, argIndex) in
  if (List.length setParts =? 0)%nat then Err (Errorf "no fields to update")
  else
    let args := args ++ [VInt id] in
    let query : string :=
      ("
		UPDATE posts 
		SET " ++ joinStrings setParts ", " ++ " 
		WHERE id = $" ++ itoa argIndex ++ "
		RETURNING id, title, content, user_id, created_at")%string in
    Ok (mkBuilt setParts args argIndex query).

(** [UpdatePost], the rest: posts.go lines 142-158. *)
Definition UpdatePost (id : Z) (req : PostRequest) : M (result Post) :=
  match UpdatePost_build id req with
  | Err err => ret (Err err)
  | Ok b =>
      r <- queryRow scanPost (query b) (args b) ;;
      ret match r with
          | Err ErrNoRows => Err (Errorf "post not found")
          | Err err => Err (wrap "failed to update post: " err)
          | Ok post => Ok post
          end
  end.

(** [DeletePost], posts.go lines 162-180. *)
Definition DeletePost (id : Z) : M (result unit) :=
  let query : string := "DELETE FROM posts WHERE id = $1" in
  r <- ExecContext query [VInt id] ;;
  ret match r with
      | Err err => Err (wrap "failed to delete post: " err)
      | Ok res =>
          match RowsAffected res with
          | Err err => Err (wrap "failed to get rows affected: " err)
          | Ok rowsAffected =>
              if (rowsAffected =? 0)%Z then Err (Errorf "post not found")
              else Ok tt
          end
      end.

End Store.

(** The loop [for rows.Next() { Scan(...); append }]: the slice starts
    nil and grows by one element per row; a row that does not scan ends
    the loop with the wrapped error. *)
Fixpoint scanAll {A : Type} (scan : list Value -> result A) (failed : string)
         (rows : list (list Value)) (acc : list A) : result (list A) :=
  match rows with
  | [] => Ok acc
  | row :: rest =>
      match scan row with
      | Err err => Err (wrap failed err)
      | Ok x => scanAll scan failed rest (acc ++ [x])
      end
  end.

Section Lists.
Context {ext : Externals}.

(** [rows.Err()], asked once the loop over the rows of a statement has
    ended. *)
Definition rows_Err (query : string) (args : list Value) : M (option error) :=
  ret (driver_rows_Err query args).

(** [GetAllUsers], users.go lines 43-72. *)
Definition GetAllUsers : M (result (list User)) :=
  let query : string :=
    "SELECT id, username, email, created_at FROM users ORDER BY created_at DESC" in
  r <- QueryContext query [] ;;
  match r with
  | Err err => ret (Err (wrap "failed to query users: " err))
  | Ok rows =>
      match scanAll scanUser "failed to scan user: " rows [] with
      | Err err => ret (Err err)
      | Ok users =>
          e <- rows_Err query [] ;;
          ret match e with
              | Some err => Err (wrap "row iteration error: " err)
              | None => Ok users
              end
      end
  end.

(** [GetAllPosts], posts.go lines 36-71. *)
Definition GetAllPosts : M (result (list Post)) :=
  let query : string := "
		SELECT p.id, p.title, p.content, p.user_id, p.created_at, u.username
		FROM posts p
		JOIN users u ON p.user_id = u.id
		ORDER BY p.created_at DESC" in
  r <- QueryContext query [] ;;
  match r with
  | Err err => ret (Err (wrap "failed to query posts: " err))
  | Ok rows =>
      match scanAll scanPostWithUsername "failed to scan post: " rows [] with
      | Err err => ret (Err err)
      | Ok posts =>
          e <- rows_Err query [] ;;
          ret match e with
              | Some err => Err (wrap "row iteration error: " err)
              | None => Ok posts
              end
      end
  end.


End Lists.

End database.

(** ** net/http: the status codes and reason phrases the handlers use *)

Module http.

Definition StatusOK : Z := 200.
Definition StatusCreated : Z := 201.
Definition StatusBadRequest : Z := 400.
Definition StatusNotFound : Z := 404.
Definition StatusConflict : Z := 409.
Definition StatusInternalServerError : Z := 500.

Definition StatusText (code : Z) : string :=
  if (code =? 200)%Z then "OK"
  else if (code =? 201)%Z then "Created"
  else if (code =? 400)%Z then "Bad Request"
  else if (code =? 404)%Z then "Not Found"
  else if (code =? 409)%Z then "Conflict"
  else if (code =? 500)%Z then "Internal Server Error"
  else "".

(** What a handler wrote to its [ResponseWriter]: the status line and
    the JSON body. *)
Record Response : Type := mkResponse
  { Status : Z; Body : Json.value }.

End http.

(** ** internal/handlers

    The response helpers and the classifier (src/unnamed/part_001), the
    validators (src/unnamed/part_002), the user handlers
    (src/internal/handlers/users.go) and the post handlers
    (src/unnamed/part_003).  Logging and the per-request deadline are not
    modelled. *)

Module handlers.
Import Go.
Local Open Scope store_scope.

(** Inner loop of [containsHelper]: [j] runs up to [len(substr)];
    [n] counts the iterations that remain. *)
Fixpoint match_at (s substr : string) (i j n : nat) : bool :=
  match n with
  | O => true
  | S n' =>
      if negb (index s (i + j) =? index substr j)%Z
         && negb (index s (i + j) =? byte_sub (index substr j) 32)%Z
         && negb (index s (i + j) =? byte_add (index substr j) 32)%Z
      then false
      else match_at s substr i (S j) n'
  end.

(** Outer loop of [containsHelper]: [i] runs while
    [i <= len(s)-len(substr)]; [n] counts the iterations that remain. *)
Fixpoint scan_from (s substr : string) (i n : nat) : bool :=
  match n with
  | O => false
  | S n' =>
      if match_at s substr i 0 (String.length substr) then true
      else scan_from s substr (S i) n'
  end.

(** [containsHelper], part_001 lines 114-128. *)
Definition containsHelper (s substr : string) : bool :=
  scan_from s substr 0 (Z.to_nat (len s - len substr + 1)).

(** [contains], part_001 lines 109-112. *)
Definition contains (s substr : string) : bool :=
  (len s >=? len substr)%Z
  && ((s =? substr)
      || ((len s >? len substr)%Z && containsHelper s substr)).

(** [writeJSON] and [writeError], part_001 lines 15-32. *)
Definition writeJSON (status : Z) (data : Json.value) : http.Response :=
  http.mkResponse status data.

Definition writeError (status : Z) (message : string) : http.Response :=
  let response :=
    models.mkErrorResponse (http.StatusText status) message status in
  writeJSON status (Json.Marshal (models.ErrorResponse_fields response)).

(** [handleDatabaseError], part_001 lines 88-106; the log line it also
    emits is not modelled. *)
Definition handleDatabaseError (err : error) (operation : string) : http.Response :=
  let errMsg := Error err in
  if contains errMsg "not found" then
    writeError http.StatusNotFound "Resource not found"
  else if contains errMsg "duplicate" || contains errMsg "unique" then
    writeError http.StatusConflict "Resource already exists"
  else if contains errMsg "foreign key" then
    writeError http.StatusBadRequest "Invalid reference to related resource"
  else if contains errMsg "invalid" || contains errMsg "check constraint" then
    writeError http.StatusBadRequest "Invalid data provided"
  else
    writeError http.StatusInternalServerError "Internal server error".

(** *** Validation *)

Record ValidationError : Type := mkValidationError
  { Field : string; Message : string }.

Definition ValidationError_fields (e : ValidationError) : list Json.field :=
  [ Json.Field "Field" "field" (Json.Str (Field e));
    Json.Field "Message" "message" (Json.Str (Message e)) ].

Record ValidationErrors : Type := mkValidationErrors
  { Errors : list ValidationError }.

Section Validators.
Context {ext : Externals}.
Import models.

(** [isValidEmail], part_002 lines 194-197. *)
Definition isValidEmail (email : string) : bool := mail_ParseAddress email.

(** [ValidateUserRequest], part_002 lines 31-83.  Each validator returns
    [nil] ([None]) or a [ValidationErrors]. *)
Definition ValidateUserRequest (req : UserRequest) : option ValidationErrors :=
  let errors : list ValidationError := [] in
  let errors :=
    if UserRequest_Username req =? "" then
      errors ++ [mkValidationError "username" "username is required"]
    else if (len (UserRequest_Username req) <? 3)%Z then
      errors ++ [mkValidationError "username"
                   "username must be at least 3 characters long"]
    else if (len (UserRequest_Username req) >? 50)%Z then
      errors ++ [mkValidationError "username"
                   "username must be no more than 50 characters long"]
    else errors in
  let errors :=
    if UserRequest_Email req =? "" then
      errors ++ [mkValidationError "email" "email is required"]
    else if negb (isValidEmail (UserRequest_Email req)) then
      errors ++ [mkValidationError "email" "email format is invalid"]
    else errors in
  let errors :=
    if UserRequest_Password req =? "" then
      errors ++ [mkValidationError "password" "password is required"]
    else if (len (UserRequest_Password req) <? 6)%Z then
      errors ++ [mkValidationError "password"
                   "password must be at least 6 characters long"]
    else errors in
  if (0 <? List.length errors)%nat then Some (mkValidationErrors errors)
  else None.

(** [ValidateUserUpdateRequest], part_002 lines 86-123. *)
Definition ValidateUserUpdateRequest (req : UserRequest) : option ValidationErrors :=
  let errors : list ValidationError := [] in
  let errors :=
    if negb (UserRequest_Username req =? "") then
      if (len (UserRequest_Username req) <? 3)%Z then
        errors ++ [mkValidationError "username"
                     "username must be at least 3 characters long"]
      else if (len (UserRequest_Username req) >? 50)%Z then
        errors ++ [mkValidationError "username"
                     "username must be no more than 50 characters long"]
      else errors
    else errors in
  let errors :=
    if negb (UserRequest_Email req =? "")
       && negb (isValidEmail (UserRequest_Email req)) then
      errors ++ [mkValidationError "email" "email format is invalid"]
    else errors in
  let errors :=
    if negb (UserRequest_Password req =? "")
       && (len (UserRequest_Password req) <? 6)%Z then
      errors ++ [mkValidationError "password"
                   "password must be at least 6 characters long"]
    else errors in
  if (0 <? List.length errors)%nat then Some (mkValidationErrors errors)
  else None.

(** [ValidatePostRequest], part_002 lines 126-163. *)
Definition ValidatePostRequest (req : PostRequest) : option ValidationErrors :=
  let errors : list ValidationError := [] in
  let errors :=
    if PostRequest_Title req =? "" then
      errors ++ [mkValidationError "title" "title is required"]
    else if (len (PostRequest_Title req) >? 255)%Z then
      errors ++ [mkValidationError "title"
                   "title must be no more than 255 characters long"]
    else errors in
  let errors :=
    if PostRequest_Content req =? "" then
      errors ++ [mkValidationError "content" "content is required"]
    else errors in
  let errors :=
    if (PostRequest_UserID req <=? 0)%Z then
      errors ++ [mkValidationError "user_id" "user_id must be a positive integer"]
    else errors in
  if (0 <? List.length errors)%nat then Some (mkValidationErrors errors)
  else None.

(** [ValidatePostUpdateRequest], part_002 lines 166-191. *)
Definition ValidatePostUpdateRequest (req : PostRequest) : option ValidationErrors :=
  let errors : list ValidationError := [] in
  let errors :=
    if negb (PostRequest_Title req =? "")
       && (len (PostRequest_Title req) >? 255)%Z then
      errors ++ [mkValidationError "title"
                   "title must be no more than 255 characters long"]
    else errors in
  let errors :=
    if (PostRequest_UserID req <? 0)%Z then
      errors ++ [mkValidationError "user_id"
                   "user_id must be a non-negative integer"]
    else errors in
  if (0 <? List.length errors)%nat then Some (mkValidationErrors errors)
  else None.

End Validators.

(** *** Requests and responses *)

(** An inbound request, as the handlers read it: the route variables
    ([mux.Vars]) and what decoding the body into the handler's payload
    struct gives ([parseJSON]). *)
Record Request (A : Type) : Type := mkRequest
  { Vars : list (string * string);
    Decoded : result A }.
Arguments mkRequest {A} Vars Decoded.
Arguments Vars {A} r.
Arguments Decoded {A} r.

Fixpoint lookup (vars : list (string * string)) (name : string) : option string :=
  match vars with
  | [] => None
  | (k, v) :: rest => if k =? name then Some v else lookup rest name
  end.

Definition ErrMissingFile : error := Errorf "http: no such file".

(** [parseIDFromURL], part_001 lines 58-75. *)
Definition parseIDFromURL {A : Type} (r : Request A) (paramName : string) : result Z :=
  match lookup (Vars r) paramName with
  | None => Err ErrMissingFile
  | Some idStr =>
      match Atoi idStr with
      | Err err => Err err
      | Ok id => if (id <=? 0)%Z then Err ErrMissingFile else Ok id
      end
  end.

(** [parseJSON], part_001 lines 78-85: the decoded payload or the
    decoder's error. *)
Definition parseJSON {A : Type} (r : Request A) : result A := Decoded r.

(** [writeValidationError], part_001 lines 35-46: its map literal;
    encoding/json writes map keys in sorted order. *)
Definition writeValidationError (err : ValidationErrors) : http.Response :=
  let response :=
    Json.Object
      [ ("code", Json.Int http.StatusBadRequest);
        ("details",
         Json.Array (map (fun e => Json.Marshal (ValidationError_fields e))
                         (Errors err)));
        ("error", Json.Str "Validation failed") ] in
  writeJSON http.StatusBadRequest response.

(** [writeSuccess], part_001 lines 49-55. *)
Definition writeSuccess (message : string) (data : Json.value) : http.Response :=
  let response := models.mkSuccessResponse message data in
  writeJSON http.StatusOK (Json.Marshal (models.SuccessResponse_fields response)).

(** *** The user and post handlers *)

Section Handlers.
Context {ext : Externals}.
Import models sql.

(** [UserHandler.CreateUser], users.go lines 25-51. *)
Definition CreateUser (r : Request UserRequest) : M http.Response :=
  match parseJSON r with
  | Err _ => ret (writeError http.StatusBadRequest "Invalid JSON payload")
  | Ok req =>
      match ValidateUserRequest req with
      | Some err => ret (writeValidationError err)
      | None =>
          res <- database.CreateUser req ;;
          ret match res with
              | Err err => handleDatabaseError err "create user"
              | Ok user =>
                  writeJSON http.StatusCreated (Json.Marshal (User_fields user))
              end
      end
  end.

(** [UserHandler.GetUser], users.go lines 69-87. *)
Definition GetUser (r : Request unit) : M http.Response :=
  match parseIDFromURL r "id" with
  | Err _ => ret (writeError http.StatusBadRequest "Invalid user ID")
  | Ok id =>
      res <- database.GetUserByID id ;;
      ret match res with
          | Err err => handleDatabaseError err "get user"
          | Ok user => writeJSON http.StatusOK (Json.Marshal (User_fields user))
          end
  end.

(** [UserHandler.UpdateUser], users.go lines 90-127. *)
Definition UpdateUser (r : Request UserRequest) : M http.Response :=
  match parseIDFromURL r "id" with
  | Err _ => ret (writeError http.StatusBadRequest "Invalid user ID")
  | Ok id =>
      match parseJSON r with
      | Err _ => ret (writeError http.StatusBadRequest "Invalid JSON payload")
      | Ok req =>
          match ValidateUserUpdateRequest req with
          | Some err => ret (writeValidationError err)
          | None =>
              if (UserRequest_Username req =? "") && (UserRequest_Email req =? "")
                 && (UserRequest_Password req =? "") then
                ret (writeError http.StatusBadRequest
                       "At least one field must be provided for update")
              else
                res <- database.UpdateUser id req ;;
                ret match res with
                    | Err err => handleDatabaseError err "update user"
                    | Ok user =>
                        writeJSON http.StatusOK (Json.Marshal (User_fields user))
                    end
          end
      end
  end.

(** [UserHandler.DeleteUser], users.go lines 130-149. *)
Definition DeleteUser (r : Request unit) : M http.Response :=
  match parseIDFromURL r "id" with
  | Err _ => ret (writeError http.StatusBadRequest "Invalid user ID")
  | Ok id =>
      res <- database.DeleteUser id ;;
      ret match res with
          | Err err => handleDatabaseError err "delete user"
          | Ok _ => writeSuccess "User deleted successfully" Json.Null
          end
  end.

(** [PostHandler.CreatePost], part_003 lines 25-58. *)
Definition CreatePost (r : Request PostRequest) : M http.Response :=
  match parseJSON r with
  | Err _ => ret (writeError http.StatusBadRequest "Invalid JSON payload")
  | Ok req =>
      match ValidatePostRequest req with
      | Some err => ret (writeValidationError err)
      | None =>
          owner <- database.GetUserByID (PostRequest_UserID req) ;;
          match owner with
          | Err _ =>
              ret (writeError http.StatusBadRequest
                     "Invalid user ID: user does not exist")
          | Ok _ =>
              res <- database.CreatePost req ;;
              ret match res with
                  | Err err => handleDatabaseError err "create post"
                  | Ok post =>
                      writeJSON http.StatusCreated (Json.Marshal (Post_fields post))
                  end
          end
      end
  end.

(** [PostHandler.GetPost], part_003 lines 76-94. *)
Definition GetPost (r : Request unit) : M http.Response :=
  match parseIDFromURL r "id" with
  | Err _ => ret (writeError http.StatusBadRequest "Invalid post ID")
  | Ok id =>
      res <- database.GetPostByID id ;;
      ret match res with
          | Err err => handleDatabaseError err "get post"
          | Ok post => writeJSON http.StatusOK (Json.Marshal (Post_fields post))
          end
  end.

(** [PostHandler.UpdatePost], part_003 lines 97-143. *)
Definition UpdatePost (r : Request PostRequest) : M http.Response :=
  match parseIDFromURL r "id" with
  | Err _ => ret (writeError http.StatusBadRequest "Invalid post ID")
  | Ok id =>
      match parseJSON r with
      | Err _ => ret (writeError http.StatusBadRequest "Invalid JSON payload")
      | Ok req =>
          match ValidatePostUpdateRequest req with
          | Some err => ret (writeValidationError err)
          | None =>
              if (PostRequest_Title req =? "") && (PostRequest_Content req =? "")
                 && (PostRequest_UserID req =? 0)%Z then
                ret (writeError http.StatusBadRequest
                       "At least one field must be provided for update")
              else
                (* owner: the error of the existence check, if it ran and
                   failed *)
                owner <- (if negb (PostRequest_UserID req =? 0)%Z then
                            u <- database.GetUserByID (PostRequest_UserID req) ;;
                            ret match u with
                                | Err err => Some err
                                | Ok _ => None
                                end
                          else ret None) ;;
                match owner with
                | Some _ =>
                    ret (writeError http.StatusBadRequest
                           "Invalid user ID: user does not exist")
                | None =>
                    res <- database.UpdatePost id req ;;
                    ret match res with
                        | Err err => handleDatabaseError err "update post"
                        | Ok post =>
                            writeJSON http.StatusOK (Json.Marshal (Post_fields post))
                        end
                end
          end
      end
  end.

(** [PostHandler.DeletePost], part_003 lines 146-165. *)
Definition DeletePost (r : Request unit) : M http.Response :=
  match parseIDFromURL r "id" with
  | Err _ => ret (writeError http.StatusBadRequest "Invalid post ID")
  | Ok id =>
      res <- database.DeletePost id ;;
      ret match res with
          | Err err => handleDatabaseError err "delete post"
          | Ok _ => writeSuccess "Post deleted successfully" Json.Null
          end
  end.

End Handlers.

(** *** The list handlers *)

(** A slice handed to [writeJSON]: encoding/json writes a nil slice as
    [null].  The slices the list functions return are nil exactly when they
    are empty. *)
Definition encodeSlice {A : Type} (fields : A -> list Json.field) (l : list A)
  : Json.value :=
  match l with
  | [] => Json.Null
  | _ => Json.Array (map (fun x => Json.Marshal (fields x)) l)
  end.

Section ListHandlers.
Context {ext : Externals}.

(** [UserHandler.GetAllUsers], users.go lines 54-66. *)
Definition GetAllUsers : sql.M http.Response :=
  res <- database.GetAllUsers ;;
  sql.ret match res with
          | Err err => handleDatabaseError err "get all users"
          | Ok users => writeJSON http.StatusOK (encodeSlice models.User_fields users)
          end.

(** [PostHandler.GetAllPosts], part_003 lines 61-73. *)
Definition GetAllPosts : sql.M http.Response :=
  res <- database.GetAllPosts ;;
  sql.ret match res with
          | Err err => handleDatabaseError err "get all posts"
          | Ok posts => writeJSON http.StatusOK (encodeSlice models.Post_fields posts)
          end.

End ListHandlers.

End handlers.

(** ** The specification's reading of the pipeline

    Definitions that follow the specification's words, to be compared with
    the embedded code: the sparse-payload convention of the query builder,
    the classifier's rule table, and the validator's independent field
    rules. *)

Module Spec.
Import Go sql models.

(** One field of a sparse payload: the column it updates, whether it is
    present (non-empty string, non-zero integer), the value bound for it. *)
Record SparseField : Type := mkSparseField
  { column : string; is_present : bool; bound : Value }.

Inductive Payload : Type :=
| UserPayload (req : UserRequest)
| PostPayload (req : PostRequest).

Section Builder.
Context {ext : Externals}.

(** The stored form of a password: its hash. *)
Definition hashed (password : string) : string :=
  match bcrypt_GenerateFromPassword password with
  | Ok h => h
  | Err _ => ""
  end.

(** The payload's fields in declaration order. *)
Definition fields (p : Payload) : list SparseField :=
  match p with
  | UserPayload req =>
      [ mkSparseField "username" (negb (UserRequest_Username req =? ""))
          (VStr (UserRequest_Username req));
        mkSparseField "email" (negb (UserRequest_Email req =? ""))
          (VStr (UserRequest_Email req));
        mkSparseField "password_hash" (negb (UserRequest_Password req =? ""))
          (VStr (hashed (UserRequest_Password req))) ]
  | PostPayload req =>
      [ mkSparseField "title" (negb (PostRequest_Title req =? ""))
          (VStr (PostRequest_Title req));
        mkSparseField "content" (negb (PostRequest_Content req =? ""))
          (VStr (PostRequest_Content req));
        mkSparseField "user_id" (negb (PostRequest_UserID req =? 0)%Z)
          (VInt (PostRequest_UserID req)) ]
  end.







Definition table (p : Payload) : string :=
  match p with
  | UserPayload _ => "users"
  | PostPayload _ => "posts"
  end.





End Builder.

(** The classifier's rules in precedence order: the substrings of a rule,
    and the status and client message it maps to. *)
Definition rules : list (list string * (Z * string)) :=
  [ (["not found"], (404%Z, "Resource not found"));
    (["duplicate"; "unique"], (409%Z, "Resource already exists"));
    (["foreign key"], (400%Z, "Invalid reference to related resource"));
    (["invalid"; "check constraint"], (400%Z, "Invalid data provided")) ].


(** Validation rules, one per field; each looks at its own field only. *)
Section Rules.
Context {ext : Externals}.
Import handlers.

Definition username_rule (req : UserRequest) : list ValidationError :=
  if UserRequest_Username req =? "" then
    [mkValidationError "username" "username is required"]
  else if (len (UserRequest_Username req) <? 3)%Z then
    [mkValidationError "username" "username must be at least 3 characters long"]
  else if (50 <? len (UserRequest_Username req))%Z then
    [mkValidationError "username" "username must be no more than 50 characters long"]
  else [].

Definition email_rule (req : UserRequest) : list ValidationError :=
  if UserRequest_Email req =? "" then
    [mkValidationError "email" "email is required"]
  else if mail_ParseAddress (UserRequest_Email req) then []
  else [mkValidationError "email" "email format is invalid"].

Definition password_rule (req : UserRequest) : list ValidationError :=
  if UserRequest_Password req =? "" then
    [mkValidationError "password" "password is required"]
  else if (len (UserRequest_Password req) <? 6)%Z then
    [mkValidationError "password" "password must be at least 6 characters long"]
  else [].

Definition title_rule (req : PostRequest) : list ValidationError :=
  if PostRequest_Title req =? "" then
    [mkValidationError "title" "title is required"]
  else if (255 <? len (PostRequest_Title req))%Z then
    [mkValidationError "title" "title must be no more than 255 characters long"]
  else [].

Definition content_rule (req : PostRequest) : list ValidationError :=
  if PostRequest_Content req =? "" then
    [mkValidationError "content" "content is required"]
  else [].

Definition owner_rule (req : PostRequest) : list ValidationError :=
  if (0 <? PostRequest_UserID req)%Z then []
  else [mkValidationError "user_id" "user_id must be a positive integer"].

(** All violations, rule after rule. *)
Definition collect {A : Type} (rules : list (A -> list ValidationError)) (req : A)
  : list ValidationError :=
  flat_map (fun rule => rule req) rules.

Definition user_rules : list (UserRequest -> list ValidationError) :=
  [username_rule; email_rule; password_rule].

Definition post_rules : list (PostRequest -> list ValidationError) :=
  [title_rule; content_rule; owner_rule].

(** The required fields a create payload leaves out. *)
Definition missing_user_fields (req : UserRequest) : list string :=
  (if UserRequest_Username req =? "" then ["username"] else [])
  ++ (if UserRequest_Email req =? "" then ["email"] else [])
  ++ (if UserRequest_Password req =? "" then ["password"] else []).

Definition missing_post_fields (req : PostRequest) : list string :=
  (if PostRequest_Title req =? "" then ["title"] else [])
  ++ (if PostRequest_Content req =? "" then ["content"] else [])
  ++ (if (PostRequest_UserID req =? 0)%Z then ["user_id"] else []).

(** What a validator reported: nothing for [nil]. *)
Definition reported (err : option ValidationErrors) : list ValidationError :=
  match err with
  | Some e => Errors e
  | None => []
  end.

End Rules.

(** A route variable [id] the handlers refuse: absent, not a number (or
    one outside the range of [int]), or a number that is not positive. *)
Definition rejected_id (vars : list (string * string)) : Prop :=
  match handlers.lookup vars "id" with
  | None => True
  | Some idStr =>
      match Atoi idStr with
      | Err _ => True
      | Ok id => (id <= 0)%Z
      end
  end.

(** A stored post with a new title, when it is the post addressed. *)
Definition retitle (id : Z) (title : string) (p : PostRow) : PostRow :=
  if (posts_id p =? id)%Z then
    mkPostRow (posts_id p) title (posts_content p) (posts_user_id p)
              (posts_created_at p)
  else p.

(** Everything of a stored post but its title. *)
Definition untitled (p : PostRow) : Z * string * Z * Z :=
  (posts_id p, posts_content p, posts_user_id p, posts_created_at p).

(** Everything of a user record but its password hash. *)
Definition public (u : User) : Z * string * string * Time :=
  (User_ID u, User_Username u, User_Email u, User_CreatedAt u).


(** ASCII case folding of a byte: upper-case letters to lower case. *)
Definition fold_byte (b : Z) : Z :=
  if ((65 <=? b) && (b <=? 90))%Z then (b + 32)%Z else b.

(** Two messages that differ only in ASCII letter case. *)
Definition same_modulo_case (m m' : string) : Prop :=
  String.length m = String.length m'
  /\ forall i, fold_byte (index m i) = fold_byte (index m' i).

(** A pattern of lower-case letters and spaces, as all the classifier's
    patterns are. *)
Fixpoint plain (pat : string) : bool :=
  match pat with
  | EmptyString => true
  | String c rest =>
      let b := Z.of_nat (nat_of_ascii c) in
      ((b =? 32) || ((97 <=? b) && (b <=? 122)))%Z && plain rest
  end.

(** Every substring the classifier looks for. *)
Definition patterns : list string := flat_map fst rules.

End Spec.

(** ** Sample instances used to exercise the statements *)

Module Samples.
Import Go sql models.

(** A stand-in for bcrypt and net/mail: hashes by prefixing, accepts an
    address that is longer than two bytes; the driver reads every result to
    its end. *)
Definition externals : Externals :=
  {| bcrypt_GenerateFromPassword := fun pw => Ok ("$2a$10$" ++ pw)%string;
     bcrypt_CompareHashAndPassword := fun h pw => (h =? "$2a$10$" ++ pw)%string;
     mail_ParseAddress := fun e => (2 <? String.length e)%nat;
     driver_rows_Err := fun _ _ => None |}.

(** The same with bcrypt's limit: a password of more than 72 bytes is
    refused ([bcrypt.ErrPasswordTooLong]). *)
Definition bcrypt72 : Externals :=
  {| bcrypt_GenerateFromPassword :=
       fun pw =>
         if (72 <? String.length pw)%nat
         then Err (Errorf "bcrypt: password length exceeds 72 bytes")
         else Ok ("$2a$10$" ++ pw)%string;
     bcrypt_CompareHashAndPassword := fun h pw => (h =? "$2a$10$" ++ pw)%string;
     mail_ParseAddress := fun e => (2 <? String.length e)%nat;
     driver_rows_Err := fun _ _ => None |}.

(** A password of 73 bytes. *)
Definition long_password : string :=
  "aaaaaaaaaaaaaaaaaaaaaaaaaaaaaaaaaaaaaaaaaaaaaaaaaaaaaaaaaaaaaaaaaaaaaaaaa".

(** The same as [externals] with a connection that is lost while rows are
    read. *)
Definition unplugged : Externals :=
  {| bcrypt_GenerateFromPassword := fun pw => Ok ("$2a$10$" ++ pw)%string;
     bcrypt_CompareHashAndPassword := fun h pw => (h =? "$2a$10$" ++ pw)%string;
     mail_ParseAddress := fun e => (2 <? String.length e)%nat;
     driver_rows_Err := fun _ _ => Some (Errorf "driver: bad connection") |}.

Definition ana : UserRow :=
  mkUserRow 1 "ana" "ana@x.com" "$2a$10$secret1" 100.

Definition hello : PostRow := mkPostRow 1 "hello" "first post" 1 101.

Definition world : World :=
  mkWorld (mkDB [ana] [hello] 1 1) [] 200.

End Samples.

(** ** Notions used to state what the code does *)

Module Notions.
Import Go sql models.

(** A message byte the matcher accepts for a pattern byte: the byte itself
    or the byte 32 below or above it (modulo 256). *)
Definition near (c p : Z) : bool :=
  ((c =? p) || (c =? byte_sub p 32) || (c =? byte_add p 32))%Z.

(** The bytes of [s] from position [i] on are accepted for those of [pat]. *)
Definition window (s pat : string) (i : nat) : Prop :=
  forall j, (j < String.length pat)%nat ->
            near (index s (i + j)) (index pat j) = true.

(** [l] picks some of the elements of [order], in their order. *)
Fixpoint subsequence (l order : list string) : bool :=
  match l, order with
  | [], _ => true
  | _ :: _, [] => false
  | x :: l', y :: order' =>
      if x =? y then subsequence l' order' else subsequence l order'
  end.

(** One or more decimal digits: what the route pattern [[0-9]+] admits. *)
Fixpoint digits_only (s : string) : bool :=
  match s with
  | EmptyString => true
  | String c rest =>
      let d := Z.of_nat (nat_of_ascii c) in
      ((48 <=? d) && (d <=? 57))%Z && digits_only rest
  end.

Definition route_id (s : string) : Prop :=
  s <> "" /\ digits_only s = true.

(** A stored user as the store functions return it: without the hash. *)
Definition stored_user (r : UserRow) : User :=
  mkUser (users_id r) (users_username r) (users_email r) "" (users_created_at r).

(** A stored post as [CreatePost] and [UpdatePost] return it, and with
    its owner's name as the queries over the join return it. *)
Definition stored_post (p : PostRow) : Post :=
  mkPost (posts_id p) (posts_title p) (posts_content p) (posts_user_id p)
         (posts_created_at p) "".

Definition joined_post (pu : PostRow * UserRow) : Post :=
  mkPost (posts_id (fst pu)) (posts_title (fst pu)) (posts_content (fst pu))
         (posts_user_id (fst pu)) (posts_created_at (fst pu))
         (users_username (snd pu)).

(** What an update never touches in a user row and in a post row. *)
Definition user_identity (r : UserRow) : Z * Z :=
  (users_id r, users_created_at r).

Definition post_identity (p : PostRow) : Z * Z :=
  (posts_id p, posts_created_at p).


(** The message the store refuses a user row with because a value is
    longer than its column is wide (username 50 characters, e-mail address
    and password hash 255), if one is. *)
Definition user_refused (username email hash : string) : option string :=
  too_long users_width
    [("username", VStr username); ("email", VStr email);
     ("password_hash", VStr hash)].

(** The same for the title of a post (255 characters). *)
Definition post_refused (title : string) : option string :=
  too_long posts_width [("title", VStr title)].



(** *** What the classifier is given, and what occurs in it *)

Section StoreErrors.
Context {ext : Externals}.

(** A store error: an error one of the store functions returns to the
    handler that hands it to the classifier, in some state of the store. *)
Definition store_error (e : error) : Prop :=
  exists w : World,
    (exists req, fst (database.CreateUser req w) = Err e)
    \/ fst (database.GetAllUsers w) = Err e
    \/ (exists id, fst (database.GetUserByID id w) = Err e)
    \/ (exists id req, fst (database.UpdateUser id req w) = Err e)
    \/ (exists id, fst (database.DeleteUser id w) = Err e)
    \/ (exists req, fst (database.CreatePost req w) = Err e)
    \/ fst (database.GetAllPosts w) = Err e
    \/ (exists id, fst (database.GetPostByID id w) = Err e)
    \/ (exists id req, fst (database.UpdatePost id req w) = Err e)
    \/ (exists id, fst (database.DeletePost id w) = Err e).

End StoreErrors.

(** The lengths a store error's message can have: "user not found" and
    "post not found" have 14 bytes, "no fields to update" has 19, and every
    other message starts with a prefix of at least 20 bytes. *)
Definition store_length (n : nat) : Prop :=
  n = 14%nat \/ n = 19%nat \/ (20 <= n)%nat.

(** Two bytes that are the same letter, ASCII case ignored, or the same
    byte. *)
Definition same_letter (c p : ascii) : bool :=
  (Spec.fold_byte (Z.of_nat (nat_of_ascii c))
   =? Spec.fold_byte (Z.of_nat (nat_of_ascii p)))%Z.

(** [pat] is at the front of [m], letter case ignored. *)
Fixpoint starts_with (pat m : string) : bool :=
  match pat, m with
  | EmptyString, _ => true
  | String p pat', String c m' => same_letter c p && starts_with pat' m'
  | String _ _, EmptyString => false
  end.

(** [pat] occurs in [m] as a substring, letter case ignored. *)
Fixpoint occurs_in (pat m : string) : bool :=
  starts_with pat m
  || match m with
     | EmptyString => false
     | String _ m' => occurs_in pat m'
     end.

(** The bytes that lie 32 away from a space or from a lower-case letter
    without being that letter's capital: NUL, the at sign, and 0x81 to 0x9a. *)
Definition odd_byte (b : Z) : bool :=
  ((b =? 0) || (b =? 64) || ((129 <=? b) && (b <=? 154)))%Z.

(** A message without such bytes. *)
Fixpoint ordinary (m : string) : bool :=
  match m with
  | EmptyString => true
  | String c rest => negb (odd_byte (Z.of_nat (nat_of_ascii c))) && ordinary rest
  end.

(** The error response for a status, its reason phrase and a message: the
    JSON object with the keys error, message and code. *)
Definition failure (status : Z) (reason message : string) : http.Response :=
  http.mkResponse status
    (Json.Object [("error", Json.Str reason); ("message", Json.Str message);
                  ("code", Json.Int status)]).

End Notions.

(** * Properties *)

(** ** The partial-update query builder *)

Section BuilderFacts.
Context {ext : Externals}.
Import Go sql models Spec.


(** When a present password does not hash, the user builder stops with
    the hashing error and builds nothing. *)
Lemma update_builder_stops_when_hashing_fails (id : Z) (req : UserRequest)
      (e : error) :
  UserRequest_Password req <> "" ->
  bcrypt_GenerateFromPassword (UserRequest_Password req) = Err e ->
  database.UpdateUser_build id req = Err (wrap "failed to hash password: " e).
Proof.
  intros Hpresent Hfail. apply String.eqb_neq in Hpresent.
  unfold database.UpdateUser_build. rewrite Hpresent, Hfail.
  destruct (UserRequest_Username req =? "");
    destruct (UserRequest_Email req =? ""); reflexivity.
Qed.

End BuilderFacts.

(** ** The error classifier *)

Section ClassifierFacts.
Import Go handlers.













End ClassifierFacts.

(** ** Where the classifier does fold case *)

Section CaseFacts.
Import Go handlers Spec.

Lemma index_range (s : string) (i : nat) : (0 <= index s i < 256)%Z.
Proof.
  unfold index. destruct (String.get i s) as [c |]; [| lia].
  pose proof (nat_ascii_bounded c). lia.
Qed.

Lemma plain_index (pat : string) :
  plain pat = true ->
  forall j, (j < String.length pat)%nat ->
            (index pat j = 32 \/ 97 <= index pat j <= 122)%Z.
Proof.
  induction pat as [| c pat IH]; intros Hplain j Hj; simpl in Hj; [lia |].
  simpl in Hplain. apply andb_prop in Hplain as [Hc Hrest].
  destruct j as [| j].
  - unfold index. simpl.
    apply orb_prop in Hc as [Hc | Hc].
    + left. now apply Z.eqb_eq.
    + right. apply andb_prop in Hc as [Hlo Hhi].
      apply Z.leb_le in Hlo. apply Z.leb_le in Hhi. lia.
  - apply (IH Hrest j). lia.
Qed.

(** One comparison of the inner loop does not tell a letter from its other
    case. *)
Lemma compare_folds (p c c' : Z) :
  (p = 32 \/ 97 <= p <= 122)%Z ->
  (0 <= c < 256)%Z -> (0 <= c' < 256)%Z ->
  fold_byte c = fold_byte c' ->
  (negb (c =? p) && negb (c =? byte_sub p 32) && negb (c =? byte_add p 32))%Z
  = (negb (c' =? p) && negb (c' =? byte_sub p 32) && negb (c' =? byte_add p 32))%Z.
Proof.
  intros Hp Hc Hc' Hfold. unfold byte_sub, byte_add.
  rewrite !Z.mod_small by lia.
  unfold fold_byte in Hfold.
  destruct (Z.leb_spec 65 c); destruct (Z.leb_spec c 90);
    destruct (Z.leb_spec 65 c'); destruct (Z.leb_spec c' 90);
    cbn [andb] in Hfold;
    destruct (Z.eqb_spec c p); destruct (Z.eqb_spec c (p - 32));
    destruct (Z.eqb_spec c (p + 32));
    destruct (Z.eqb_spec c' p); destruct (Z.eqb_spec c' (p - 32));
    destruct (Z.eqb_spec c' (p + 32));
    try reflexivity; exfalso; lia.
Qed.

Lemma match_at_folds (s s' pat : string) (i : nat) :
  same_modulo_case s s' ->
  plain pat = true ->
  forall n j, (j + n <= String.length pat)%nat ->
              match_at s pat i j n = match_at s' pat i j n.
Proof.
  intros [_ Hfold] Hplain.
  induction n as [| n IH]; intros j Hj; simpl; [reflexivity |].
  assert (Hj' : (j < String.length pat)%nat) by lia.
  rewrite (compare_folds (index pat j) (index s (i + j)) (index s' (i + j))
             (plain_index pat Hplain j Hj') (index_range s (i + j))
             (index_range s' (i + j)) (Hfold (i + j)%nat)).
  rewrite IH by lia. reflexivity.
Qed.

Lemma scan_from_folds (s s' pat : string) :
  same_modulo_case s s' ->
  plain pat = true ->
  forall n i, scan_from s pat i n = scan_from s' pat i n.
Proof.
  intros Hsame Hplain.
  induction n as [| n IH]; intros i; simpl; [reflexivity |].
  rewrite (match_at_folds s s' pat i Hsame Hplain) by lia.
  now rewrite IH.
Qed.

(** For a message that is not exactly as long as the pattern, matching
    ignores ASCII letter case. *)
Lemma contains_folds (s s' pat : string) :
  same_modulo_case s s' ->
  plain pat = true ->
  String.length s <> String.length pat ->
  contains s pat = contains s' pat.
Proof.
  intros Hsame Hplain Hlen.
  pose proof Hsame as [Hlength _].
  unfold contains, containsHelper, len.
  rewrite <- Hlength, (scan_from_folds s s' pat Hsame Hplain).
  assert (Hs : (s =? pat) = false)
    by (apply String.eqb_neq; intros ->; now apply Hlen).
  assert (Hs' : (s' =? pat) = false)
    by (apply String.eqb_neq; intros ->; apply Hlen; exact Hlength).
  now rewrite Hs, Hs'.
Qed.

(** Messages that differ only in letter case are classified alike, unless
    they are exactly as long as one of the patterns. *)
Lemma classifier_folds_case_off_pattern_length (m m' operation : string) :
  same_modulo_case m m' ->
  (forall pat, In pat patterns -> String.length m <> String.length pat) ->
  handleDatabaseError (Errorf m) operation
  = handleDatabaseError (Errorf m') operation.
Proof.
  intros Hsame Hlen. unfold handleDatabaseError. cbn [Error].
  assert (H : forall pat, In pat patterns -> contains m pat = contains m' pat).
  { intros pat Hpat. apply contains_folds; [exact Hsame | | now apply Hlen].
    cbv in Hpat.
    repeat (destruct Hpat as [<- | Hpat]; [reflexivity |]). destruct Hpat. }
  rewrite !H by (cbv; tauto).
  reflexivity.
Qed.

End CaseFacts.

(** ** Validation and the handlers' early exits *)

Section ValidationFacts.
Context {ext : Externals}.
Import Go sql models handlers Spec.

Lemma validate_user_collects (req : UserRequest) :
  reported (ValidateUserRequest req) = collect user_rules req.
Proof.
  unfold ValidateUserRequest, collect, user_rules, username_rule, email_rule,
    password_rule, isValidEmail.
  cbn [flat_map]. rewrite Z.gtb_ltb.
  destruct (UserRequest_Username req =? "");
    [| destruct (len (UserRequest_Username req) <? 3)%Z;
       [| destruct (50 <? len (UserRequest_Username req))%Z]];
    (destruct (UserRequest_Email req =? "");
       [| destruct (mail_ParseAddress (UserRequest_Email req))]);
    (destruct (UserRequest_Password req =? "");
       [| destruct (len (UserRequest_Password req) <? 6)%Z]);
    reflexivity.
Qed.

Lemma validate_post_collects (req : PostRequest) :
  reported (ValidatePostRequest req) = collect post_rules req.
Proof.
  unfold ValidatePostRequest, collect, post_rules, title_rule, content_rule,
    owner_rule.
  cbn [flat_map]. rewrite Z.gtb_ltb, Z.leb_antisym.
  destruct (PostRequest_Title req =? "");
    [| destruct (255 <? len (PostRequest_Title req))%Z];
    destruct (PostRequest_Content req =? "");
    destruct (0 <? PostRequest_UserID req)%Z;
    reflexivity.
Qed.

Lemma missing_user_field_is_reported (req : UserRequest) (f : string) :
  In f (missing_user_fields req) ->
  In f (map Field (reported (ValidateUserRequest req))).
Proof.
  rewrite validate_user_collects.
  unfold missing_user_fields, collect, user_rules. cbn [flat_map].
  rewrite app_nil_r, !map_app, !in_app_iff.
  unfold username_rule, email_rule, password_rule.
  intros [H | [H | H]]; [left | right; left | right; right];
    match type of H with
    | In _ (if ?c then _ else _) => destruct c; [exact H | destruct H]
    end.
Qed.

Lemma missing_post_field_is_reported (req : PostRequest) (f : string) :
  In f (missing_post_fields req) ->
  In f (map Field (reported (ValidatePostRequest req))).
Proof.
  rewrite validate_post_collects.
  unfold missing_post_fields, collect, post_rules. cbn [flat_map].
  rewrite app_nil_r, !map_app, !in_app_iff.
  unfold title_rule, content_rule, owner_rule.
  intros [H | [H | H]]; [left | right; left | right; right].
  - destruct (PostRequest_Title req =? ""); [exact H | destruct H].
  - destruct (PostRequest_Content req =? ""); [exact H | destruct H].
  - destruct (Z.eqb_spec (PostRequest_UserID req) 0) as [-> | _];
      [exact H | destruct H].
Qed.

(** A validator that reported something returned a non-nil error. *)
Lemma reported_some (err : option ValidationErrors) (f : string) :
  In f (map Field (reported err)) -> exists e, err = Some e.
Proof.
  destruct err as [e |]; [intros _; now exists e | intros []].
Qed.

(** C5: create validation is the collection of every field rule's
    violations, in field order, for users and for posts; a user payload with
    nothing in it gets exactly the three "required" errors, in order; every
    missing required field is named by one of the reported errors; and a
    create handler given a payload with a missing required field answers
    with the validation error and leaves the world (tables and statements
    sent) untouched. *)
Theorem create_validation_reports_every_violation :
  (forall req, reported (ValidateUserRequest req) = collect user_rules req)
  /\ (forall req, reported (ValidatePostRequest req) = collect post_rules req)
  /\ reported (ValidateUserRequest (mkUserRequest "" "" ""))
     = [ mkValidationError "username" "username is required";
         mkValidationError "email" "email is required";
         mkValidationError "password" "password is required" ]
  /\ (forall req f,
        In f (missing_user_fields req) ->
        In f (map Field (reported (ValidateUserRequest req))))
  /\ (forall req f,
        In f (missing_post_fields req) ->
        In f (map Field (reported (ValidatePostRequest req))))
  /\ (forall vars req w,
        missing_user_fields req <> [] ->
        exists e,
          ValidateUserRequest req = Some e
          /\ CreateUser (mkRequest vars (Ok req)) w = (writeValidationError e, w))
  /\ (forall vars req w,
        missing_post_fields req <> [] ->
        exists e,
          ValidatePostRequest req = Some e
          /\ CreatePost (mkRequest vars (Ok req)) w = (writeValidationError e, w)).
Proof.
  split; [exact validate_user_collects |].
  split; [exact validate_post_collects |].
  split; [reflexivity |].
  split; [exact missing_user_field_is_reported |].
  split; [exact missing_post_field_is_reported |].
  split.
  - intros vars req w Hmissing.
    destruct (missing_user_fields req) as [| f rest] eqn:Hm; [congruence |].
    destruct (reported_some (ValidateUserRequest req) f) as [e He].
    { apply missing_user_field_is_reported. rewrite Hm. now left. }
    exists e. split; [exact He |].
    unfold CreateUser, parseJSON. cbn [Decoded]. now rewrite He.
  - intros vars req w Hmissing.
    destruct (missing_post_fields req) as [| f rest] eqn:Hm; [congruence |].
    destruct (reported_some (ValidatePostRequest req) f) as [e He].
    { apply missing_post_field_is_reported. rewrite Hm. now left. }
    exists e. split; [exact He |].
    unfold CreatePost, parseJSON. cbn [Decoded]. now rewrite He.
Qed.

(** C4: a payload with no field present makes both builders fail with
    "no fields to update"; the store functions then return that error
    without sending anything, and the update handlers answer 400 without
    reaching the store at all. *)
Theorem empty_update_never_reaches_the_store :
  forall (id : Z) (vars : list (string * string)) (w : World),
    database.UpdateUser_build id (mkUserRequest "" "" "")
    = Err (Errorf "no fields to update")
    /\ database.UpdatePost_build id (mkPostRequest "" "" 0)
       = Err (Errorf "no fields to update")
    /\ database.UpdateUser id (mkUserRequest "" "" "") w
       = (Err (Errorf "no fields to update"), w)
    /\ database.UpdatePost id (mkPostRequest "" "" 0) w
       = (Err (Errorf "no fields to update"), w)
    /\ (exists message,
          UpdateUser (mkRequest vars (Ok (mkUserRequest "" "" ""))) w
          = (writeError 400 message, w))
    /\ (exists message,
          UpdatePost (mkRequest vars (Ok (mkPostRequest "" "" 0))) w
          = (writeError 400 message, w)).
Proof.
  intros id vars w.
  repeat (split; [reflexivity |]).
  split.
  - unfold UpdateUser.
    destruct (parseIDFromURL _ "id") as [n | e]; eexists; reflexivity.
  - unfold UpdatePost.
    destruct (parseIDFromURL _ "id") as [n | e]; eexists; reflexivity.
Qed.

Lemma rejected_id_fails {A : Type} (vars : list (string * string)) (d : result A) :
  rejected_id vars ->
  exists e, parseIDFromURL (mkRequest vars d) "id" = Err e.
Proof.
  unfold rejected_id, parseIDFromURL. cbn [Vars].
  destruct (lookup vars "id") as [idStr |]; [| intros _; eexists; reflexivity].
  destruct (Atoi idStr) as [n | e]; [| intros _; eexists; reflexivity].
  intros Hn. apply Z.leb_le in Hn. rewrite Hn. eexists; reflexivity.
Qed.

(** C10: when the route variable [id] is absent, is not a number, or is a
    number that is not positive, [parseIDFromURL] fails and each of the six
    id-addressed handlers answers 400 ("Invalid user ID" or
    "Invalid post ID") and leaves the world (tables and statements sent)
    untouched. *)
Theorem unusable_id_is_a_bad_request :
  forall (vars : list (string * string)) (w : World),
    rejected_id vars ->
    (forall (A : Type) (d : result A),
        exists e, parseIDFromURL (mkRequest vars d) "id" = Err e)
    /\ (forall d, GetUser (mkRequest vars d) w
                  = (writeError 400 "Invalid user ID", w))
    /\ (forall d, UpdateUser (mkRequest vars d) w
                  = (writeError 400 "Invalid user ID", w))
    /\ (forall d, DeleteUser (mkRequest vars d) w
                  = (writeError 400 "Invalid user ID", w))
    /\ (forall d, GetPost (mkRequest vars d) w
                  = (writeError 400 "Invalid post ID", w))
    /\ (forall d, UpdatePost (mkRequest vars d) w
                  = (writeError 400 "Invalid post ID", w))
    /\ (forall d, DeletePost (mkRequest vars d) w
                  = (writeError 400 "Invalid post ID", w)).
Proof.
  intros vars w Hbad.
  split; [intros A d; now apply rejected_id_fails |].
  repeat split; intros d;
    destruct (rejected_id_fails vars d Hbad) as [e He];
    unfold GetUser, UpdateUser, DeleteUser, GetPost, UpdatePost, DeletePost;
    rewrite He; reflexivity.
Qed.

End ValidationFacts.

(** C5, exercised: a user payload with only a username. *)
Lemma create_validation_reports_every_violation_witness :
  exists e,
    handlers.ValidateUserRequest (ext := Samples.externals)
      (models.mkUserRequest "ana" "" "") = Some e
    /\ handlers.CreateUser (ext := Samples.externals)
         (handlers.mkRequest [] (Go.Ok (models.mkUserRequest "ana" "" "")))
         Samples.world
       = (handlers.writeValidationError e, Samples.world).
Proof.
  apply (proj1 (proj2 (proj2 (proj2 (proj2 (proj2
          (@create_validation_reports_every_violation Samples.externals))))))).
  vm_compute. discriminate.
Defined.

(** C10, exercised: the id 0, which the route pattern lets through. *)
Lemma unusable_id_is_a_bad_request_witness :
  handlers.GetUser (handlers.mkRequest [("id", "0")] (Go.Ok tt)) Samples.world
  = (handlers.writeError 400 "Invalid user ID", Samples.world).
Proof.
  apply (@unusable_id_is_a_bad_request Samples.externals
            [("id", "0")] Samples.world).
  vm_compute. discriminate.
Defined.

(** ** The store *)

Section StoreFacts.
Import Go sql models Spec.

Lemma db_eta (d : DB) :
  mkDB (users d) (posts d) (users_id_seq d) (posts_id_seq d) = d.
Proof. now destruct d. Qed.

Lemma with_db_same (q : string) (a : list Value) (w : World) :
  with_db (db (sending q a w)) (sending q a w) = sending q a w.
Proof. reflexivity. Qed.

Lemma filter_none {A : Type} (f : A -> bool) (l : list A) :
  existsb f l = false -> filter f l = [].
Proof.
  induction l as [| x l IH]; simpl; [reflexivity |].
  destruct (f x); simpl; [discriminate | exact IH].
Qed.

Lemma filter_keeps_all {A : Type} (f : A -> bool) (l : list A) :
  existsb f l = false -> filter (fun x => negb (f x)) l = l.
Proof.
  induction l as [| x l IH]; simpl; [reflexivity |].
  destruct (f x); simpl; [discriminate | intros H; now rewrite IH].
Qed.

Lemma filter_true {A : Type} (l : list A) : filter (fun _ => true) l = l.
Proof.
  induction l as [| x l IH]; simpl; [reflexivity | now rewrite IH].
Qed.

Lemma existsb_filter_some {A : Type} (f : A -> bool) (l : list A) :
  existsb f l = true -> (0 < List.length (filter f l))%nat.
Proof.
  induction l as [| x l IH]; simpl; [discriminate |].
  destruct (f x); simpl; [lia | exact IH].
Qed.

Lemma selects_users_id (id : Z) (u : UserRow) :
  selects users_get "id" (VInt id) u = (users_id u =? id)%Z.
Proof. reflexivity. Qed.

Lemma selects_posts_id (id : Z) (p : PostRow) :
  selects posts_get "id" (VInt id) p = (posts_id p =? id)%Z.
Proof. reflexivity. Qed.

(** Rows of the four user columns every user query returns. *)
Lemma project_user_columns (rows : list UserRow) :
  project_all users_get ["id"; "username"; "email"; "created_at"] rows
  = Some (map (fun u => [VInt (users_id u); VStr (users_username u);
                         VStr (users_email u); VTime (users_created_at u)]) rows).
Proof.
  induction rows as [| u rows IH]; [reflexivity |].
  cbn [project_all map]. rewrite IH. reflexivity.
Qed.

Lemma project_post_columns (rows : list PostRow) :
  project_all posts_get ["id"; "title"; "content"; "user_id"; "created_at"] rows
  = Some (map (fun p => [VInt (posts_id p); VStr (posts_title p);
                         VStr (posts_content p); VInt (posts_user_id p);
                         VTime (posts_created_at p)]) rows).
Proof.
  induction rows as [| p rows IH]; [reflexivity |].
  cbn [project_all map]. rewrite IH. reflexivity.
Qed.

(** An UPDATE whose WHERE selects no row writes nothing. *)
Lemma update_where_none {R : Type} (get : string -> R -> option Value)
      (set : string -> Value -> R -> option R) (wcol : string) (v : Value)
      (cvs : list (string * Value)) (rows : list R) :
  existsb (selects get wcol v) rows = false ->
  update_where get set wcol v cvs rows = Some (rows, []).
Proof.
  induction rows as [| r rows IH]; simpl; [reflexivity |].
  destruct (selects get wcol v r); simpl; [discriminate |].
  intros H. now rewrite IH.
Qed.

(** Looking up a user that is not stored: "user not found", and only the
    SELECT went out. *)
Lemma GetUserByID_missing (id : Z) (w : World) :
  user_exists (db w) id = false ->
  database.GetUserByID id w
  = (Err (Errorf "user not found"),
     sending "SELECT id, username, email, created_at FROM users WHERE id = $1"
             [VInt id] w).
Proof.
  intros Hmissing.
  unfold database.GetUserByID, database.queryRow, QueryRowContext, bind, run, ret.
  change (parse "SELECT id, username, email, created_at FROM users WHERE id = $1")
    with (Some (Select ["id"; "username"; "email"; "created_at"] "users" "id" 1)).
  cbn [exec exec_select param nth_error Nat.sub].
  change ("users" =? "users") with true. cbv iota.
  cbn [db sending].
  rewrite (filter_none (selects users_get "id" (VInt id)) (users (db w)) Hmissing).
  reflexivity.
Qed.

End StoreFacts.

(** ** Missing records, and what an update may touch *)

Section MutationFacts.
Context {ext : Externals}.
Import Go sql models Spec.

(** What a user builder hands to the store reads back as an UPDATE of
    [users] whose parameters are all bound and whose WHERE takes the id. *)
Lemma user_build_reads_back (id : Z) (req : UserRequest) (b : database.Built) :
  database.UpdateUser_build id req = Ok b ->
  exists sets k cvs,
    parse (database.query b)
    = Some (Update "users" sets "id" k ["id"; "username"; "email"; "created_at"])
    /\ param (database.args b) k = Some (VInt id)
    /\ bind_sets sets (database.args b) = Some cvs.
Proof.
  destruct req as [username email password].
  unfold database.UpdateUser_build.
  cbn [UserRequest_Username UserRequest_Email UserRequest_Password].
  destruct (username =? ""); destruct (email =? ""); destruct (password =? "");
    cbn [negb];
    try destruct (bcrypt_GenerateFromPassword password) as [h | e];
    intros Hb; try discriminate Hb;
    injection Hb as <-;
    do 3 eexists; repeat split; vm_compute; reflexivity.
Qed.

Lemma post_build_reads_back (id : Z) (req : PostRequest) (b : database.Built) :
  database.UpdatePost_build id req = Ok b ->
  exists sets k cvs,
    parse (database.query b)
    = Some (Update "posts" sets "id" k
              ["id"; "title"; "content"; "user_id"; "created_at"])
    /\ param (database.args b) k = Some (VInt id)
    /\ bind_sets sets (database.args b) = Some cvs.
Proof.
  destruct req as [title content user_id].
  unfold database.UpdatePost_build.
  cbn [PostRequest_Title PostRequest_Content PostRequest_UserID].
  destruct (title =? ""); destruct (content =? ""); destruct (user_id =? 0)%Z;
    cbn [negb];
    intros Hb; try discriminate Hb;
    injection Hb as <-;
    do 3 eexists; repeat split; vm_compute; reflexivity.
Qed.

(** An UPDATE addressed to an id no row carries: no row comes back and the
    tables stay as they are. *)
Lemma exec_update_users_missing (sets : list (string * nat)) (k : nat)
      (ret : list string) (args : list Value) (cvs : list (string * Value))
      (id : Z) (d : DB) :
  param args k = Some (VInt id) ->
  bind_sets sets args = Some cvs ->
  user_exists d id = false ->
  exec_update "users" sets "id" k ret args d = (d, Done [] 0).
Proof.
  intros Hk Hsets Hmissing. unfold exec_update.
  rewrite Hk, Hsets.
  change ("users" =? "users") with true. cbv iota.
  rewrite (update_where_none users_get users_set "id" (VInt id) cvs (users d) Hmissing).
  cbn. now rewrite db_eta.
Qed.

Lemma exec_update_posts_missing (sets : list (string * nat)) (k : nat)
      (ret : list string) (args : list Value) (cvs : list (string * Value))
      (id : Z) (d : DB) :
  param args k = Some (VInt id) ->
  bind_sets sets args = Some cvs ->
  post_exists d id = false ->
  exec_update "posts" sets "id" k ret args d = (d, Done [] 0).
Proof.
  intros Hk Hsets Hmissing. unfold exec_update.
  rewrite Hk, Hsets.
  change ("posts" =? "users") with false.
  change ("posts" =? "posts") with true. cbv iota.
  rewrite (update_where_none posts_get posts_set "id" (VInt id) cvs (posts d) Hmissing).
  cbn. now rewrite db_eta.
Qed.

Lemma UpdateUser_missing (id : Z) (req : UserRequest) (b : database.Built) (w : World) :
  database.UpdateUser_build id req = Ok b ->
  user_exists (db w) id = false ->
  database.UpdateUser id req w
  = (Err (Errorf "user not found"),
     sending (database.query b) (database.args b) w).
Proof.
  intros Hb Hmissing.
  destruct (user_build_reads_back id req b Hb) as (sets & k & cvs & Hparse & Hk & Hsets).
  unfold database.UpdateUser. rewrite Hb.
  unfold database.queryRow, QueryRowContext, bind, run, ret.
  rewrite Hparse. cbn [exec db sending].
  rewrite (exec_update_users_missing sets k _ _ cvs id (db w) Hk Hsets Hmissing).
  unfold with_db, sending. cbn. reflexivity.
Qed.


Lemma UpdatePost_missing (id : Z) (req : PostRequest) (b : database.Built) (w : World) :
  database.UpdatePost_build id req = Ok b ->
  post_exists (db w) id = false ->
  database.UpdatePost id req w
  = (Err (Errorf "post not found"),
     sending (database.query b) (database.args b) w).
Proof.
  intros Hb Hmissing.
  destruct (post_build_reads_back id req b Hb) as (sets & k & cvs & Hparse & Hk & Hsets).
  unfold database.UpdatePost. rewrite Hb.
  unfold database.queryRow, QueryRowContext, bind, run, ret.
  rewrite Hparse. cbn [exec db sending].
  rewrite (exec_update_posts_missing sets k _ _ cvs id (db w) Hk Hsets Hmissing).
  unfold with_db, sending. cbn. reflexivity.
Qed.

(** The number of rows a DELETE by id reports. *)
Lemma ExecContext_delete_user (id : Z) (w : World) :
  fst (ExecContext "DELETE FROM users WHERE id = $1" [VInt id] w)
  = Ok (Z.of_nat (List.length
                    (filter (fun u => (users_id u =? id)%Z) (users (db w))))).
Proof. reflexivity. Qed.

Lemma ExecContext_delete_post (id : Z) (w : World) :
  fst (ExecContext "DELETE FROM posts WHERE id = $1" [VInt id] w)
  = Ok (Z.of_nat (List.length
                    (filter (fun p => (posts_id p =? id)%Z) (posts (db w))))).
Proof. reflexivity. Qed.

Lemma DeleteUser_result (id : Z) (w : World) :
  fst (database.DeleteUser id w)
  = if (Z.of_nat (List.length
                    (filter (fun u => (users_id u =? id)%Z) (users (db w)))) =? 0)%Z
    then Err (Errorf "user not found") else Ok tt.
Proof. reflexivity. Qed.

Lemma DeletePost_result (id : Z) (w : World) :
  fst (database.DeletePost id w)
  = if (Z.of_nat (List.length
                    (filter (fun p => (posts_id p =? id)%Z) (posts (db w)))) =? 0)%Z
    then Err (Errorf "post not found") else Ok tt.
Proof. reflexivity. Qed.

Lemma no_row_iff_missing {A : Type} (f : A -> bool) (l : list A) :
  Z.of_nat (List.length (filter f l)) = 0%Z <-> existsb f l = false.
Proof.
  split.
  - intros Hzero. destruct (existsb f l) eqn:Hex; [| reflexivity].
    apply existsb_filter_some in Hex. lia.
  - intros Hmissing. now rewrite (filter_none f l Hmissing).
Qed.

Lemma DeleteUser_missing (id : Z) (w : World) :
  user_exists (db w) id = false ->
  database.DeleteUser id w
  = (Err (Errorf "user not found"),
     sending "DELETE FROM users WHERE id = $1" [VInt id] w).
Proof.
  intros Hmissing.
  unfold database.DeleteUser, ExecContext, bind, run, ret.
  change (parse "DELETE FROM users WHERE id = $1")
    with (Some (Delete "users" "id" 1)).
  cbn [exec exec_delete param nth_error Nat.sub db sending].
  change ("users" =? "users") with true. cbv iota.
  rewrite (filter_none (selects users_get "id" (VInt id)) (users (db w)) Hmissing).
  rewrite (filter_keeps_all (selects users_get "id" (VInt id)) (users (db w)) Hmissing).
  cbn [existsb negb]. rewrite filter_true, db_eta. reflexivity.
Qed.

Lemma DeletePost_missing (id : Z) (w : World) :
  post_exists (db w) id = false ->
  database.DeletePost id w
  = (Err (Errorf "post not found"),
     sending "DELETE FROM posts WHERE id = $1" [VInt id] w).
Proof.
  intros Hmissing.
  unfold database.DeletePost, ExecContext, bind, run, ret.
  change (parse "DELETE FROM posts WHERE id = $1")
    with (Some (Delete "posts" "id" 1)).
  cbn [exec exec_delete param nth_error Nat.sub db sending].
  change ("posts" =? "users") with false.
  change ("posts" =? "posts") with true. cbv iota.
  rewrite (filter_none (selects posts_get "id" (VInt id)) (posts (db w)) Hmissing).
  rewrite (filter_keeps_all (selects posts_get "id" (VInt id)) (posts (db w)) Hmissing).
  rewrite db_eta. reflexivity.
Qed.

(** C9: [DeleteUser] and [DeletePost] return their "not found" error
    exactly when the DELETE reported zero affected rows, which is exactly
    when no stored row carries the id; [UpdateUser] and [UpdatePost], once
    their builder has produced a mutation, return "not found" when no stored
    row carries the id; for an id no stored row carries an update never
    succeeds, whatever the payload; and in each of these cases the tables
    are what they were. *)
Theorem unmatched_id_is_not_found_and_changes_nothing :
  forall (id : Z) (w : World),
    (fst (database.DeleteUser id w) = Err (Errorf "user not found")
     <-> fst (ExecContext "DELETE FROM users WHERE id = $1" [VInt id] w) = Ok 0%Z)
    /\ (fst (database.DeletePost id w) = Err (Errorf "post not found")
        <-> fst (ExecContext "DELETE FROM posts WHERE id = $1" [VInt id] w) = Ok 0%Z)
    /\ (fst (database.DeleteUser id w) = Err (Errorf "user not found")
        <-> user_exists (db w) id = false)
    /\ (fst (database.DeletePost id w) = Err (Errorf "post not found")
        <-> post_exists (db w) id = false)
    /\ (user_exists (db w) id = false ->
        database.DeleteUser id w
        = (Err (Errorf "user not found"),
           sending "DELETE FROM users WHERE id = $1" [VInt id] w))
    /\ (post_exists (db w) id = false ->
        database.DeletePost id w
        = (Err (Errorf "post not found"),
           sending "DELETE FROM posts WHERE id = $1" [VInt id] w))
    /\ (forall req b,
          database.UpdateUser_build id req = Ok b ->
          user_exists (db w) id = false ->
          database.UpdateUser id req w
          = (Err (Errorf "user not found"),
             sending (database.query b) (database.args b) w))
    /\ (forall req b,
          database.UpdatePost_build id req = Ok b ->
          post_exists (db w) id = false ->
          database.UpdatePost id req w
          = (Err (Errorf "post not found"),
             sending (database.query b) (database.args b) w))
    /\ (forall req,
          user_exists (db w) id = false ->
          exists e,
            fst (database.UpdateUser id req w) = Err e
            /\ db (snd (database.UpdateUser id req w)) = db w)
    /\ (forall req,
          post_exists (db w) id = false ->
          exists e,
            fst (database.UpdatePost id req w) = Err e
            /\ db (snd (database.UpdatePost id req w)) = db w).
Proof.
  intros id w.
  assert (Hzero : forall n : Z,
             (if (n =? 0)%Z then Err (Errorf "user not found") else Ok tt)
             = Err (Errorf "user not found") <-> Ok n = Ok 0%Z :> result Z).
  { intros n. destruct (Z.eqb_spec n 0) as [-> | Hn]; split; intros H;
      try reflexivity; try discriminate H.
    injection H as H. contradiction. }
  assert (Hzero' : forall n : Z,
             (if (n =? 0)%Z then Err (Errorf "post not found") else Ok tt)
             = Err (Errorf "post not found") <-> Ok n = Ok 0%Z :> result Z).
  { intros n. destruct (Z.eqb_spec n 0) as [-> | Hn]; split; intros H;
      try reflexivity; try discriminate H.
    injection H as H. contradiction. }
  split; [rewrite DeleteUser_result, ExecContext_delete_user; apply Hzero |].
  split; [rewrite DeletePost_result, ExecContext_delete_post; apply Hzero' |].
  split.
  { rewrite DeleteUser_result. unfold user_exists.
    rewrite <- no_row_iff_missing, Hzero.
    split; [intros H; now injection H | intros ->; reflexivity]. }
  split.
  { rewrite DeletePost_result. unfold post_exists.
    rewrite <- no_row_iff_missing, Hzero'.
    split; [intros H; now injection H | intros ->; reflexivity]. }
  split; [apply DeleteUser_missing |].
  split; [apply DeletePost_missing |].
  split; [intros req b; apply UpdateUser_missing |].
  split; [intros req b; apply UpdatePost_missing |].
  split.
  - intros req Hmissing.
    destruct (database.UpdateUser_build id req) as [b | e] eqn:Hb.
    + rewrite (UpdateUser_missing id req b w Hb Hmissing).
      eexists. split; reflexivity.
    + unfold database.UpdateUser. rewrite Hb.
      eexists. split; reflexivity.
  - intros req Hmissing.
    destruct (database.UpdatePost_build id req) as [b | e] eqn:Hb.
    + rewrite (UpdatePost_missing id req b w Hb Hmissing).
      eexists. split; reflexivity.
    + unfold database.UpdatePost. rewrite Hb.
      eexists. split; reflexivity.
Qed.

End MutationFacts.

(** ** A title-only update *)

Section TitleFacts.
Import Go sql models Spec.

(** Rewriting the title of the rows with a given id, as [update_where]
    does it when the title fits the column. *)
Lemma update_where_title (id : Z) (title : string) (rows : list PostRow) :
  fits 255 title = true ->
  update_where posts_get posts_set "id" (VInt id) [("title", VStr title)] rows
  = Some (map (retitle id title) rows,
          map (retitle id title) (filter (fun p => (posts_id p =? id)%Z) rows)).
Proof.
  intros Hfits.
  induction rows as [| p rows IH]; [reflexivity |].
  cbn [update_where map filter]. rewrite IH, selects_posts_id.
  destruct (posts_id p =? id)%Z eqn:Hp.
  - assert (Hr : retitle id title p
                 = mkPostRow (posts_id p) title (posts_content p)
                             (posts_user_id p) (posts_created_at p))
      by (unfold retitle; now rewrite Hp).
    cbn [map]. rewrite Hr.
    cbn [assign]. unfold posts_set.
    change ("title" =? "title") with true. cbv iota. rewrite Hfits. reflexivity.
  - assert (Hr : retitle id title p = p) by (unfold retitle; now rewrite Hp).
    rewrite Hr. reflexivity.
Qed.

(** A title that is too long is refused at the first row it would be
    written to; with no such row nothing is written. *)
Lemma update_where_long_title (id : Z) (title : string) (rows : list PostRow) :
  fits 255 title = false ->
  update_where posts_get posts_set "id" (VInt id) [("title", VStr title)] rows
  = if existsb (fun p => (posts_id p =? id)%Z) rows then None
    else Some (rows, []).
Proof.
  intros Hfits.
  induction rows as [| p rows IH]; [reflexivity |].
  cbn [update_where existsb]. rewrite IH, selects_posts_id.
  destruct (existsb (fun p0 => (posts_id p0 =? id)%Z) rows).
  - now rewrite orb_true_r.
  - rewrite orb_false_r. destruct (posts_id p =? id)%Z; [| reflexivity].
    cbn [assign]. unfold posts_set.
    change ("title" =? "title") with true. cbv iota. now rewrite Hfits.
Qed.

Lemma retitle_untitled (id : Z) (title : string) (rows : list PostRow) :
  map untitled (map (retitle id title) rows) = map untitled rows.
Proof.
  rewrite map_map. apply map_ext. intros p. unfold retitle.
  destruct (posts_id p =? id)%Z; reflexivity.
Qed.

Lemma retitle_unmatched (id : Z) (title : string) (rows : list PostRow) :
  filter (fun p => (posts_id p =? id)%Z) rows = [] ->
  map (retitle id title) rows = rows.
Proof.
  induction rows as [| p rows IH]; [reflexivity |].
  cbn [filter map]. unfold retitle at 1.
  destruct (posts_id p =? id)%Z; [discriminate |].
  intros H. now rewrite IH.
Qed.

(** What the store function does with a title-only payload. *)
Lemma UpdatePost_title_only (id : Z) (title : string) (w : World) :
  title <> "" ->
  let r := database.UpdatePost id (mkPostRequest title "" 0) w in
  users (db (snd r)) = users (db w)
  /\ match fst r with
     | Ok post =>
         posts (db (snd r)) = map (retitle id title) (posts (db w))
         /\ Post_Title post = title
     | Err _ => db (snd r) = db w
     end.
Proof.
  intros Htitle.
  apply String.eqb_neq in Htitle.
  unfold database.UpdatePost, database.UpdatePost_build.
  cbn [PostRequest_Title PostRequest_Content PostRequest_UserID].
  rewrite Htitle.
  change ("" =? "") with true. change (0 =? 0)%Z with true. cbn [negb].
  cbv beta iota zeta.
  cbn [List.length Nat.eqb app database.query database.args].
  unfold database.queryRow, QueryRowContext, bind, run, ret.
  match goal with
  | |- context [parse ?q] =>
      change (parse q)
        with (Some (Update "posts" [("title", 1%nat)] "id" 2
                      ["id"; "title"; "content"; "user_id"; "created_at"]))
  end.
  cbn [exec db sending]. unfold exec_update.
  cbn [param nth_error Nat.sub bind_sets].
  change ("posts" =? "users") with false.
  change ("posts" =? "posts") with true. cbv iota.
  destruct (fits 255 title) eqn:Hfits.
  - rewrite (update_where_title id title _ Hfits).
    destruct (posts_check (db w) _ _) as [msg |]; [split; reflexivity |].
    unfold returning. rewrite project_post_columns.
    cbn [commit with_db db fst snd users posts].
    destruct (filter (fun p => (posts_id p =? id)%Z) (posts (db w)))
      as [| p ps] eqn:Hsel.
    + cbn. split; [reflexivity |].
      rewrite (retitle_unmatched id title _ Hsel). apply db_eta.
    + cbn [map database.scanPost fst snd db users posts].
      split; [reflexivity |]. split; [reflexivity |].
      unfold retitle. cbn.
      assert (Hp : (posts_id p =? id)%Z = true).
      { assert (Hin : In p (filter (fun p => (posts_id p =? id)%Z) (posts (db w))))
          by (rewrite Hsel; now left).
        apply filter_In in Hin. exact (proj2 Hin). }
      rewrite Hp. reflexivity.
  - rewrite (update_where_long_title id title _ Hfits).
    destruct (existsb (fun p => (posts_id p =? id)%Z) (posts (db w))).
    + cbn [too_long]. change (posts_width "title") with (Some 255%nat).
      cbv iota. rewrite Hfits. split; reflexivity.
    + cbn. split; [reflexivity | apply db_eta].
Qed.

(** C8: a post update that supplies only a title builds the single
    assignment [title = $1] with the title and the id as its arguments, and
    the UPDATE that goes out assigns no other column; after the operation
    every stored post has the id, content, owner and creation time it had
    (in the same order), users are untouched, and the posts are either the
    old ones with the addressed post retitled (on success) or exactly the old
    ones (on failure). *)
Theorem title_only_update_assigns_only_the_title :
  forall (id : Z) (title : string) (w : World),
    title <> "" ->
    (exists b,
        database.UpdatePost_build id (mkPostRequest title "" 0) = Ok b
        /\ database.setParts b = ["title = $1"]
        /\ database.args b = [VStr title; VInt id]
        /\ parse (database.query b)
           = Some (Update "posts" [("title", 1%nat)] "id" 2
                     ["id"; "title"; "content"; "user_id"; "created_at"]))
    /\ map untitled (posts (db (snd (database.UpdatePost id (mkPostRequest title "" 0) w))))
       = map untitled (posts (db w))
    /\ users (db (snd (database.UpdatePost id (mkPostRequest title "" 0) w)))
       = users (db w)
    /\ match fst (database.UpdatePost id (mkPostRequest title "" 0) w) with
       | Ok post =>
           posts (db (snd (database.UpdatePost id (mkPostRequest title "" 0) w)))
           = map (retitle id title) (posts (db w))
           /\ Post_Title post = title
       | Err _ =>
           db (snd (database.UpdatePost id (mkPostRequest title "" 0) w)) = db w
       end.
Proof.
  intros id title w Htitle.
  pose proof (UpdatePost_title_only id title w Htitle) as [Husers Hposts].
  cbv zeta in Husers, Hposts.
  split.
  - unfold database.UpdatePost_build.
    cbn [PostRequest_Title PostRequest_Content PostRequest_UserID].
    apply String.eqb_neq in Htitle. rewrite Htitle.
    eexists. split; [reflexivity |].
    repeat split; vm_compute; reflexivity.
  - split; [| split; [exact Husers | exact Hposts]].
    destruct (fst (database.UpdatePost id (mkPostRequest title "" 0) w)) as [post | e].
    + rewrite (proj1 Hposts). apply retitle_untitled.
    + now rewrite Hposts.
Qed.

End TitleFacts.

(** ** The owner check of the post handlers *)

Section OwnerFacts.
Import Go sql models handlers Spec.

(** C6, as amended: when the payload's owner id is not the id of a stored
    user, the post-create handler answers 400, the tables are unchanged and
    nothing but (at most) the user lookup reaches the store, so no INSERT
    is sent; for a payload that passes validation the answer is the message
    "Invalid user ID: user does not exist" and the lookup is the one
    statement sent.  The post-update handler does the same whenever the
    route id parses, the payload passes update validation and it carries a
    non-zero owner id. *)
Theorem unknown_owner_is_refused_before_the_mutation :
  forall (vars : list (string * string)) (req : PostRequest) (w : World),
    user_exists (db w) (PostRequest_UserID req) = false ->
    (http.Status (fst (CreatePost (mkRequest vars (Ok req)) w)) = 400%Z
     /\ db (snd (CreatePost (mkRequest vars (Ok req)) w)) = db w
     /\ (snd (CreatePost (mkRequest vars (Ok req)) w) = w
         \/ snd (CreatePost (mkRequest vars (Ok req)) w)
            = sending "SELECT id, username, email, created_at FROM users WHERE id = $1"
                      [VInt (PostRequest_UserID req)] w))
    /\ (ValidatePostRequest req = None ->
        CreatePost (mkRequest vars (Ok req)) w
        = (writeError 400 "Invalid user ID: user does not exist",
           sending "SELECT id, username, email, created_at FROM users WHERE id = $1"
                   [VInt (PostRequest_UserID req)] w))
    /\ (forall id,
          parseIDFromURL (mkRequest vars (Ok req)) "id" = Ok id ->
          ValidatePostUpdateRequest req = None ->
          PostRequest_UserID req <> 0%Z ->
          UpdatePost (mkRequest vars (Ok req)) w
          = (writeError 400 "Invalid user ID: user does not exist",
             sending "SELECT id, username, email, created_at FROM users WHERE id = $1"
                     [VInt (PostRequest_UserID req)] w)).
Proof.
  intros vars req w Hmissing.
  assert (Hcreate : ValidatePostRequest req = None ->
            CreatePost (mkRequest vars (Ok req)) w
            = (writeError 400 "Invalid user ID: user does not exist",
               sending "SELECT id, username, email, created_at FROM users WHERE id = $1"
                       [VInt (PostRequest_UserID req)] w)).
  { intros Hvalid. unfold CreatePost, parseJSON. cbn [Decoded].
    rewrite Hvalid. unfold bind.
    rewrite (GetUserByID_missing _ w Hmissing). reflexivity. }
  split; [| split; [exact Hcreate |]].
  - destruct (ValidatePostRequest req) as [e |] eqn:Hvalid.
    + unfold CreatePost, parseJSON. cbn [Decoded]. rewrite Hvalid.
      repeat split. now left.
    + rewrite (Hcreate eq_refl). repeat split. now right.
  - intros id Hid Hvalid Howner.
    unfold UpdatePost. rewrite Hid. unfold parseJSON. cbn [Decoded].
    rewrite Hvalid.
    apply Z.eqb_neq in Howner. rewrite Howner, !andb_false_r.
    cbn [negb]. unfold bind at 1 2.
    rewrite (GetUserByID_missing _ w Hmissing). reflexivity.
Qed.

(** C6, as stated, fails: a create payload for the unknown user 9 whose
    title is empty is answered by validation, without the reference
    message and without any lookup of the user. *)
Lemma unknown_owner_with_invalid_payload_gets_no_reference_message :
  user_exists (db Samples.world) 9 = false
  /\ CreatePost (mkRequest [] (Ok (mkPostRequest "" "c" 9))) Samples.world
     = (writeValidationError
          (mkValidationErrors [mkValidationError "title" "title is required"]),
        Samples.world)
  /\ ~ (forall (vars : list (string * string)) (req : PostRequest) (w : World),
          user_exists (db w) (PostRequest_UserID req) = false ->
          fst (CreatePost (mkRequest vars (Ok req)) w)
          = writeError 400 "Invalid user ID: user does not exist").
Proof.
  split; [reflexivity |]. split; [reflexivity |].
  intros Hclaim.
  specialize (Hclaim [] (mkPostRequest "" "c" 9) Samples.world eq_refl).
  vm_compute in Hclaim. discriminate Hclaim.
Qed.

End OwnerFacts.

(** ** The password hash *)

Section HashFacts.
Context {ext : Externals}.
Import Go sql models Spec.

(** The encoding of a user carries the four public fields and nothing
    else. *)
Lemma User_encoding (u : User) :
  Json.Marshal (User_fields u)
  = Json.Object [ ("id", Json.Int (User_ID u));
                  ("username", Json.Str (User_Username u));
                  ("email", Json.Str (User_Email u));
                  ("created_at", Json.Time (User_CreatedAt u)) ].
Proof. reflexivity. Qed.

(** C7: two user records that differ at most in their password hash have
    the same JSON encoding, and the user a successful [VerifyPassword]
    returns has an empty password hash. *)
Theorem password_hash_is_never_shown :
  (forall u1 u2 : User,
      public u1 = public u2 ->
      Json.Marshal (User_fields u1) = Json.Marshal (User_fields u2))
  /\ (forall (username password : string) (w w' : World) (u : User),
        database.VerifyPassword username password w = (Ok u, w') ->
        User_PasswordHash u = "").
Proof.
  split.
  - intros u1 u2 Hsame. rewrite !User_encoding.
    unfold public in Hsame. injection Hsame as -> -> -> ->. reflexivity.
  - intros username password w w' u.
    unfold database.VerifyPassword, database.queryRow, bind, ret.
    destruct (QueryRowContext _ _ w) as [[row | e] w1].
    + destruct (database.scanUserWithHash row) as [user | e].
      * destruct (bcrypt_CompareHashAndPassword (User_PasswordHash user) password);
          cbn [negb]; intros H; [| discriminate H].
        injection H as <- _. reflexivity.
      * destruct e; discriminate.
    + destruct e; discriminate.
Qed.

End HashFacts.

(** ** The statements at sample inputs *)

Section Exercised.
Import Go sql models handlers Spec.


(** C6, exercised: a valid post for the user 9, who does not exist. *)
Lemma unknown_owner_is_refused_before_the_mutation_witness :
  CreatePost (mkRequest [] (Ok (mkPostRequest "t" "c" 9))) Samples.world
  = (writeError 400 "Invalid user ID: user does not exist",
     sending "SELECT id, username, email, created_at FROM users WHERE id = $1"
             [VInt 9] Samples.world).
Proof.
  apply (proj1 (proj2 (unknown_owner_is_refused_before_the_mutation
                         [] (mkPostRequest "t" "c" 9) Samples.world eq_refl))).
  reflexivity.
Defined.

(** C7, exercised: ana logs in; the record that comes back has no hash. *)
Lemma password_hash_is_never_shown_witness :
  fst (database.VerifyPassword (ext := Samples.externals) "ana" "secret1" Samples.world)
  = Ok (mkUser 1 "ana" "ana@x.com" "" 100%Z)
  /\ User_PasswordHash (mkUser 1 "ana" "ana@x.com" "" 100%Z) = "".
Proof.
  split; [vm_compute; reflexivity |].
  apply (proj2 (@password_hash_is_never_shown Samples.externals)
               "ana" "secret1" Samples.world
               (snd (database.VerifyPassword (ext := Samples.externals)
                       "ana" "secret1" Samples.world))).
  vm_compute. reflexivity.
Defined.

(** C8, exercised: retitling the stored post. *)
Lemma title_only_update_assigns_only_the_title_witness :
  map untitled
      (posts (db (snd (database.UpdatePost 1 (mkPostRequest "x" "" 0) Samples.world))))
  = map untitled (posts (db Samples.world)).
Proof.
  apply (proj1 (proj2 (title_only_update_assigns_only_the_title 1 "x" Samples.world
                         ltac:(discriminate)))).
Defined.

(** C9, exercised: user 5 does not exist. *)
Lemma unmatched_id_is_not_found_and_changes_nothing_witness :
  database.DeleteUser 5 Samples.world
  = (Err (Errorf "user not found"),
     sending "DELETE FROM users WHERE id = $1" [VInt 5] Samples.world)
  /\ fst (database.UpdateUser (ext := Samples.externals) 5
            (mkUserRequest "bob" "" "") Samples.world)
     = Err (Errorf "user not found").
Proof.
  pose proof (@unmatched_id_is_not_found_and_changes_nothing Samples.externals
                5 Samples.world) as H.
  split.
  - apply (proj1 (proj2 (proj2 (proj2 (proj2 H))))). reflexivity.
  - destruct H as (_ & _ & _ & _ & _ & _ & Hupdate & _).
    erewrite Hupdate; [reflexivity | vm_compute; reflexivity | reflexivity].
Defined.

End Exercised.

(** * Further properties of the code *)

(** ** The substring matcher *)

Section MatcherFacts.
Import Go handlers Notions.

Lemma match_at_spec (s pat : string) (i : nat) :
  forall n j,
    match_at s pat i j n = true
    <-> (forall k, (j <= k < j + n)%nat ->
                   near (index s (i + k)) (index pat k) = true).
Proof.
  induction n as [| n IH]; intros j; simpl.
  - split; [intros _ k Hk; lia | reflexivity].
  - rewrite <- !negb_orb.
    change ((index s (i + j) =? index pat j)%Z
            || (index s (i + j) =? byte_sub (index pat j) 32)%Z
            || (index s (i + j) =? byte_add (index pat j) 32)%Z)
      with (near (index s (i + j)) (index pat j)).
    destruct (near (index s (i + j)) (index pat j)) eqn:Hj; simpl.
    + rewrite IH. split.
      * intros H k Hk. destruct (Nat.eq_dec k j) as [-> | Hne]; [exact Hj |].
        apply H. lia.
      * intros H k Hk. apply H. lia.
    + split; [discriminate |].
      intros H. rewrite (H j) in Hj by lia. discriminate.
Qed.

Lemma scan_from_spec (s pat : string) :
  forall n i,
    scan_from s pat i n = true
    <-> exists i0, (i <= i0 < i + n)%nat
                   /\ match_at s pat i0 0 (String.length pat) = true.
Proof.
  induction n as [| n IH]; intros i; simpl.
  - split; [discriminate | intros [i0 [Hi0 _]]; lia].
  - destruct (match_at s pat i 0 (String.length pat)) eqn:Hi.
    + split; [intros _; exists i; split; [lia | exact Hi] | reflexivity].
    + rewrite IH. split.
      * intros [i0 [Hi0 Hm]]. exists i0. split; [lia | exact Hm].
      * intros [i0 [Hi0 Hm]]. exists i0. split; [| exact Hm].
        destruct (Nat.eq_dec i0 i) as [-> | Hne]; [congruence | lia].
Qed.

(** X1: [contains s pat] holds exactly when the two strings are equal, or
    [s] is strictly longer and has a window of [pat]'s length each of whose
    bytes is the pattern's byte or lies 32 below or above it. *)
Theorem contains_is_window_matching :
  forall s pat : string,
    contains s pat = true
    <-> s = pat
        \/ ((String.length pat < String.length s)%nat
            /\ exists i, (i + String.length pat <= String.length s)%nat
                         /\ window s pat i).
Proof.
  intros s pat. unfold contains, containsHelper, len, window.
  destruct (String.eqb_spec s pat) as [-> | Hne].
  - rewrite orb_true_l, andb_true_r.
    split; [now left | intros _; apply Z.geb_le; lia].
  - rewrite orb_false_l. split.
    + intros H. apply andb_prop in H as [_ H]. apply andb_prop in H as [Hgt Hscan].
      apply Z.gtb_lt in Hgt. apply scan_from_spec in Hscan as [i0 [Hi0 Hm]].
      right. split; [lia |]. exists i0. split; [lia |].
      intros j Hj. apply (proj1 (match_at_spec s pat i0 _ 0) Hm). lia.
    + intros [Heq | [Hlen [i0 [Hi0 Hwin]]]]; [contradiction |].
      apply andb_true_intro. split; [apply Z.geb_le; lia |].
      apply andb_true_intro. split; [apply Z.gtb_lt; lia |].
      apply scan_from_spec. exists i0. split; [lia |].
      apply match_at_spec. intros k Hk. apply Hwin. lia.
Qed.

(** X2: whatever the store's error says, the client is sent one of five
    fixed answers: nothing of the error text reaches the response. *)
Theorem classifier_sends_only_fixed_answers :
  forall (err : error) (operation : string),
    In (handleDatabaseError err operation)
       [ writeError 404 "Resource not found";
         writeError 409 "Resource already exists";
         writeError 400 "Invalid reference to related resource";
         writeError 400 "Invalid data provided";
         writeError 500 "Internal server error" ].
Proof.
  intros err operation. unfold handleDatabaseError.
  destruct (contains (Error err) "not found"); [now left |].
  destruct (contains (Error err) "duplicate" || contains (Error err) "unique");
    [right; now left |].
  destruct (contains (Error err) "foreign key"); [do 2 right; now left |].
  destruct (contains (Error err) "invalid" || contains (Error err) "check constraint");
    [do 3 right; now left | do 4 right; now left].
Qed.

End MatcherFacts.

(** ** The helper that joins strings *)

Section JoinFacts.
Import Go.

Lemma append_assoc (a b c : string) : ((a ++ b) ++ c)%string = (a ++ b ++ c)%string.
Proof.
  induction a as [| x a IH]; simpl; [reflexivity | now rewrite IH].
Qed.

Lemma join_loop (sep : string) (rest : list string) :
  forall acc x,
    fold_left (fun result s => (result ++ sep ++ s)%string) rest (acc ++ x)%string
    = (acc ++ String.concat sep (x :: rest))%string.
Proof.
  induction rest as [| y rest IH]; intros acc x.
  - reflexivity.
  - cbn [fold_left]. 
    replace ((acc ++ x) ++ sep ++ y)%string with ((acc ++ x ++ sep) ++ y)%string
      by (now rewrite !append_assoc).
    rewrite IH.
    change (String.concat sep (x :: y :: rest))
      with (x ++ sep ++ String.concat sep (y :: rest))%string.
    now rewrite !append_assoc.
Qed.

(** X3: [joinStrings] is the join of the standard library: the strings in
    order, the separator between neighbours, nothing before the first or
    after the last; the empty slice gives the empty string. *)
Theorem joinStrings_is_concat :
  forall (strs : list string) (sep : string),
    database.joinStrings strs sep = String.concat sep strs.
Proof.
  intros [| x [| y rest]] sep; [reflexivity | reflexivity |].
  unfold database.joinStrings.
  exact (join_loop sep (y :: rest) "" x).
Qed.

End JoinFacts.

(** ** The validators *)

Section ValidatorFacts.
Context {ext : Externals}.
Import Go models handlers Spec Notions.

Ltac split_conditions :=
  repeat match goal with
         | |- context [String.eqb ?a ""] => destruct (String.eqb_spec a "")
         | |- context [Z.ltb ?a ?b] => destruct (Z.ltb_spec a b)
         | |- context [Z.leb ?a ?b] => destruct (Z.leb_spec a b)
         | |- context [mail_ParseAddress ?a] => destruct (mail_ParseAddress a) eqn:?
         end.

(** X4: every validator reports at most one error per field, in the order
    the fields are declared, and a non-nil validation error always carries
    at least one field error. *)
Theorem validators_report_each_field_once_in_order :
  forall (u : UserRequest) (p : PostRequest),
    subsequence (map Field (reported (ValidateUserRequest u)))
                ["username"; "email"; "password"] = true
    /\ subsequence (map Field (reported (ValidateUserUpdateRequest u)))
                   ["username"; "email"; "password"] = true
    /\ subsequence (map Field (reported (ValidatePostRequest p)))
                   ["title"; "content"; "user_id"] = true
    /\ subsequence (map Field (reported (ValidatePostUpdateRequest p)))
                   ["title"; "content"; "user_id"] = true
    /\ ValidateUserRequest u <> Some (mkValidationErrors [])
    /\ ValidateUserUpdateRequest u <> Some (mkValidationErrors [])
    /\ ValidatePostRequest p <> Some (mkValidationErrors [])
    /\ ValidatePostUpdateRequest p <> Some (mkValidationErrors []).
Proof.
  intros [U E P] [T C O].
  unfold ValidateUserRequest, ValidateUserUpdateRequest, ValidatePostRequest,
    ValidatePostUpdateRequest, isValidEmail.
  cbn [UserRequest_Username UserRequest_Email UserRequest_Password
       PostRequest_Title PostRequest_Content PostRequest_UserID].
  rewrite !Z.gtb_ltb.
  repeat split; split_conditions; cbn; solve [reflexivity | discriminate].
Qed.

(** X5: a user create payload is accepted exactly when the username has 3
    to 50 bytes, the email is not empty and parses as an address, and the
    password has at least 6 bytes. *)
Theorem user_create_is_accepted_exactly_when :
  forall req : UserRequest,
    ValidateUserRequest req = None
    <-> ((3 <= len (UserRequest_Username req) <= 50)%Z
         /\ UserRequest_Email req <> ""
         /\ mail_ParseAddress (UserRequest_Email req) = true
         /\ (6 <= len (UserRequest_Password req))%Z).
Proof.
  intros [U E P]. unfold ValidateUserRequest, isValidEmail.
  cbn [UserRequest_Username UserRequest_Email UserRequest_Password].
  rewrite !Z.gtb_ltb.
  split_conditions; subst; cbn; unfold len in *; cbn in *;
    (split; [intros Hv; try discriminate Hv; repeat split; try lia; congruence
            | intros (Hv1 & Hv2 & Hv3 & Hv4); try reflexivity; try lia; congruence]).
Qed.

(** X6: a post create payload is accepted exactly when the title is not
    empty and has at most 255 bytes, the content is not empty, and the owner
    id is positive. *)
Theorem post_create_is_accepted_exactly_when :
  forall req : PostRequest,
    ValidatePostRequest req = None
    <-> (PostRequest_Title req <> ""
         /\ (len (PostRequest_Title req) <= 255)%Z
         /\ PostRequest_Content req <> ""
         /\ (0 < PostRequest_UserID req)%Z).
Proof.
  intros [T C O]. unfold ValidatePostRequest.
  cbn [PostRequest_Title PostRequest_Content PostRequest_UserID].
  rewrite !Z.gtb_ltb.
  split_conditions; subst; cbn; unfold len in *; cbn in *;
    (split; [intros Hv; try discriminate Hv; repeat split; try lia; congruence
            | intros (Hv1 & Hv2 & Hv3 & Hv4); try reflexivity; try lia; congruence]).
Qed.

(** X7: an update payload is accepted exactly when each field that is
    present is valid: a present username has 3 to 50 bytes, a present email
    parses, a present password has at least 6 bytes; a present title has at
    most 255 bytes and the owner id is not negative.  The content is never
    looked at. *)
Theorem update_is_accepted_exactly_when :
  forall (u : UserRequest) (p : PostRequest),
    (ValidateUserUpdateRequest u = None
     <-> ((UserRequest_Username u = "" \/ (3 <= len (UserRequest_Username u) <= 50)%Z)
          /\ (UserRequest_Email u = "" \/ mail_ParseAddress (UserRequest_Email u) = true)
          /\ (UserRequest_Password u = "" \/ (6 <= len (UserRequest_Password u))%Z)))
    /\ (ValidatePostUpdateRequest p = None
        <-> ((len (PostRequest_Title p) <= 255)%Z
             /\ (0 <= PostRequest_UserID p)%Z)).
Proof.
  intros [U E P] [T C O].
  unfold ValidateUserUpdateRequest, ValidatePostUpdateRequest, isValidEmail.
  cbn [UserRequest_Username UserRequest_Email UserRequest_Password
       PostRequest_Title PostRequest_Content PostRequest_UserID].
  rewrite !Z.gtb_ltb.
  split.
  - split_conditions; subst; cbn; unfold len in *; cbn in *;
      (split; [intros Hv; try discriminate Hv; repeat split; auto; right; try lia; congruence
              | intros (Hv1 & Hv2 & Hv3); try reflexivity;
                destruct Hv1 as [Hv1 | Hv1]; destruct Hv2 as [Hv2 | Hv2];
                destruct Hv3 as [Hv3 | Hv3]; try lia; congruence]).
  - split_conditions; subst; cbn; unfold len in *; cbn in *;
      (split; [intros Hv; try discriminate Hv; split; lia
              | intros (Hv1 & Hv2); try reflexivity; lia]).
Qed.


Lemma accepted_post_is_short (req : PostRequest) :
  ValidatePostRequest req = None -> (len (PostRequest_Title req) <= 255)%Z.
Proof.
  destruct req as [T C O]. unfold ValidatePostRequest.
  cbn [PostRequest_Title PostRequest_Content PostRequest_UserID].
  rewrite !Z.gtb_ltb.
  split_conditions; subst; cbn; unfold len in *; cbn in *;
    intros Hv; try discriminate Hv; lia.
Qed.

End ValidatorFacts.

(** ** Route ids *)

Section RouteFacts.
Import Go handlers Notions.

Lemma digit_is_no_sign (c : ascii) :
  ((48 <=? Z.of_nat (nat_of_ascii c)) && (Z.of_nat (nat_of_ascii c) <=? 57))%Z = true ->
  (c =? "-")%char = false /\ (c =? "+")%char = false.
Proof.
  destruct c as [[] [] [] [] [] [] [] []]; cbv; intros H;
    try discriminate H; split; reflexivity.
Qed.

Lemma decimal_of_digits (s : string) :
  digits_only s = true ->
  forall acc, (0 <= acc)%Z ->
              exists v, decimal s acc = Some v /\ (acc <= v)%Z.
Proof.
  induction s as [| c s IH]; intros Hd acc Hacc; simpl.
  - exists acc. split; [reflexivity | lia].
  - simpl in Hd. apply andb_prop in Hd as [Hc Hs]. rewrite Hc.
    apply andb_prop in Hc as [Hlo Hhi].
    apply Z.leb_le in Hlo. apply Z.leb_le in Hhi.
    destruct (IH Hs (10 * acc + (Z.of_nat (nat_of_ascii c) - 48))%Z) as [v [Hv Hle]];
      [lia |].
    exists v. split; [exact Hv | lia].
Qed.

(** X8: for a route id made of decimal digits, [parseIDFromURL] returns
    the number the digits spell when it is positive and fits an [int], and
    fails when it is 0 or too large. *)
Theorem route_id_parses_to_its_positive_value :
  forall (A : Type) (vars : list (string * string)) (d : result A) (s : string),
    route_id s ->
    lookup vars "id" = Some s ->
    exists v,
      decimal s 0 = Some v
      /\ (0 <= v)%Z
      /\ ((0 < v <= 2 ^ 63 - 1)%Z ->
          parseIDFromURL (mkRequest vars d) "id" = Ok v)
      /\ ((v = 0 \/ 2 ^ 63 - 1 < v)%Z ->
          exists e, parseIDFromURL (mkRequest vars d) "id" = Err e).
Proof.
  intros A vars d s [Hne Hd] Hvar.
  destruct (decimal_of_digits s Hd 0%Z) as [v [Hv Hpos]]; [lia |].
  exists v. split; [exact Hv |]. split; [exact Hpos |].
  unfold parseIDFromURL. cbn [Vars]. rewrite Hvar. unfold Atoi.
  destruct s as [| c s]; [contradiction |].
  assert (Hc := Hd). simpl in Hc. apply andb_prop in Hc as [Hc _].
  destruct (digit_is_no_sign c Hc) as [Hminus Hplus].
  rewrite Hminus, Hplus.
  change (String c s =? "") with false. cbv iota. rewrite Hv.
  split.
  - intros Hrange.
    replace ((- 2 ^ 63 <=? v) && (v <=? 2 ^ 63 - 1))%Z with true
      by (symmetry; apply andb_true_intro; split; apply Z.leb_le; lia).
    replace (v <=? 0)%Z with false by (symmetry; apply Z.leb_gt; lia).
    reflexivity.
  - intros [-> | Hbig].
    + eexists. reflexivity.
    + replace ((- 2 ^ 63 <=? v) && (v <=? 2 ^ 63 - 1))%Z with false
        by (symmetry; apply andb_false_intro2; apply Z.leb_gt; lia).
      eexists. reflexivity.
Qed.

End RouteFacts.

(** ** The list queries *)

Section ListFacts.
Context {ext : Externals}.
Import Go sql models Notions.






(** The scanning loop over rows that all scan. *)
Lemma scanAll_map {A R : Type} (scan : list Value -> result A) (failed : string)
      (row : R -> list Value) (f : R -> A) :
  (forall r, scan (row r) = Ok (f r)) ->
  forall (rows : list R) (acc : list A),
    database.scanAll scan failed (map row rows) acc = Ok (acc ++ map f rows).
Proof.
  intros Hscan. induction rows as [| r rows IH]; intros acc; simpl.
  - now rewrite app_nil_r.
  - rewrite Hscan, IH, <- app_assoc. reflexivity.
Qed.

Lemma project_joined_columns (rows : list (PostRow * UserRow)) :
  project_all (joined_get "p" "u")
              ["p.id"; "p.title"; "p.content"; "p.user_id"; "p.created_at";
               "u.username"] rows
  = Some (map (fun pu => [VInt (posts_id (fst pu)); VStr (posts_title (fst pu));
                          VStr (posts_content (fst pu));
                          VInt (posts_user_id (fst pu));
                          VTime (posts_created_at (fst pu));
                          VStr (users_username (snd pu))]) rows).
Proof.
  induction rows as [| pu rows IH]; [reflexivity |].
  cbn [project_all map]. rewrite IH. reflexivity.
Qed.

(** What [GetAllUsers] returns: the driver's error if it met one while
    reading, else the users, newest first. *)
Lemma GetAllUsers_result (w : World) :
  database.GetAllUsers w
  = (match driver_rows_Err
             "SELECT id, username, email, created_at FROM users ORDER BY created_at DESC"
             [] with
     | Some err => Err (wrap "row iteration error: " err)
     | None => Ok (map stored_user (sort_desc users_created_at (users (db w))))
     end,
     sending "SELECT id, username, email, created_at FROM users ORDER BY created_at DESC"
             [] w).
Proof.
  unfold database.GetAllUsers, QueryContext, bind, ret.
  match goal with
  | |- context [parse_query ?q] =>
      let v := eval vm_compute in (parse_query q) in
      change (parse_query q) with v
  end.
  cbn [exec_query db sending].
  change ("users" =? "users") with true. cbv iota.
  change (known_column users_get blank_user "created_at") with true. cbv iota.
  unfold returning. rewrite project_user_columns.
  rewrite (scanAll_map database.scanUser _ _ stored_user) by reflexivity.
  unfold database.rows_Err, ret.
  destruct (driver_rows_Err _ []); reflexivity.
Qed.


Lemma scan_joined (pu : PostRow * UserRow) :
  database.scanPostWithUsername
    [VInt (posts_id (fst pu)); VStr (posts_title (fst pu));
     VStr (posts_content (fst pu)); VInt (posts_user_id (fst pu));
     VTime (posts_created_at (fst pu)); VStr (users_username (snd pu))]
  = Ok (joined_post pu).
Proof. reflexivity. Qed.

Lemma GetAllPosts_result :
  exists q,
    forall w : World,
      database.GetAllPosts w
      = (match driver_rows_Err q [] with
         | Some err => Err (wrap "row iteration error: " err)
         | None =>
             Ok (map joined_post
                     (sort_desc (fun pu => posts_created_at (fst pu))
                                (join_posts_users (db w))))
         end,
         sending q [] w).
Proof.
  unfold database.GetAllPosts. cbv zeta.
  match goal with |- context [QueryContext ?q0 []] => exists q0 end.
  intros w. unfold QueryContext, bind, ret.
  match goal with
  | |- context [parse_query ?q] =>
      let v := eval vm_compute in (parse_query q) in
      change (parse_query q) with v
  end.
  cbn [exec_query db sending].
  match goal with
  | |- context [if ?c then _ else Failed undefined_object] =>
      change c with true
  end.
  cbv iota. unfold returning. rewrite project_joined_columns.
  rewrite (scanAll_map database.scanPostWithUsername _ _ joined_post scan_joined).
  unfold database.rows_Err, ret.
  destruct (driver_rows_Err _ []); reflexivity.
Qed.


(** Each joined row is a stored post next to a stored user with the
    post's owner id. *)
Lemma join_posts_users_spec (d : DB) (pu : PostRow * UserRow) :
  In pu (join_posts_users d)
  <-> In (fst pu) (posts d) /\ In (snd pu) (users d)
      /\ users_id (snd pu) = posts_user_id (fst pu).
Proof.
  unfold join_posts_users. rewrite in_flat_map. split.
  - intros [p [Hp Hin]]. apply in_map_iff in Hin as [u [<- Hu]].
    apply filter_In in Hu as [Hu Heq]. apply Z.eqb_eq in Heq. now repeat split.
  - intros (Hp & Hu & Heq). exists (fst pu). split; [exact Hp |].
    apply in_map_iff. exists (snd pu). split; [now destruct pu |].
    apply filter_In. split; [exact Hu | now apply Z.eqb_eq].
Qed.



End ListFacts.

Section ListHandlerFacts.
Context {ext : Externals}.
Import Go sql models handlers Notions.



End ListHandlerFacts.

(** ** Creating users and posts *)

Section CreateFacts.
Context {ext : Externals}.
Import Go sql models Notions.

(** No byte, no character. *)
Lemma chars_le_length (s : string) : (chars s <= String.length s)%nat.
Proof.
  induction s as [| c s IH]; simpl; [lia |].
  destruct ((128 <=? Z.of_nat (nat_of_ascii c))
            && (Z.of_nat (nat_of_ascii c) <? 192))%Z; lia.
Qed.

Lemma short_fits (n : nat) (s : string) :
  (len s <= Z.of_nat n)%Z -> fits n s = true.
Proof.
  intros Hlen. unfold fits, len in *. apply Nat.leb_le.
  pose proof (chars_le_length s). lia.
Qed.


Lemma user_refused_message (U E h msg : string) :
  user_refused U E h = Some msg ->
  msg = value_too_long 50 \/ msg = value_too_long 255.
Proof.
  unfold user_refused. cbn [too_long].
  change (users_width "username") with (Some 50%nat).
  change (users_width "email") with (Some 255%nat).
  change (users_width "password_hash") with (Some 255%nat).
  cbv iota.
  destruct (fits 50 U); [| intros [= <-]; now left].
  destruct (fits 255 E); [| intros [= <-]; now right].
  destruct (fits 255 h); [discriminate | intros [= <-]; now right].
Qed.

Lemma post_fits (T : string) : fits 255 T = true -> post_refused T = None.
Proof.
  intros HT. unfold post_refused. cbn [too_long].
  change (posts_width "title") with (Some 255%nat). cbv iota. now rewrite HT.
Qed.

Lemma exec_insert_user (U E h : string) (t : Z) (d : DB) :
  exec_insert "users" ["username"; "email"; "password_hash"; "created_at"]
              [1; 2; 3; 4]%nat ["id"; "username"; "email"; "created_at"]
              [VStr U; VStr E; VStr h; VTime t] d
  = match user_refused U E h with
    | Some msg =>
        (mkDB (users d) (posts d) (users_id_seq d + 1) (posts_id_seq d), Failed msg)
    | None =>
        match users_unique
                (users d ++ [mkUserRow (users_id_seq d + 1) U E h t])
                [mkUserRow (users_id_seq d + 1) U E h t] with
        | Some msg =>
            (mkDB (users d) (posts d) (users_id_seq d + 1) (posts_id_seq d),
             Failed msg)
        | None =>
            (mkDB (users d ++ [mkUserRow (users_id_seq d + 1) U E h t]) (posts d)
                  (users_id_seq d + 1) (posts_id_seq d),
             Done [[VInt (users_id_seq d + 1); VStr U; VStr E; VTime t]] 1)
        end
    end.
Proof.
  unfold exec_insert, user_refused.
  cbn -[users_unique Z.add fits value_too_long].
  destruct (fits 50 U); [| reflexivity].
  destruct (fits 255 E); [| reflexivity].
  destruct (fits 255 h); [| reflexivity].
  destruct (users_unique _ _); reflexivity.
Qed.

Lemma exec_insert_post (T C : string) (O t : Z) (d : DB) :
  exec_insert "posts" ["title"; "content"; "user_id"; "created_at"]
              [1; 2; 3; 4]%nat ["id"; "title"; "content"; "user_id"; "created_at"]
              [VStr T; VStr C; VInt O; VTime t] d
  = match post_refused T with
    | Some msg =>
        (mkDB (users d) (posts d) (users_id_seq d) (posts_id_seq d + 1), Failed msg)
    | None =>
        match posts_check d
                (posts d ++ [mkPostRow (posts_id_seq d + 1) T C O t])
                [mkPostRow (posts_id_seq d + 1) T C O t] with
        | Some msg =>
            (mkDB (users d) (posts d) (users_id_seq d) (posts_id_seq d + 1),
             Failed msg)
        | None =>
            (mkDB (users d) (posts d ++ [mkPostRow (posts_id_seq d + 1) T C O t])
                  (users_id_seq d) (posts_id_seq d + 1),
             Done [[VInt (posts_id_seq d + 1); VStr T; VStr C; VInt O; VTime t]] 1)
        end
    end.
Proof.
  unfold exec_insert, post_refused.
  cbn -[posts_check Z.add fits value_too_long].
  destruct (fits 255 T); [| reflexivity].
  destruct (posts_check _ _ _); reflexivity.
Qed.

(** What a lookup by id returns: the first stored user with the id. *)
Lemma GetUserByID_run (id : Z) (w : World) :
  database.GetUserByID id w
  = (match filter (fun u => (users_id u =? id)%Z) (users (db w)) with
     | [] => Err (Errorf "user not found")
     | r :: _ => Ok (stored_user r)
     end,
     sending "SELECT id, username, email, created_at FROM users WHERE id = $1"
             [VInt id] w).
Proof.
  unfold database.GetUserByID, database.queryRow, QueryRowContext, bind, run, ret.
  change (parse "SELECT id, username, email, created_at FROM users WHERE id = $1")
    with (Some (Select ["id"; "username"; "email"; "created_at"] "users" "id" 1)).
  cbn [exec exec_select param nth_error Nat.sub db sending].
  change ("users" =? "users") with true. cbv iota.
  unfold returning. rewrite project_user_columns.
  change (filter (selects users_get "id" (VInt id)) (users (db w)))
    with (filter (fun u => (users_id u =? id)%Z) (users (db w))).
  destruct (filter (fun u => (users_id u =? id)%Z) (users (db w))); reflexivity.
Qed.

Lemma Value_eqb_refl (v : Value) : Value_eqb v v = true.
Proof.
  destruct v; simpl; [apply Z.eqb_refl | apply String.eqb_refl | apply Z.eqb_refl].
Qed.

(** A row just appended is the only one with its key exactly when no
    earlier row carries the key. *)
Lemma unique_in_appended {R : Type} (key : R -> Value) (l : list R) (r : R) :
  unique_in key (l ++ [r]) r = true
  <-> filter (fun x => Value_eqb (key x) (key r)) l = [].
Proof.
  unfold unique_in. rewrite filter_app, length_app. simpl.
  rewrite Value_eqb_refl. simpl. rewrite Nat.eqb_eq.
  split.
  - intros H. apply length_zero_iff_nil. lia.
  - intros ->. reflexivity.
Qed.

Lemma filter_nil_existsb {A : Type} (f : A -> bool) (l : list A) :
  filter f l = [] <-> existsb f l = false.
Proof.
  induction l as [| x l IH]; simpl; [tauto |].
  destruct (f x); simpl; [split; discriminate | exact IH].
Qed.

(** The outcome of [CreateUser] once the password is hashed. *)
Lemma CreateUser_run (req : UserRequest) (h : string) (w : World) :
  bcrypt_GenerateFromPassword (UserRequest_Password req) = Ok h ->
  let r := mkUserRow (users_id_seq (db w) + 1) (UserRequest_Username req)
                     (UserRequest_Email req) h (now w) in
  let refused := user_refused (UserRequest_Username req) (UserRequest_Email req) h in
  let kept := mkDB (users (db w)) (posts (db w)) (users_id_seq (db w) + 1)
                   (posts_id_seq (db w)) in
  fst (database.CreateUser req w)
  = match refused with
    | Some msg => Err (wrap "failed to create user: " (Errorf msg))
    | None =>
        match users_unique (users (db w) ++ [r]) [r] with
        | Some msg => Err (wrap "failed to create user: " (Errorf msg))
        | None => Ok (stored_user r)
        end
    end
  /\ db (snd (database.CreateUser req w))
     = match refused with
       | Some _ => kept
       | None =>
           match users_unique (users (db w) ++ [r]) [r] with
           | Some _ => kept
           | None =>
               mkDB (users (db w) ++ [r]) (posts (db w)) (users_id_seq (db w) + 1)
                    (posts_id_seq (db w))
           end
       end.
Proof.
  intros Hh r refused kept. unfold database.CreateUser. rewrite Hh.
  unfold bind, time_Now, database.queryRow, QueryRowContext, bind, run, ret.
  match goal with
  | |- context [parse ?q] =>
      let v := eval vm_compute in (parse q) in change (parse q) with v
  end.
  cbn [exec db sending].
  rewrite exec_insert_user. fold r. fold refused.
  destruct refused; [split; reflexivity |].
  destruct (users_unique (users (db w) ++ [r]) [r]); split; reflexivity.
Qed.

(** X13: a user that [CreateUser] reports as created is stored, with the
    next id of the sequence, the clock's time and the hash of the password
    (never the password itself); the returned record carries no hash; posts
    are untouched; and looking the new id up returns the same record. *)
Theorem created_user_is_stored_and_found :
  forall (req : UserRequest) (w w' : World) (u : User),
    database.CreateUser req w = (Ok u, w') ->
    u = mkUser (users_id_seq (db w) + 1) (UserRequest_Username req)
               (UserRequest_Email req) "" (now w)
    /\ (exists h,
          bcrypt_GenerateFromPassword (UserRequest_Password req) = Ok h
          /\ users (db w')
             = users (db w)
               ++ [mkUserRow (User_ID u) (UserRequest_Username req)
                             (UserRequest_Email req) h (now w)])
    /\ posts (db w') = posts (db w)
    /\ fst (database.GetUserByID (User_ID u) w') = Ok u.
Proof.
  intros req w w' u Hcreate.
  destruct (bcrypt_GenerateFromPassword (UserRequest_Password req)) as [h | e] eqn:Hh.
  2:{ unfold database.CreateUser in Hcreate. rewrite Hh in Hcreate. discriminate. }
  destruct (CreateUser_run req h w Hh) as [Hfst Hdb]. cbv zeta in Hfst, Hdb.
  rewrite Hcreate in Hfst, Hdb. cbn [fst snd] in Hfst, Hdb.
  set (r := mkUserRow (users_id_seq (db w) + 1) (UserRequest_Username req)
                      (UserRequest_Email req) h (now w)) in *.
  destruct (user_refused (UserRequest_Username req) (UserRequest_Email req) h);
    [discriminate |].
  destruct (users_unique (users (db w) ++ [r]) [r]) as [msg |] eqn:Hunique;
    [discriminate |].
  injection Hfst as ->.
  split; [reflexivity |].
  split; [exists h; split; [reflexivity | now rewrite Hdb] |].
  split; [now rewrite Hdb |].
  rewrite GetUserByID_run. cbn [fst]. rewrite Hdb. cbn [users].
  unfold users_unique in Hunique. cbn [forallb] in Hunique.
  rewrite andb_true_r in Hunique.
  destruct (unique_in (fun r0 => VInt (users_id r0)) (users (db w) ++ [r]) r) eqn:Hid;
    [| discriminate].
  apply unique_in_appended in Hid. cbn [Value_eqb] in Hid.
  rewrite filter_app.
  change (users_id r) with (User_ID (stored_user r)) in Hid.
  cbn [stored_user User_ID] in *. rewrite Hid. cbn [filter app].
  rewrite Z.eqb_refl. reflexivity.
Qed.

End CreateFacts.

Section ConflictFacts.
Context {ext : Externals}.
Import Go sql models Notions.



End ConflictFacts.

Section DeleteFacts.
Import Go sql models Notions.

Lemma DeleteUser_run_db (id : Z) (w : World) :
  db (snd (database.DeleteUser id w))
  = mkDB (filter (fun u => negb (users_id u =? id)%Z) (users (db w)))
         (filter (fun p =>
                    negb (existsb (fun u => (users_id u =? posts_user_id p)%Z)
                            (filter (fun u => (users_id u =? id)%Z) (users (db w)))))
                 (posts (db w)))
         (users_id_seq (db w)) (posts_id_seq (db w)).
Proof. reflexivity. Qed.

Lemma same_owner (id x : Z) (l : list UserRow) :
  l <> [] ->
  Forall (fun u => users_id u = id) l ->
  existsb (fun u => (users_id u =? x)%Z) l = (id =? x)%Z.
Proof.
  intros Hne Hall. induction Hall as [| u l Hu Hall IH]; [congruence |].
  simpl. rewrite Hu.
  destruct l as [| u' l]; [simpl; apply orb_false_r |].
  rewrite IH by discriminate. apply orb_diag.
Qed.

(** X15: deleting a stored user succeeds, removes exactly the users with that
    id and, with them, exactly the posts they own; the other rows keep their
    order; afterwards the user is not found. *)
Theorem deleting_a_user_takes_their_posts_along :
  forall (id : Z) (w : World),
    user_exists (db w) id = true ->
    fst (database.DeleteUser id w) = Ok tt
    /\ users (db (snd (database.DeleteUser id w)))
       = filter (fun u => negb (users_id u =? id)%Z) (users (db w))
    /\ posts (db (snd (database.DeleteUser id w)))
       = filter (fun p => negb (posts_user_id p =? id)%Z) (posts (db w))
    /\ fst (database.GetUserByID id (snd (database.DeleteUser id w)))
       = Err (Errorf "user not found").
Proof.
  intros id w Hexists. unfold user_exists in Hexists.
  assert (Hgone : filter (fun u => (users_id u =? id)%Z) (users (db w)) <> []).
  { intros Hnil. apply filter_nil_existsb in Hnil. congruence. }
  split.
  { rewrite DeleteUser_result.
    destruct (filter (fun u => (users_id u =? id)%Z) (users (db w)));
      [congruence | reflexivity]. }
  rewrite GetUserByID_run, DeleteUser_run_db. cbn [users posts fst].
  split; [reflexivity |]. split.
  - apply filter_ext. intros p. f_equal.
    rewrite (same_owner id); [apply Z.eqb_sym | exact Hgone |].
    apply Forall_forall. intros u Hu. apply filter_In in Hu.
    now apply Z.eqb_eq.
  - rewrite (proj2 (filter_nil_existsb _ _)); [reflexivity |].
    apply not_true_is_false. intros Hex. apply existsb_exists in Hex.
    destruct Hex as (u & Hu & Hid). apply filter_In in Hu.
    destruct Hu as [_ Hu]. rewrite Hid in Hu. discriminate.
Qed.

End DeleteFacts.

Section UpdateFacts.
Context {ext : Externals}.
Import Go sql models Notions.

(** The columns a builder's statement assigns are those of the fields the
    payload carries; [id] and [created_at] are never among them. *)
Lemma user_build_columns (id : Z) (req : UserRequest) (b : database.Built) :
  database.UpdateUser_build id req = Ok b ->
  exists sets k cvs,
    parse (database.query b)
    = Some (Update "users" sets "id" k ["id"; "username"; "email"; "created_at"])
    /\ bind_sets sets (database.args b) = Some cvs
    /\ (UserRequest_Username req = "" -> ~ In "username" (map fst cvs))
    /\ (UserRequest_Email req = "" -> ~ In "email" (map fst cvs))
    /\ (UserRequest_Password req = "" -> ~ In "password_hash" (map fst cvs))
    /\ ~ In "created_at" (map fst cvs).
Proof.
  destruct req as [username email password].
  unfold database.UpdateUser_build.
  cbn [UserRequest_Username UserRequest_Email UserRequest_Password].
  destruct (username =? "") eqn:HU; destruct (email =? "") eqn:HE;
    destruct (password =? "") eqn:HP;
    cbn [negb];
    try destruct (bcrypt_GenerateFromPassword password) as [h | e];
    intros Hb; try discriminate Hb;
    injection Hb as <-;
    do 3 eexists;
    (split; [vm_compute; reflexivity |]);
    (split; [vm_compute; reflexivity |]);
    repeat split;
    try match goal with
        | |- _ = _ -> _ => intros Hempty; try (subst; discriminate)
        end;
    vm_compute; intuition discriminate.
Qed.

Lemma post_build_columns (id : Z) (req : PostRequest) (b : database.Built) :
  database.UpdatePost_build id req = Ok b ->
  exists sets k cvs,
    parse (database.query b)
    = Some (Update "posts" sets "id" k
              ["id"; "title"; "content"; "user_id"; "created_at"])
    /\ bind_sets sets (database.args b) = Some cvs
    /\ (PostRequest_Title req = "" -> ~ In "title" (map fst cvs))
    /\ (PostRequest_Content req = "" -> ~ In "content" (map fst cvs))
    /\ (PostRequest_UserID req = 0%Z -> ~ In "user_id" (map fst cvs))
    /\ ~ In "created_at" (map fst cvs).
Proof.
  destruct req as [title content user_id].
  unfold database.UpdatePost_build.
  cbn [PostRequest_Title PostRequest_Content PostRequest_UserID].
  destruct (title =? "") eqn:HT; destruct (content =? "") eqn:HC;
    destruct (user_id =? 0)%Z eqn:HO;
    cbn [negb];
    intros Hb; try discriminate Hb;
    injection Hb as <-;
    do 3 eexists;
    (split; [vm_compute; reflexivity |]);
    (split; [vm_compute; reflexivity |]);
    repeat split;
    try match goal with
        | |- _ = _ -> _ => intros Hempty; try (subst; discriminate)
        end;
    vm_compute; intuition discriminate.
Qed.

(** What one assignment leaves alone. *)
Lemma users_set_frame (c : string) (v : Value) (r r' : UserRow) :
  users_set c v r = Some r' ->
  users_id r' = users_id r
  /\ (c <> "username" -> users_username r' = users_username r)
  /\ (c <> "email" -> users_email r' = users_email r)
  /\ (c <> "password_hash" -> users_password_hash r' = users_password_hash r)
  /\ (c <> "created_at" -> users_created_at r' = users_created_at r).
Proof.
  unfold users_set.
  destruct (String.eqb_spec c "username") as [-> | H1];
    [destruct v;
     try match goal with |- context [fits ?n ?s] => destruct (fits n s) end;
     intros H; inversion H; subst; cbn;
     repeat split; intros; congruence |].
  destruct (String.eqb_spec c "email") as [-> | H2];
    [destruct v;
     try match goal with |- context [fits ?n ?s] => destruct (fits n s) end;
     intros H; inversion H; subst; cbn;
     repeat split; intros; congruence |].
  destruct (String.eqb_spec c "password_hash") as [-> | H3];
    [destruct v;
     try match goal with |- context [fits ?n ?s] => destruct (fits n s) end;
     intros H; inversion H; subst; cbn;
     repeat split; intros; congruence |].
  destruct (String.eqb_spec c "created_at") as [-> | H4];
    [destruct v;
     try match goal with |- context [fits ?n ?s] => destruct (fits n s) end;
     intros H; inversion H; subst; cbn;
     repeat split; intros; congruence |].
  discriminate.
Qed.

Lemma posts_set_frame (c : string) (v : Value) (r r' : PostRow) :
  posts_set c v r = Some r' ->
  posts_id r' = posts_id r
  /\ (c <> "title" -> posts_title r' = posts_title r)
  /\ (c <> "content" -> posts_content r' = posts_content r)
  /\ (c <> "user_id" -> posts_user_id r' = posts_user_id r)
  /\ (c <> "created_at" -> posts_created_at r' = posts_created_at r).
Proof.
  unfold posts_set.
  destruct (String.eqb_spec c "title") as [-> | H1];
    [destruct v;
     try match goal with |- context [fits ?n ?s] => destruct (fits n s) end;
     intros H; inversion H; subst; cbn;
     repeat split; intros; congruence |].
  destruct (String.eqb_spec c "content") as [-> | H2];
    [destruct v;
     try match goal with |- context [fits ?n ?s] => destruct (fits n s) end;
     intros H; inversion H; subst; cbn;
     repeat split; intros; congruence |].
  destruct (String.eqb_spec c "user_id") as [-> | H3];
    [destruct v;
     try match goal with |- context [fits ?n ?s] => destruct (fits n s) end;
     intros H; inversion H; subst; cbn;
     repeat split; intros; congruence |].
  destruct (String.eqb_spec c "created_at") as [-> | H4];
    [destruct v;
     try match goal with |- context [fits ?n ?s] => destruct (fits n s) end;
     intros H; inversion H; subst; cbn;
     repeat split; intros; congruence |].
  discriminate.
Qed.

(** A column that is not assigned keeps its value through [assign]. *)
Lemma assign_frame {R X : Type} (set : string -> Value -> R -> option R)
      (f : R -> X) (col : string) (cvs : list (string * Value)) :
  (forall c v r r', set c v r = Some r' -> c <> col -> f r' = f r) ->
  ~ In col (map fst cvs) ->
  forall r r', assign set cvs r = Some r' -> f r' = f r.
Proof.
  intros Hset. induction cvs as [| [c v] cvs IH]; simpl; intros Hnot r r' H.
  - now inversion H.
  - destruct (set c v r) as [r1 |] eqn:Hr1; [| discriminate].
    rewrite (IH (fun Hin => Hnot (or_intror Hin)) r1 r' H).
    apply (Hset c v r r1 Hr1). intros ->. apply Hnot. now left.
Qed.

(** What no assignment changes, [assign] keeps. *)
Lemma assign_keeps {R X : Type} (set : string -> Value -> R -> option R)
      (f : R -> X) (cvs : list (string * Value)) :
  (forall c v r r', set c v r = Some r' -> f r' = f r) ->
  forall r r', assign set cvs r = Some r' -> f r' = f r.
Proof.
  intros Hset. induction cvs as [| [c v] cvs IH]; simpl; intros r r' H.
  - now inversion H.
  - destruct (set c v r) as [r1 |] eqn:Hr1; [| discriminate].
    rewrite (IH r1 r' H). exact (Hset c v r r1 Hr1).
Qed.

Lemma update_where_frame {R X : Type} (get : string -> R -> option Value)
      (set : string -> Value -> R -> option R) (f : R -> X)
      (wcol : string) (v : Value) (cvs : list (string * Value)) :
  (forall r r', assign set cvs r = Some r' -> f r' = f r) ->
  forall rows rows' written,
    update_where get set wcol v cvs rows = Some (rows', written) ->
    map f rows' = map f rows.
Proof.
  intros Hassign. induction rows as [| r rows IH]; simpl; intros rows' written H.
  - now inversion H.
  - destruct (update_where get set wcol v cvs rows) as [[rows1 written1] |];
      [| discriminate].
    specialize (IH rows1 written1 eq_refl).
    destruct (selects get wcol v r).
    + destruct (assign set cvs r) as [r1 |] eqn:Hr1; [| discriminate].
      inversion H; subst. simpl. now rewrite IH, (Hassign r r1 Hr1).
    + inversion H; subst. simpl. now rewrite IH.
Qed.

Lemma exec_update_users_frame {X : Type} (f : UserRow -> X)
      (sets : list (string * nat)) (k : nat) (ret : list string)
      (args : list Value) (cvs : list (string * Value)) (d : DB) :
  bind_sets sets args = Some cvs ->
  (forall r r', assign users_set cvs r = Some r' -> f r' = f r) ->
  map f (users (fst (exec_update "users" sets "id" k ret args d)))
  = map f (users d).
Proof.
  intros Hsets Hassign. unfold exec_update. rewrite Hsets.
  destruct (param args k) as [v |]; [| reflexivity].
  change ("users" =? "users") with true. cbv iota.
  destruct (update_where users_get users_set "id" v cvs (users d))
    as [[rows written] |] eqn:Hupd;
    [| destruct (too_long _ cvs); reflexivity].
  destruct (users_unique rows written); [reflexivity |].
  unfold commit. destruct (returning users_get ret written); [| reflexivity].
  cbn [fst users].
  exact (update_where_frame users_get users_set f "id" v cvs Hassign _ _ _ Hupd).
Qed.

Lemma exec_update_users_posts (sets : list (string * nat)) (k : nat)
      (ret : list string) (args : list Value) (d : DB) :
  posts (fst (exec_update "users" sets "id" k ret args d)) = posts d.
Proof.
  unfold exec_update.
  destruct (param args k) as [v |]; [| reflexivity].
  destruct (bind_sets sets args) as [cvs |]; [| reflexivity].
  change ("users" =? "users") with true. cbv iota.
  destruct (update_where users_get users_set "id" v cvs (users d))
    as [[rows written] |];
    [| destruct (too_long _ cvs); reflexivity].
  destruct (users_unique rows written); [reflexivity |].
  unfold commit. destruct (returning users_get ret written); reflexivity.
Qed.

Lemma exec_update_posts_frame {X : Type} (f : PostRow -> X)
      (sets : list (string * nat)) (k : nat) (ret : list string)
      (args : list Value) (cvs : list (string * Value)) (d : DB) :
  bind_sets sets args = Some cvs ->
  (forall r r', assign posts_set cvs r = Some r' -> f r' = f r) ->
  map f (posts (fst (exec_update "posts" sets "id" k ret args d)))
  = map f (posts d).
Proof.
  intros Hsets Hassign. unfold exec_update. rewrite Hsets.
  destruct (param args k) as [v |]; [| reflexivity].
  change ("posts" =? "users") with false.
  change ("posts" =? "posts") with true. cbv iota.
  destruct (update_where posts_get posts_set "id" v cvs (posts d))
    as [[rows written] |] eqn:Hupd;
    [| destruct (too_long _ cvs); reflexivity].
  destruct (posts_check d rows written); [reflexivity |].
  unfold commit. destruct (returning posts_get ret written); [| reflexivity].
  cbn [fst posts].
  exact (update_where_frame posts_get posts_set f "id" v cvs Hassign _ _ _ Hupd).
Qed.

Lemma exec_update_posts_users (sets : list (string * nat)) (k : nat)
      (ret : list string) (args : list Value) (d : DB) :
  users (fst (exec_update "posts" sets "id" k ret args d)) = users d.
Proof.
  unfold exec_update.
  destruct (param args k) as [v |]; [| reflexivity].
  destruct (bind_sets sets args) as [cvs |]; [| reflexivity].
  change ("posts" =? "users") with false.
  change ("posts" =? "posts") with true. cbv iota.
  destruct (update_where posts_get posts_set "id" v cvs (posts d))
    as [[rows written] |];
    [| destruct (too_long _ cvs); reflexivity].
  destruct (posts_check d rows written); [reflexivity |].
  unfold commit. destruct (returning posts_get ret written); reflexivity.
Qed.

(** The tables after [UpdateUser]: those the UPDATE leaves, or the old ones
    when the builder stopped. *)
Lemma UpdateUser_db (id : Z) (req : UserRequest) (w : World) :
  db (snd (database.UpdateUser id req w)) = db w
  \/ exists b sets k,
       database.UpdateUser_build id req = Ok b
       /\ parse (database.query b)
          = Some (Update "users" sets "id" k ["id"; "username"; "email"; "created_at"])
       /\ db (snd (database.UpdateUser id req w))
          = fst (exec_update "users" sets "id" k
                   ["id"; "username"; "email"; "created_at"] (database.args b) (db w)).
Proof.
  unfold database.UpdateUser.
  destruct (database.UpdateUser_build id req) as [b | e] eqn:Hb; [| now left].
  right.
  destruct (user_build_columns id req b Hb) as (sets & k & cvs & Hparse & _).
  exists b, sets, k. split; [reflexivity |]. split; [exact Hparse |].
  unfold database.queryRow, QueryRowContext, bind, run, ret.
  rewrite Hparse. cbn [exec db sending].
  destruct (exec_update "users" sets "id" k _ (database.args b) (db w)); reflexivity.
Qed.

Lemma UpdatePost_db (id : Z) (req : PostRequest) (w : World) :
  db (snd (database.UpdatePost id req w)) = db w
  \/ exists b sets k,
       database.UpdatePost_build id req = Ok b
       /\ parse (database.query b)
          = Some (Update "posts" sets "id" k
                    ["id"; "title"; "content"; "user_id"; "created_at"])
       /\ db (snd (database.UpdatePost id req w))
          = fst (exec_update "posts" sets "id" k
                   ["id"; "title"; "content"; "user_id"; "created_at"]
                   (database.args b) (db w)).
Proof.
  unfold database.UpdatePost.
  destruct (database.UpdatePost_build id req) as [b | e] eqn:Hb; [| now left].
  right.
  destruct (post_build_columns id req b Hb) as (sets & k & cvs & Hparse & _).
  exists b, sets, k. split; [reflexivity |]. split; [exact Hparse |].
  unfold database.queryRow, QueryRowContext, bind, run, ret.
  rewrite Hparse. cbn [exec db sending].
  destruct (exec_update "posts" sets "id" k _ (database.args b) (db w)); reflexivity.
Qed.

(** X16: whatever its outcome, [UpdateUser] leaves the posts alone, keeps
    every user's id and creation time (and so the number and order of the
    rows), and keeps the column of every field the payload leaves empty: an
    empty string cannot clear a username or an e-mail address, and without a
    password the stored hashes stay. *)
Theorem user_update_changes_only_the_fields_sent :
  forall (id : Z) (req : UserRequest) (w : World),
    let d' := db (snd (database.UpdateUser id req w)) in
    posts d' = posts (db w)
    /\ map user_identity (users d') = map user_identity (users (db w))
    /\ (UserRequest_Username req = "" ->
        map users_username (users d') = map users_username (users (db w)))
    /\ (UserRequest_Email req = "" ->
        map users_email (users d') = map users_email (users (db w)))
    /\ (UserRequest_Password req = "" ->
        map users_password_hash (users d')
        = map users_password_hash (users (db w))).
Proof.
  intros id req w d'. subst d'.
  destruct (UpdateUser_db id req w) as [-> | (b & sets & k & Hb & Hparse & ->)].
  { repeat split; reflexivity. }
  destruct (user_build_columns id req b Hb)
    as (sets' & k' & cvs & Hparse' & Hsets & HU & HE & HP & HT).
  rewrite Hparse in Hparse'. injection Hparse' as <- <-.
  split; [apply exec_update_users_posts |].
  split.
  { apply (exec_update_users_frame user_identity _ _ _ _ cvs _ Hsets).
    intros r r' Hassign. unfold user_identity. f_equal.
    - apply (assign_keeps users_set users_id cvs); auto.
      intros c v r0 r1 H. apply (users_set_frame c v r0 r1 H).
    - apply (assign_frame users_set users_created_at "created_at" cvs); auto.
      intros c v r0 r1 H. apply (users_set_frame c v r0 r1 H). }
  split; [| split].
  - intros Hempty.
    apply (exec_update_users_frame users_username _ _ _ _ cvs _ Hsets).
    apply (assign_frame users_set users_username "username" cvs); auto.
    intros c v r0 r1 H. apply (users_set_frame c v r0 r1 H).
  - intros Hempty.
    apply (exec_update_users_frame users_email _ _ _ _ cvs _ Hsets).
    apply (assign_frame users_set users_email "email" cvs); auto.
    intros c v r0 r1 H. apply (users_set_frame c v r0 r1 H).
  - intros Hempty.
    apply (exec_update_users_frame users_password_hash _ _ _ _ cvs _ Hsets).
    apply (assign_frame users_set users_password_hash "password_hash" cvs); auto.
    intros c v r0 r1 H. apply (users_set_frame c v r0 r1 H).
Qed.

(** X17: whatever its outcome, [UpdatePost] leaves the users alone, keeps
    every post's id and creation time (and so the number and order of the
    rows), and keeps the column of every field the payload leaves at its
    zero value: an empty string cannot clear a title or a content, and the
    owner stays when the payload's user id is 0. *)
Theorem post_update_changes_only_the_fields_sent :
  forall (id : Z) (req : PostRequest) (w : World),
    let d' := db (snd (database.UpdatePost id req w)) in
    users d' = users (db w)
    /\ map post_identity (posts d') = map post_identity (posts (db w))
    /\ (PostRequest_Title req = "" ->
        map posts_title (posts d') = map posts_title (posts (db w)))
    /\ (PostRequest_Content req = "" ->
        map posts_content (posts d') = map posts_content (posts (db w)))
    /\ (PostRequest_UserID req = 0%Z ->
        map posts_user_id (posts d') = map posts_user_id (posts (db w))).
Proof.
  intros id req w d'. subst d'.
  destruct (UpdatePost_db id req w) as [-> | (b & sets & k & Hb & Hparse & ->)].
  { repeat split; reflexivity. }
  destruct (post_build_columns id req b Hb)
    as (sets' & k' & cvs & Hparse' & Hsets & HT & HC & HO & HA).
  rewrite Hparse in Hparse'. injection Hparse' as <- <-.
  split; [apply exec_update_posts_users |].
  split.
  { apply (exec_update_posts_frame post_identity _ _ _ _ cvs _ Hsets).
    intros r r' Hassign. unfold post_identity. f_equal.
    - apply (assign_keeps posts_set posts_id cvs); auto.
      intros c v r0 r1 H. apply (posts_set_frame c v r0 r1 H).
    - apply (assign_frame posts_set posts_created_at "created_at" cvs); auto.
      intros c v r0 r1 H. apply (posts_set_frame c v r0 r1 H). }
  split; [| split].
  - intros Hempty.
    apply (exec_update_posts_frame posts_title _ _ _ _ cvs _ Hsets).
    apply (assign_frame posts_set posts_title "title" cvs); auto.
    intros c v r0 r1 H. apply (posts_set_frame c v r0 r1 H).
  - intros Hempty.
    apply (exec_update_posts_frame posts_content _ _ _ _ cvs _ Hsets).
    apply (assign_frame posts_set posts_content "content" cvs); auto.
    intros c v r0 r1 H. apply (posts_set_frame c v r0 r1 H).
  - intros Hempty.
    apply (exec_update_posts_frame posts_user_id _ _ _ _ cvs _ Hsets).
    apply (assign_frame posts_set posts_user_id "user_id" cvs); auto.
    intros c v r0 r1 H. apply (posts_set_frame c v r0 r1 H).
Qed.

End UpdateFacts.

Section ReadFacts.
Context {ext : Externals}.
Import Go sql models Notions.

(** What a post lookup returns: the first joined row with the id. *)
Lemma GetPostByID_run (id : Z) (w : World) :
  exists q,
    database.GetPostByID id w
    = (match filter (fun pu => (posts_id (fst pu) =? id)%Z)
                    (join_posts_users (db w)) with
       | [] => Err (Errorf "post not found")
       | pu :: _ => Ok (joined_post pu)
       end,
       sending q [VInt id] w).
Proof.
  unfold database.GetPostByID, database.queryRow, QueryRowContext, bind, run, ret.
  match goal with
  | |- context [parse ?q] =>
      let v := eval vm_compute in (parse q) in change (parse q) with v
  end.
  cbn [exec exec_select_join param nth_error Nat.sub db sending].
  match goal with
  | |- context [if ?c then _ else Failed undefined_object] =>
      change c with true
  end.
  cbv iota. unfold returning. rewrite project_joined_columns.
  change (filter (selects (joined_get "p" "u") "p.id" (VInt id))
                 (join_posts_users (db w)))
    with (filter (fun pu => (posts_id (fst pu) =? id)%Z) (join_posts_users (db w))).
  eexists.
  destruct (filter (fun pu => (posts_id (fst pu) =? id)%Z) (join_posts_users (db w)));
    reflexivity.
Qed.

(** What a password check returns: it looks at the first stored user with
    the name. *)
Lemma VerifyPassword_run (username password : string) (w : World) :
  exists q,
    database.VerifyPassword username password w
    = (match filter (fun u => users_username u =? username) (users (db w)) with
       | [] => Err (Errorf "user not found")
       | r :: _ =>
           if bcrypt_CompareHashAndPassword (users_password_hash r) password
           then Ok (stored_user r)
           else Err (Errorf "invalid password")
       end,
       sending q [VStr username] w).
Proof.
  unfold database.VerifyPassword, database.queryRow, QueryRowContext, bind, run, ret.
  match goal with
  | |- context [parse ?q] =>
      let v := eval vm_compute in (parse q) in change (parse q) with v
  end.
  cbn [exec exec_select param nth_error Nat.sub db sending].
  change ("users" =? "users") with true. cbv iota.
  unfold returning.
  assert (Hproject : forall rows : list UserRow,
             project_all users_get
               ["id"; "username"; "email"; "password_hash"; "created_at"] rows
             = Some (map (fun r => [VInt (users_id r); VStr (users_username r);
                                    VStr (users_email r);
                                    VStr (users_password_hash r);
                                    VTime (users_created_at r)]) rows)).
  { induction rows as [| r rows IH]; [reflexivity |].
    cbn [project_all map]. rewrite IH. reflexivity. }
  rewrite Hproject.
  change (filter (selects users_get "username" (VStr username)) (users (db w)))
    with (filter (fun u => users_username u =? username) (users (db w))).
  eexists.
  destruct (filter (fun u => users_username u =? username) (users (db w)))
    as [| r rows]; [reflexivity |].
  cbn [map database.scanUserWithHash User_PasswordHash].
  destruct (bcrypt_CompareHashAndPassword (users_password_hash r) password);
    reflexivity.
Qed.

(** X18: [GetPostByID] answers with a post only if a stored post has the id
    and a stored user has that post's owner id; the answer is that post with
    that user's name.  It answers "post not found" exactly when no stored post
    with the id has a stored owner, and nothing else. *)
Theorem post_lookup_returns_a_stored_post_with_its_owner :
  forall (id : Z) (w : World),
    (forall post,
        fst (database.GetPostByID id w) = Ok post ->
        Post_ID post = id
        /\ exists p u, In p (posts (db w)) /\ In u (users (db w))
                       /\ users_id u = posts_user_id p
                       /\ post = joined_post (p, u))
    /\ (fst (database.GetPostByID id w) = Err (Errorf "post not found")
        <-> forall p u, In p (posts (db w)) -> In u (users (db w)) ->
                        users_id u = posts_user_id p -> posts_id p <> id).
Proof.
  intros id w. destruct (GetPostByID_run id w) as [q ->]. cbn [fst].
  destruct (filter (fun pu => (posts_id (fst pu) =? id)%Z) (join_posts_users (db w)))
    as [| [p u] rest] eqn:Hfilter.
  - split; [discriminate |].
    split; [| reflexivity]. intros _ p u Hp Hu Hown Hid.
    assert (Hin : In (p, u) (filter (fun pu => (posts_id (fst pu) =? id)%Z)
                                    (join_posts_users (db w)))).
    { apply filter_In. split; [now apply join_posts_users_spec |].
      now apply Z.eqb_eq. }
    now rewrite Hfilter in Hin.
  - assert (Hin : In (p, u) (filter (fun pu => (posts_id (fst pu) =? id)%Z)
                                    (join_posts_users (db w))))
      by (rewrite Hfilter; now left).
    apply filter_In in Hin as [Hjoin Hid]. apply Z.eqb_eq in Hid.
    apply join_posts_users_spec in Hjoin as (Hp & Hu & Hown).
    cbn [fst snd] in *.
    split.
    + intros post [= <-]. split; [exact Hid |]. now exists p, u.
    + split; [discriminate |]. intros Hnone. now destruct (Hnone p u Hp Hu Hown).
Qed.

(** X19: [VerifyPassword] succeeds only with a stored user of that name whose
    stored hash bcrypt accepts for the password, and returns that user without
    the hash; a name nobody carries gives "user not found"; it never changes a
    table. *)
Theorem password_check_needs_a_stored_matching_hash :
  forall (username password : string) (w : World),
    (forall u,
        fst (database.VerifyPassword username password w) = Ok u ->
        User_PasswordHash u = ""
        /\ exists r, In r (users (db w))
                     /\ users_username r = username
                     /\ bcrypt_CompareHashAndPassword (users_password_hash r) password
                        = true
                     /\ u = stored_user r)
    /\ (existsb (fun r => users_username r =? username) (users (db w)) = false ->
        fst (database.VerifyPassword username password w)
        = Err (Errorf "user not found"))
    /\ db (snd (database.VerifyPassword username password w)) = db w.
Proof.
  intros username password w.
  destruct (VerifyPassword_run username password w) as [q ->]. cbn [fst snd].
  split; [| split; [| reflexivity]].
  - intros u Hu.
    destruct (filter (fun r => users_username r =? username) (users (db w)))
      as [| r rest] eqn:Hfilter; [discriminate |].
    assert (Hin : In r (filter (fun r => users_username r =? username) (users (db w))))
      by (rewrite Hfilter; now left).
    apply filter_In in Hin as [Hin Hname]. apply String.eqb_eq in Hname.
    destruct (bcrypt_CompareHashAndPassword (users_password_hash r) password) eqn:Hc;
      [| discriminate].
    injection Hu as <-. split; [reflexivity |]. now exists r.
  - intros Hnone. apply filter_nil_existsb in Hnone. now rewrite Hnone.
Qed.

End ReadFacts.

Section PostFacts.
Context {ext : Externals}.
Import Go sql models Notions.

Lemma DeletePost_run_db (id : Z) (w : World) :
  db (snd (database.DeletePost id w))
  = mkDB (users (db w))
         (filter (fun p => negb (posts_id p =? id)%Z) (posts (db w)))
         (users_id_seq (db w)) (posts_id_seq (db w)).
Proof. reflexivity. Qed.

(** X20: deleting a stored post succeeds, removes exactly the posts with that
    id, keeps the others in order and the users as they are; afterwards the
    post is not found. *)
Theorem deleting_a_post_removes_only_that_post :
  forall (id : Z) (w : World),
    post_exists (db w) id = true ->
    fst (database.DeletePost id w) = Ok tt
    /\ posts (db (snd (database.DeletePost id w)))
       = filter (fun p => negb (posts_id p =? id)%Z) (posts (db w))
    /\ users (db (snd (database.DeletePost id w))) = users (db w)
    /\ fst (database.GetPostByID id (snd (database.DeletePost id w)))
       = Err (Errorf "post not found").
Proof.
  intros id w Hexists. unfold post_exists in Hexists.
  split.
  { rewrite DeletePost_result.
    destruct (filter (fun p => (posts_id p =? id)%Z) (posts (db w))) eqn:Hgone;
      [| reflexivity].
    apply filter_nil_existsb in Hgone. congruence. }
  destruct (GetPostByID_run id (snd (database.DeletePost id w))) as [q ->].
  rewrite DeletePost_run_db. cbn [users posts fst].
  split; [reflexivity |]. split; [reflexivity |].
  rewrite (proj2 (filter_nil_existsb _ _)); [reflexivity |].
  apply not_true_is_false. intros Hex. apply existsb_exists in Hex.
  destruct Hex as ([p u] & Hjoin & Hid). cbn [fst] in Hid.
  apply join_posts_users_spec in Hjoin as (Hp & _). cbn [fst posts] in Hp.
  apply filter_In in Hp as [_ Hp]. rewrite Hid in Hp. discriminate.
Qed.

(** The outcome of [CreatePost] for a title that fits its column. *)
Lemma CreatePost_run (req : PostRequest) (w : World) :
  post_refused (PostRequest_Title req) = None ->
  let r := mkPostRow (posts_id_seq (db w) + 1) (PostRequest_Title req)
                     (PostRequest_Content req) (PostRequest_UserID req) (now w) in
  exists q,
    parse q
    = Some (Insert "posts" ["title"; "content"; "user_id"; "created_at"]
                   [1; 2; 3; 4]%nat
                   ["id"; "title"; "content"; "user_id"; "created_at"])
    /\ database.CreatePost req w
       = match posts_check (db w) (posts (db w) ++ [r]) [r] with
         | Some msg =>
             (Err (wrap "failed to create post: " (Errorf msg)),
              with_db (mkDB (users (db w)) (posts (db w)) (users_id_seq (db w))
                            (posts_id_seq (db w) + 1))
                      (sending q [VStr (PostRequest_Title req);
                                  VStr (PostRequest_Content req);
                                  VInt (PostRequest_UserID req); VTime (now w)] w))
         | None =>
             (Ok (stored_post r),
              with_db (mkDB (users (db w)) (posts (db w) ++ [r])
                            (users_id_seq (db w)) (posts_id_seq (db w) + 1))
                      (sending q [VStr (PostRequest_Title req);
                                  VStr (PostRequest_Content req);
                                  VInt (PostRequest_UserID req); VTime (now w)] w))
         end.
Proof.
  intros Hfits r. eexists. split; [| unfold database.CreatePost].
  2:{ unfold bind, time_Now, database.queryRow, QueryRowContext, bind, run, ret.
      match goal with
      | |- context [parse ?q] =>
          let v := eval vm_compute in (parse q) in change (parse q) with v
      end.
      cbn [exec db sending].
      rewrite exec_insert_post, Hfits. fold r.
      destruct (posts_check (db w) (posts (db w) ++ [r]) [r]); reflexivity. }
  vm_compute. reflexivity.
Qed.

(** X21: a valid post for a stored owner is created: the handler sends the
    owner lookup and then the INSERT, the post is appended with the next id
    of the sequence and the clock's time, the users stay as they are, and the
    answer is 201 with the stored post (its username left empty). *)
Theorem valid_post_for_a_stored_owner_is_created :
  forall (r : handlers.Request PostRequest) (req : PostRequest) (w : World),
    handlers.parseJSON r = Ok req ->
    handlers.ValidatePostRequest req = None ->
    user_exists (db w) (PostRequest_UserID req) = true ->
    post_exists (db w) (posts_id_seq (db w) + 1) = false ->
    let row := mkPostRow (posts_id_seq (db w) + 1) (PostRequest_Title req)
                         (PostRequest_Content req) (PostRequest_UserID req)
                         (now w) in
    let w' := snd (handlers.CreatePost r w) in
    fst (handlers.CreatePost r w)
    = handlers.writeJSON http.StatusCreated
        (Json.Marshal (Post_fields (stored_post row)))
    /\ posts (db w') = posts (db w) ++ [row]
    /\ users (db w') = users (db w)
    /\ exists lookup_ insert_,
         sent w'
         = sent w ++ [(lookup_, [VInt (PostRequest_UserID req)]);
                      (insert_, [VStr (PostRequest_Title req);
                                 VStr (PostRequest_Content req);
                                 VInt (PostRequest_UserID req); VTime (now w)])]
         /\ parse lookup_
            = Some (Select ["id"; "username"; "email"; "created_at"] "users" "id" 1)
         /\ parse insert_
            = Some (Insert "posts" ["title"; "content"; "user_id"; "created_at"]
                           [1; 2; 3; 4]%nat
                           ["id"; "title"; "content"; "user_id"; "created_at"]).
Proof.
  intros r req w Hjson Hvalid Howner Hfresh row w'. subst w'.
  unfold handlers.CreatePost. rewrite Hjson, Hvalid.
  unfold bind, ret. rewrite GetUserByID_run.
  unfold user_exists in Howner.
  destruct (filter (fun u => (users_id u =? PostRequest_UserID req)%Z) (users (db w)))
    as [| owner rest] eqn:Hfilter.
  { apply filter_nil_existsb in Hfilter. congruence. }
  set (w1 := sending _ [VInt (PostRequest_UserID req)] w).
  destruct (CreatePost_run req w1
              (post_fits _ (short_fits 255 _ (accepted_post_is_short req Hvalid))))
    as (q & Hq & Hrun).
  change (db w1) with (db w) in Hrun. change (now w1) with (now w) in Hrun.
  fold row in Hrun.
  assert (Hcheck : posts_check (db w) (posts (db w) ++ [row]) [row] = None).
  { unfold posts_check. cbn [forallb]. rewrite !andb_true_r.
    rewrite (proj2 (unique_in_appended (fun r0 => VInt (posts_id r0)) _ row)).
    - cbn [negb posts_user_id row]. unfold user_exists. now rewrite Howner.
    - apply filter_nil_existsb. exact Hfresh. }
  rewrite Hcheck in Hrun. rewrite Hrun. cbn [fst snd db with_db users posts sent].
  repeat split.
  unfold w1, sending. cbn [sent]. rewrite <- app_assoc. cbn [app].
  eexists _, q. split; [reflexivity |]. split; [reflexivity | exact Hq].
Qed.

End PostFacts.

Section RepeatFacts.
Context {ext : Externals}.
Import Go sql models Notions.

(** X22: the four read handlers change no table, and asked again they give
    the same answer. *)
Theorem reading_changes_nothing_and_repeats :
  forall (r : handlers.Request unit) (w : World),
    (db (snd (handlers.GetUser r w)) = db w
     /\ fst (handlers.GetUser r (snd (handlers.GetUser r w)))
        = fst (handlers.GetUser r w))
    /\ (db (snd (handlers.GetPost r w)) = db w
        /\ fst (handlers.GetPost r (snd (handlers.GetPost r w)))
           = fst (handlers.GetPost r w))
    /\ (db (snd (handlers.GetAllUsers w)) = db w
        /\ fst (handlers.GetAllUsers (snd (handlers.GetAllUsers w)))
           = fst (handlers.GetAllUsers w))
    /\ (db (snd (handlers.GetAllPosts w)) = db w
        /\ fst (handlers.GetAllPosts (snd (handlers.GetAllPosts w)))
           = fst (handlers.GetAllPosts w)).
Proof.
  intros r w. repeat match goal with |- _ /\ _ => split end.
  - unfold handlers.GetUser.
    destruct (handlers.parseIDFromURL r "id"); [| reflexivity].
    unfold bind, ret. rewrite GetUserByID_run. reflexivity.
  - unfold handlers.GetUser.
    destruct (handlers.parseIDFromURL r "id"); [| reflexivity].
    unfold bind, ret. rewrite !GetUserByID_run. reflexivity.
  - unfold handlers.GetPost.
    destruct (handlers.parseIDFromURL r "id") as [id |]; [| reflexivity].
    unfold bind, ret. destruct (GetPostByID_run id w) as [q ->]. reflexivity.
  - unfold handlers.GetPost.
    destruct (handlers.parseIDFromURL r "id") as [id |]; [| reflexivity].
    unfold bind, ret. destruct (GetPostByID_run id w) as [q ->].
    cbn [fst snd].
    destruct (GetPostByID_run id (sending q [VInt id] w)) as [q' ->].
    reflexivity.
  - unfold handlers.GetAllUsers, bind, ret. rewrite GetAllUsers_result. reflexivity.
  - unfold handlers.GetAllUsers, bind, ret. rewrite !GetAllUsers_result. reflexivity.
  - unfold handlers.GetAllPosts, bind, ret.
    destruct GetAllPosts_result as [q Hq]. rewrite Hq. reflexivity.
  - unfold handlers.GetAllPosts, bind, ret.
    destruct GetAllPosts_result as [q Hq]. rewrite !Hq. reflexivity.
Qed.

End RepeatFacts.

Section HandlerFacts.
Context {ext : Externals}.
Import Go sql models Notions.

(** X23: deleting a stored user or post through its handler answers 200 with
    the fixed message and no data; the same request sent again answers 404. *)
Theorem a_second_delete_is_not_found :
  forall (r : handlers.Request unit) (id : Z) (w : World),
    handlers.parseIDFromURL r "id" = Ok id ->
    (user_exists (db w) id = true ->
     fst (handlers.DeleteUser r w)
     = handlers.writeSuccess "User deleted successfully" Json.Null
     /\ fst (handlers.DeleteUser r (snd (handlers.DeleteUser r w)))
        = handlers.writeError http.StatusNotFound "Resource not found")
    /\ (post_exists (db w) id = true ->
        fst (handlers.DeletePost r w)
        = handlers.writeSuccess "Post deleted successfully" Json.Null
        /\ fst (handlers.DeletePost r (snd (handlers.DeletePost r w)))
           = handlers.writeError http.StatusNotFound "Resource not found").
Proof.
  intros r id w Hid. unfold handlers.DeleteUser, handlers.DeletePost.
  rewrite Hid. unfold bind, ret. split; intros Hexists.
  - assert (Hgone : user_exists (db (snd (database.DeleteUser id w))) id = false).
    { rewrite DeleteUser_run_db. unfold user_exists. cbn [users].
      apply not_true_is_false. intros Hex. apply existsb_exists in Hex.
      destruct Hex as (u & Hu & Heq). apply filter_In in Hu as [_ Hu].
      rewrite Heq in Hu. discriminate. }
    pose proof (DeleteUser_result id w) as Hfst.
    destruct (database.DeleteUser id w) as [res w1] eqn:Hrun.
    cbn [fst snd] in *.
    rewrite (DeleteUser_missing id w1 Hgone). cbn [fst].
    split; [| vm_compute; reflexivity].
    rewrite Hfst. unfold user_exists in Hexists.
    destruct (filter (fun u => (users_id u =? id)%Z) (users (db w))) eqn:Hfilter;
      [| reflexivity].
    apply filter_nil_existsb in Hfilter. congruence.
  - assert (Hgone : post_exists (db (snd (database.DeletePost id w))) id = false).
    { rewrite DeletePost_run_db. unfold post_exists. cbn [posts].
      apply not_true_is_false. intros Hex. apply existsb_exists in Hex.
      destruct Hex as (p & Hp & Heq). apply filter_In in Hp as [_ Hp].
      rewrite Heq in Hp. discriminate. }
    pose proof (DeletePost_result id w) as Hfst.
    destruct (database.DeletePost id w) as [res w1] eqn:Hrun.
    cbn [fst snd] in *.
    rewrite (DeletePost_missing id w1 Hgone). cbn [fst].
    split; [| vm_compute; reflexivity].
    rewrite Hfst. unfold post_exists in Hexists.
    destruct (filter (fun p => (posts_id p =? id)%Z) (posts (db w))) eqn:Hfilter;
      [| reflexivity].
    apply filter_nil_existsb in Hfilter. congruence.
Qed.


End HandlerFacts.

(** ** What a successful update stores and returns *)

Section RevisionFacts.
Context {ext : Externals}.
Import Go sql models Notions.












End RevisionFacts.

(** ** Exercised on the sample world *)

Section ExercisedFurther.
Import Go sql models handlers.

(** X8, exercised: the route id 42. *)
Lemma route_id_parses_to_its_positive_value_witness :
  exists v,
    decimal "42" 0 = Some v
    /\ (0 <= v)%Z
    /\ ((0 < v <= 2 ^ 63 - 1)%Z ->
        parseIDFromURL (mkRequest [("id", "42")] (Ok tt)) "id" = Ok v)
    /\ ((v = 0 \/ 2 ^ 63 - 1 < v)%Z ->
        exists e, parseIDFromURL (mkRequest [("id", "42")] (Ok tt)) "id" = Err e).
Proof.
  apply (route_id_parses_to_its_positive_value unit [("id", "42")] (Ok tt) "42").
  - split; [discriminate | reflexivity].
  - reflexivity.
Defined.

(** X13, exercised: bob is created in the sample world and found again. *)
Lemma created_user_is_stored_and_found_witness :
  fst (database.GetUserByID 2
         (snd (database.CreateUser (ext := Samples.externals)
                 (mkUserRequest "bob" "bob@x.com" "hunter22") Samples.world)))
  = Ok (mkUser 2 "bob" "bob@x.com" "" 200%Z).
Proof.
  apply (proj2 (proj2 (proj2
           (@created_user_is_stored_and_found Samples.externals
              (mkUserRequest "bob" "bob@x.com" "hunter22") Samples.world
              (snd (database.CreateUser (ext := Samples.externals)
                      (mkUserRequest "bob" "bob@x.com" "hunter22") Samples.world))
              (mkUser 2 "bob" "bob@x.com" "" 200%Z) eq_refl)))).
Defined.


(** X15, exercised: deleting ana removes her post. *)
Lemma deleting_a_user_takes_their_posts_along_witness :
  fst (database.DeleteUser 1 Samples.world) = Ok tt
  /\ posts (db (snd (database.DeleteUser 1 Samples.world))) = [].
Proof.
  destruct (deleting_a_user_takes_their_posts_along 1 Samples.world eq_refl)
    as (Hok & _ & Hposts & _).
  split; [exact Hok | exact Hposts].
Defined.

(** X20, exercised: deleting the sample post keeps ana. *)
Lemma deleting_a_post_removes_only_that_post_witness :
  fst (database.DeletePost 1 Samples.world) = Ok tt
  /\ users (db (snd (database.DeletePost 1 Samples.world))) = [Samples.ana].
Proof.
  destruct (deleting_a_post_removes_only_that_post 1 Samples.world eq_refl)
    as (Hok & _ & Husers & _).
  split; [exact Hok | exact Husers].
Defined.

(** X21, exercised: ana's second post. *)
Lemma valid_post_for_a_stored_owner_is_created_witness :
  posts (db (snd (CreatePost (mkRequest [] (Ok (mkPostRequest "again" "more" 1)))
                             Samples.world)))
  = [Samples.hello; mkPostRow 2 "again" "more" 1 200].
Proof.
  apply (proj1 (proj2 (valid_post_for_a_stored_owner_is_created
                         (mkRequest [] (Ok (mkPostRequest "again" "more" 1)))
                         (mkPostRequest "again" "more" 1) Samples.world
                         eq_refl eq_refl eq_refl eq_refl))).
Defined.

(** X23, exercised: DELETE /users/1, twice. *)
Lemma a_second_delete_is_not_found_witness :
  fst (DeleteUser (mkRequest [("id", "1")] (Ok tt))
         (snd (DeleteUser (mkRequest [("id", "1")] (Ok tt)) Samples.world)))
  = writeError 404 "Resource not found".
Proof.
  apply (proj2 (proj1 (a_second_delete_is_not_found
                         (mkRequest [("id", "1")] (Ok tt)) 1 Samples.world eq_refl)
                      eq_refl)).
Defined.




End ExercisedFurther.
